(** * Luna telemetry: the drone mission simulator and its manual-override registry

    A shallow embedding of

    - [src/lib/autoSimulator] (the file holding [AutoDroneSimulator]),
    - [src/app/api/admin/drone-control/const.ts] (the shared [droneStates] map),
    - [src/app/api/admin/drone-control/route.ts] (the admin [POST] handler and
      its copy of the override check),

    followed by the properties of the specification that concern them.

    Conventions of the embedding.

    - A JavaScript [number] is a real number ([R]): arithmetic is exact, so the
      development speaks about the arithmetic the code writes down and not about
      the rounding of IEEE doubles.  [Math.random()] is a draw in [[0,1)].
      Where a property of the motion depends on the rounding, the two motion
      functions are embedded a second time, on binary64 numbers (module
      [Binary64]), and evaluated there.
    - A [Date] obtained from the host clock is its time value, an integer number
      of milliseconds ([Z]).  Only the override expiry, which the admin handler
      builds from a request field, can be an invalid [Date]; it has its own type.
    - The host is a pair of oracles: [clock n] is the value of the [n]-th reading
      of the clock ([new Date()], [Date.now()]) and [random n] the value of the
      [n]-th call of [Math.random()].  The [World] counts the readings made so
      far, and carries the two pieces of shared mutable state of the program:
      the override registry and the persisted telemetry.
    - A JavaScript [Map] that is iterated is an association list in insertion
      order; the registry, which is only read and written by key, is a [gmap].
    - The persistence collaborator is an append-only store that does not fail:
      the telemetry of the [World] is the list of the batches stored so far,
      one per [insertMany] or [save].  Console output is left out. *)

From Stdlib Require Import Reals Lra Lia ZArith List.
From Stdlib Require Floats.
From stdpp Require Import base option list gmap strings pretty.
From Equations Require Import Equations.
Import ListNotations.

#[local] Open Scope Z_scope.
#[local] Open Scope R_scope.

(** ** JavaScript numbers *)

Definition Rltb (x y : R) : bool := if Rlt_dec x y then true else false.
Definition Rleb (x y : R) : bool := if Rle_dec x y then true else false.
Definition Rgtb (x y : R) : bool := Rltb y x.

(** [Math.floor] and [Math.round] (the nearest integer, halves upwards). *)
Definition Math_floor (x : R) : Z := Int_part x.
Definition Math_round (x : R) : Z := Int_part (x + / 2).
Definition Math_min (x y : R) : R := Rmin x y.
Definition Math_max (x y : R) : R := Rmax x y.
Definition Math_abs (x : R) : R := Rabs x.
Definition Math_sqrt (x : R) : R := sqrt x.
Definition Math_sin (x : R) : R := sin x.
Definition Math_PI : R := PI.

(** [a[i]] for an index computed by [Math.floor]: [undefined] out of range. *)
Definition array_get {A} (a : list A) (i : Z) : option A :=
  if (i <? 0)%Z then None else nth_error a (Z.to_nat i).

(** ** Dates *)

(** A [Date] is a time value or invalid ([NaN] time value). *)
Inductive Date : Type :=
| DateAt (ms : Z)
| InvalidDate.

(** [now > d] for a valid [now]: the comparison of the two time values, false
    when [d] is invalid. *)
Definition Date_gt (now : Z) (d : Date) : bool :=
  match d with
  | DateAt e => (e <? now)%Z
  | InvalidDate => false
  end.

(** Truncation towards zero, as [new Date(number)] applies it. *)
Definition trunc (x : R) : Z :=
  if Rle_dec 0 x then Int_part x else (- Int_part (- x))%Z.

(** [new Date(x)] for a number [x]: the time value is clipped to
    +-8.64e15 ms. *)
Definition Date_of_number (x : R) : Date :=
  if Rleb (Rabs x) 8640000000000000 then DateAt (trunc x) else InvalidDate.

(** ** Request values *)

(** A value of a parsed JSON body, or [undefined] for a missing field.  An
    array or an object is kept as the string [ToPrimitive] makes of it. *)
Inductive JsValue : Type :=
| JsUndefined
| JsNull
| JsBool (b : bool)
| JsNumber (x : R)
| JsString (s : string)
| JsObject (prim : string).

(** [ToBoolean]; a JSON number is never [NaN]. *)
Definition truthy (v : JsValue) : bool :=
  match v with
  | JsUndefined | JsNull => false
  | JsBool b => b
  | JsNumber x => if Req_dec_T x 0 then false else true
  | JsString s => if decide (s = EmptyString) then false else true
  | JsObject _ => true
  end.

(** [a || b] *)
Definition js_or (a b : JsValue) : JsValue := if truthy a then a else b.

(** ** Data model *)

Record LatLng : Type := mkLatLng { lat : R; lng : R }.

(** [const.ts]: the value type of the [droneStates] map. *)
Record OverrideEntry : Type := mkOverrideEntry {
  oe_status : string;
  oe_isOnline : bool;
  oe_battery : option R;
  oe_lastUpdate : Z;
  manualOverride : bool;
  overrideExpiry : option Date;
  oe_lastPosition : option LatLng;
}.

(** [{ ...state, manualOverride: false, overrideExpiry: undefined }] *)
Definition clear_override (state : OverrideEntry) : OverrideEntry :=
  {| oe_status := oe_status state;
     oe_isOnline := oe_isOnline state;
     oe_battery := oe_battery state;
     oe_lastUpdate := oe_lastUpdate state;
     manualOverride := false;
     overrideExpiry := None;
     oe_lastPosition := oe_lastPosition state |}.

(** [TelemetryData]; [td_status] is [None] for [undefined]. *)
Record TelemetryData : Type := mkTelemetryData {
  droneId : string;
  timestamp : Z;
  battery : R;
  temperature : R;
  humidity : R;
  speed : R;
  altitude : R;
  td_lat : R;
  td_lng : R;
  td_status : option string;
}.

(** The simulator's module-level [droneStates] variable: [null] until
    [getDroneStates] runs, then the very map of [const.ts] (an alias, not a
    copy) or, when the import fails, a fresh map of its own. *)
Inductive StatesRef : Type :=
| RefNull
| RefShared
| RefOwn (m : gmap string OverrideEntry).

Record World : Type := mkWorld {
  clockReads : nat;
  randomCalls : nat;
  registry : gmap string OverrideEntry;
  simStates : StatesRef;
  telemetry : list (list TelemetryData);
}.

Definition set_registry (m : gmap string OverrideEntry) (w : World) : World :=
  {| clockReads := clockReads w; randomCalls := randomCalls w;
     registry := m; simStates := simStates w; telemetry := telemetry w |}.

Definition set_simStates (r : StatesRef) (w : World) : World :=
  {| clockReads := clockReads w; randomCalls := randomCalls w;
     registry := registry w; simStates := r; telemetry := telemetry w |}.

(** ** The state monad of the program *)

Definition Sim (A : Type) : Type := World -> A * World.

Definition ret {A} (a : A) : Sim A := fun w => (a, w).
Definition bind {A B} (m : Sim A) (k : A -> Sim B) : Sim B :=
  fun w => let '(a, w') := m w in k a w'.

Declare Scope sim_scope.
Delimit Scope sim_scope with sim.
Notation "'let*' x ':=' m 'in' k" := (bind m (fun x => k))
  (at level 10, x pattern, m at level 100, k at level 200) : sim_scope.
Notation "m ';;;' k" := (bind m (fun _ => k))
  (at level 100, k at level 200, right associativity) : sim_scope.
#[local] Open Scope sim_scope.

(** The map the simulator's reference denotes, if any. *)
Definition deref (w : World) : option (gmap string OverrideEntry) :=
  match simStates w with
  | RefNull => None
  | RefShared => Some (registry w)
  | RefOwn m => Some m
  end.

(** [droneStates.set(k, v)] through the simulator's reference. *)
Definition deref_set (k : string) (v : OverrideEntry) (w : World) : World :=
  match simStates w with
  | RefNull => w
  | RefShared => set_registry (<[k := v]> (registry w)) w
  | RefOwn m => set_simStates (RefOwn (<[k := v]> m)) w
  end.

(** The world after a reading of the clock, after a call of
    [Math.random()], and after a batch has been stored. *)
Definition clock_read (w : World) : World :=
  {| clockReads := S (clockReads w); randomCalls := randomCalls w;
     registry := registry w; simStates := simStates w;
     telemetry := telemetry w |}.

Definition random_called (w : World) : World :=
  {| clockReads := clockReads w; randomCalls := S (randomCalls w);
     registry := registry w; simStates := simStates w;
     telemetry := telemetry w |}.

Definition stored (batch : list TelemetryData) (w : World) : World :=
  {| clockReads := clockReads w; randomCalls := randomCalls w;
     registry := registry w; simStates := simStates w;
     telemetry := telemetry w ++ [batch] |}.

Section Host.

Variable clock : nat -> Z.
Variable random : nat -> R.

(** [new Date()] / [Date.now()] *)
Definition Date_now : Sim Z := fun w => (clock (clockReads w), clock_read w).

(** [Math.random()] *)
Definition Math_random : Sim R := fun w =>
  (random (randomCalls w), random_called w).

(** [Telemetry.insertMany(batch)] *)
Definition insertMany (batch : list TelemetryData) : Sim unit := fun w =>
  (tt, stored batch w).

(** [Telemetry.countDocuments()] *)
Definition countDocuments : Sim nat := fun w =>
  (length (concat (telemetry w)), w).

End Host.

(** [Date.prototype.getHours] and [getDay] read the local time: [tzOffset t] is
    the offset of local time from UTC, in milliseconds, at the instant [t]. *)
Section LocalTime.

Variable tzOffset : Z -> Z.

Definition getHours (t : Z) : Z := (((t + tzOffset t) / 3600000) mod 24)%Z.

(** 1 January 1970 was a Thursday (day 4). *)
Definition getDay (t : Z) : Z := (((t + tzOffset t) / 86400000 + 4) mod 7)%Z.

End LocalTime.

(** ** The admin route's copy of the override check ([route.ts]) *)

Module Route.
Section Host.

Variable clock : nat -> Z.

(** [droneStates.get(droneId)] on the imported map. *)
Definition droneStates_get (droneId : string) : Sim (option OverrideEntry) :=
  fun w => (registry w !! droneId, w).

Definition droneStates_set (droneId : string) (state : OverrideEntry) : Sim unit :=
  fun w => (tt, set_registry (<[droneId := state]> (registry w)) w).

Definition isDroneUnderManualOverride (droneId : string) : Sim bool :=
  let* state := droneStates_get droneId in
  match state with
  | None => ret false
  | Some state =>
    if negb (manualOverride state) then ret false
    else
      let* now := Date_now clock in
      match overrideExpiry state with
      | Some expiry =>
        if Date_gt now expiry then
          (* Override expired, clean it up *)
          droneStates_set droneId (clear_override state) ;;;
          ret false
        else ret true
      | None => ret true
      end
  end.

(** [Telemetry.findOne({ droneId }).sort({ timestamp: -1 })]: a record of
    the drone with the greatest timestamp (the first stored, among equals). *)
Definition findOne_latest (id : string) : Sim (option TelemetryData) := fun w =>
  (foldl
     (fun best r =>
        if decide (droneId r = id) then
          match best with
          | None => Some r
          | Some b => if (timestamp b <? timestamp r)%Z then Some r else Some b
          end
        else best)
     None (concat (telemetry w)),
   w).

(** [new Telemetry(data).save()] *)
Definition save (data : TelemetryData) : Sim unit := insertMany [data].

Variable random : nat -> R.

(** [new Date(s)] for a string [s]: the parser of the host. *)
Variable Date_parse : string -> Date.

#[local] Abbreviation Date_now := (Date_now clock).
#[local] Abbreviation Math_random := (Math_random random).

(** [new Date(Date.now() + overrideDuration)]: [+] adds numbers and
    concatenates as soon as one side is a string. *)
Definition Date_of_sum (now : Z) (v : JsValue) : Date :=
  match v with
  | JsNumber x => Date_of_number (IZR now + x)
  | JsBool b => Date_of_number (IZR now + (if b then 1 else 0))
  | JsNull => Date_of_number (IZR now + 0)
  | JsUndefined => InvalidDate
  | JsString s => Date_parse (pretty now ++ s)
  | JsObject prim => Date_parse (pretty now ++ prim)
  end.

Record Context : Type := mkContext {
  ctx_battery : R;
  ctx_lastPosition : LatLng;
  ctx_previousTelemetry : option TelemetryData;
}.

(** [generateRealisticTelemetry] *)
Definition generateRealisticTelemetry (id : string) (status : string)
  (context : Context) : Sim TelemetryData :=
  let battery := ctx_battery context in
  let lastPosition := ctx_lastPosition context in
  let basePosition := {| lat := -1.2921; lng := 36.8219 |} in
  let* now := Date_now in
  let telemetryData temperature battery speed altitude lat lng :=
    {| droneId := id; timestamp := now; battery := battery;
       temperature := temperature; humidity := 65; speed := speed;
       altitude := altitude; td_lat := lat; td_lng := lng;
       td_status := Some status |} in
  if decide (status = "Powered Off") then
    let* r := Math_random in
    ret (telemetryData (22 + r * 3) battery 0 0
           (lat basePosition) (lng basePosition))
  else if decide (status = "Standby") then
    let* r := Math_random in
    ret (telemetryData (25 + r * 3) (Math_min 100 (battery + 1)) 0 0
           (lat basePosition) (lng basePosition))
  else if decide (status = "Pre-Flight") then
    let* r := Math_random in
    ret (telemetryData (28 + r * 3) battery 0 0
           (lat basePosition) (lng basePosition))
  else if decide (status = "Active") then
    let* r := Math_random in
    ret (telemetryData (30 + r * 4) (Math_max (battery - 0.5) 20) 0 0
           (lat basePosition) (lng basePosition))
  else if decide (status = "In Flight") then
    let* r1 := Math_random in
    let* r2 := Math_random in
    let* r3 := Math_random in
    let* r4 := Math_random in
    let* r5 := Math_random in
    ret (telemetryData (35 + r1 * 6) (Math_max (battery - 2) 15)
           (40 + r2 * 25) (120 + r3 * 80)
           (lat lastPosition + (r4 - 0.5) * 0.01)
           (lng lastPosition + (r5 - 0.5) * 0.01))
  else if decide (status = "Landing") then
    let* r1 := Math_random in
    let* r2 := Math_random in
    let* r3 := Math_random in
    ret (telemetryData (33 + r1 * 4) (Math_max (battery - 1) 15)
           (5 + r2 * 10) (r3 * 20)
           (lat lastPosition) (lng lastPosition))
  else if decide (status = "Delivered") then
    let* r := Math_random in
    ret (telemetryData (32 + r * 4) (Math_max (battery - 0.5) 15) 0 0
           (lat lastPosition) (lng lastPosition))
  else if decide (status = "Returning") then
    let* r1 := Math_random in
    let* r2 := Math_random in
    let* r3 := Math_random in
    ret (telemetryData (34 + r1 * 5) (Math_max (battery - 1.5) 15)
           (35 + r2 * 20) (100 + r3 * 60)
           (lat lastPosition + (lat basePosition - lat lastPosition) * 0.1)
           (lng lastPosition + (lng basePosition - lng lastPosition) * 0.1))
  else if decide (status = "Maintenance") then
    let* r := Math_random in
    ret (telemetryData (24 + r * 2) battery 0 0
           (lat basePosition) (lng basePosition))
  else if decide (status = "Emergency") then
    let* r1 := Math_random in
    let* r2 := Math_random in
    let* r3 := Math_random in
    ret (telemetryData (40 + r1 * 8) (Math_max (battery - 3) 5)
           (r2 * 15) (r3 * 50)
           (lat lastPosition) (lng lastPosition))
  else
    ret (telemetryData 28 battery 0 0 (lat lastPosition) (lng lastPosition)).

(** The JSON body of the request, for a [droneId] and a [status] that are
    strings (or missing) and a [battery] that is a number (or missing);
    [requested] below is the [battery] of the body. *)
Record Body : Type := mkBody {
  body_droneId : option string;
  body_status : option string;
  body_isOnline : option bool;
  body_battery : option R;
  body_duration : JsValue;
}.

Record Success : Type := mkSuccess {
  res_droneId : string;
  res_status : string;
  res_isOnline : bool;
  res_battery : R;
  res_timestamp : Z;
  res_overrideExpiry : Z;
}.

Inductive Response : Type :=
| Status400
| Status500
| Status200 (body : Success).

Definition string_truthy (s : option string) : option string :=
  match s with
  | Some s => if decide (s = EmptyString) then None else Some s
  | None => None
  end.

(** [lastTelemetry?.battery || 85] *)
Definition last_battery (lastTelemetry : option TelemetryData) : R :=
  match lastTelemetry with
  | Some t => if Req_dec_T (battery t) 0 then 85 else battery t
  | None => 85
  end.

(** [POST] *)
Definition POST (request : Body) : Sim Response :=
  match string_truthy (body_droneId request), string_truthy (body_status request) with
  | Some id, Some status =>
    let isOnline := body_isOnline request in
    let requested := body_battery request in
    let duration := body_duration request in
    (* Calculate override expiry (default 5 minutes, or specified duration) *)
    let overrideDuration := js_or duration (JsNumber (5 * 60 * 1000)) in
    let* now := Date_now in
    let overrideExpiry := Date_of_sum now overrideDuration in
    (* Get last known position *)
    let* lastTelemetry := findOne_latest id in
    let position t := {| lat := td_lat t; lng := td_lng t |} in
    (* Update in-memory state with manual override *)
    let* lastUpdate := Date_now in
    droneStates_set id
      {| oe_status := status;
         oe_isOnline :=
           match isOnline with
           | Some b => b
           | None => if decide (status = "Powered Off") then false else true
           end;
         oe_battery :=
           Some (match requested with
                 | Some b => b
                 | None => last_battery lastTelemetry
                 end);
         oe_lastUpdate := lastUpdate;
         manualOverride := true;
         overrideExpiry := Some overrideExpiry;
         oe_lastPosition := position <$> lastTelemetry |} ;;;
    (* Create realistic telemetry based on status *)
    let* realisticTelemetry :=
      generateRealisticTelemetry id status
        {| ctx_battery :=
             match requested with
             | Some b => b
             | None => last_battery lastTelemetry
             end;
           ctx_lastPosition :=
             match lastTelemetry with
             | Some t => position t
             | None => {| lat := -1.2921; lng := 36.8219 |}
             end;
           ctx_previousTelemetry := lastTelemetry |} in
    (* Save to database *)
    save realisticTelemetry ;;;
    let* timestamp := Date_now in
    match overrideExpiry with
    | DateAt expiry =>
      ret (Status200
             {| res_droneId := id;
                res_status := status;
                res_isOnline :=
                  Rgtb (speed realisticTelemetry) 0
                  || (if decide (status = "Active") then true else false);
                res_battery := battery realisticTelemetry;
                res_timestamp := timestamp;
                res_overrideExpiry := expiry |})
    | InvalidDate =>
      (* [toISOString] throws on an invalid date: the [catch] answers *)
      ret Status500
    end
  | _, _ => ret Status400
  end.

(** The sweep of [GET]: every entry whose override has expired at [now] is
    replaced by its cleared copy.  The loop sets existing keys only, one at a
    time and independently of each other, so it is a map over the entries. *)
Definition expired (now : Z) (state : OverrideEntry) : bool :=
  manualOverride state &&
  match overrideExpiry state with
  | Some expiry => Date_gt now expiry
  | None => false
  end.

Definition sweep (now : Z) (state : OverrideEntry) : OverrideEntry :=
  if expired now state then clear_override state else state.

(** The answer of [GET]: the state of one drone, or all the states (the
    array of the answer lists the entries of the map; it is kept as the
    map). *)
Inductive Listing : Type :=
| OneState (id : string) (state : OverrideEntry)
| AllStates (states : gmap string OverrideEntry).

(** [GET], for the [droneId] of the query string ([None] when absent). *)
Definition GET (droneId : option string) : Sim Listing :=
  (* Clean up expired overrides *)
  let* now := Date_now in
  (fun w => (tt, set_registry (sweep now <$> registry w) w)) ;;;
  let all : Sim Listing := fun w => (AllStates (registry w), w) in
  match string_truthy droneId with
  | Some id =>
    let* state := droneStates_get id in
    match state with
    | Some state => ret (OneState id state)
    | None => all
    end
  | None => all
  end.

End Host.
End Route.

(** ** The simulator *)

Module Simulator.

Inductive MissionPhase : Type :=
| idle | preparing | flying | delivering | returning.

Record Destination : Type := mkDestination {
  dest_lat : R;
  dest_lng : R;
  dest_name : string;
}.

(** A destination passed where a [{ lat, lng }] is expected. *)
Definition point (d : Destination) : LatLng :=
  {| lat := dest_lat d; lng := dest_lng d |}.

Record DroneProfile : Type := mkDroneProfile {
  dp_id : string;
  dp_name : string;
  baseLocation : LatLng;
  batteryDecayRate : R;
  maxSpeed : R;
  operatingAltitude : R;
  currentBattery : R;
  currentLocation : LatLng;
  missionPhase : MissionPhase;
  missionStartTime : option Z;
  destination : option Destination;
  dp_manualOverride : option bool;
}.

(** Field assignments [profile.f = v]. Every profile object and every
    [currentLocation] object has a single owner (the [{ ...baseLocation }]
    copies see to it), and the shared destination objects are never written,
    so an assignment is the replacement of a value. *)
Definition set_currentBattery (v : R) (p : DroneProfile) : DroneProfile :=
  {| dp_id := dp_id p; dp_name := dp_name p; baseLocation := baseLocation p;
     batteryDecayRate := batteryDecayRate p; maxSpeed := maxSpeed p;
     operatingAltitude := operatingAltitude p;
     currentBattery := v;
     currentLocation := currentLocation p; missionPhase := missionPhase p;
     missionStartTime := missionStartTime p; destination := destination p;
     dp_manualOverride := dp_manualOverride p |}.

Definition set_currentLocation (v : LatLng) (p : DroneProfile) : DroneProfile :=
  {| dp_id := dp_id p; dp_name := dp_name p; baseLocation := baseLocation p;
     batteryDecayRate := batteryDecayRate p; maxSpeed := maxSpeed p;
     operatingAltitude := operatingAltitude p;
     currentBattery := currentBattery p;
     currentLocation := v;
     missionPhase := missionPhase p;
     missionStartTime := missionStartTime p; destination := destination p;
     dp_manualOverride := dp_manualOverride p |}.

Definition set_missionPhase (v : MissionPhase) (p : DroneProfile) : DroneProfile :=
  {| dp_id := dp_id p; dp_name := dp_name p; baseLocation := baseLocation p;
     batteryDecayRate := batteryDecayRate p; maxSpeed := maxSpeed p;
     operatingAltitude := operatingAltitude p;
     currentBattery := currentBattery p; currentLocation := currentLocation p;
     missionPhase := v;
     missionStartTime := missionStartTime p; destination := destination p;
     dp_manualOverride := dp_manualOverride p |}.

Definition set_missionStartTime (v : option Z) (p : DroneProfile) : DroneProfile :=
  {| dp_id := dp_id p; dp_name := dp_name p; baseLocation := baseLocation p;
     batteryDecayRate := batteryDecayRate p; maxSpeed := maxSpeed p;
     operatingAltitude := operatingAltitude p;
     currentBattery := currentBattery p; currentLocation := currentLocation p;
     missionPhase := missionPhase p;
     missionStartTime := v;
     destination := destination p;
     dp_manualOverride := dp_manualOverride p |}.

Definition set_destination (v : option Destination) (p : DroneProfile) : DroneProfile :=
  {| dp_id := dp_id p; dp_name := dp_name p; baseLocation := baseLocation p;
     batteryDecayRate := batteryDecayRate p; maxSpeed := maxSpeed p;
     operatingAltitude := operatingAltitude p;
     currentBattery := currentBattery p; currentLocation := currentLocation p;
     missionPhase := missionPhase p; missionStartTime := missionStartTime p;
     destination := v;
     dp_manualOverride := dp_manualOverride p |}.

(** [private destinations = [...]] *)
Definition destinations : list Destination :=
  [ mkDestination (-1.2500) 36.7833 "Karen Hospital";
    mkDestination (-1.3500) 36.9167 "Machakos Hospital";
    mkDestination (-1.1667) 36.8000 "Kiambu Medical Center";
    mkDestination (-1.4000) 36.9500 "Athi River Clinic";
    mkDestination (-1.2000) 36.7500 "Limuru Health Center" ].

(** The [Omit<DroneProfile, ...>] entries of [initializeProfiles]. *)
Record InitialProfile : Type := mkInitialProfile {
  ip_id : string;
  ip_name : string;
  ip_baseLocation : LatLng;
  ip_batteryDecayRate : R;
  ip_maxSpeed : R;
  ip_operatingAltitude : R;
}.

Definition initialProfiles : list InitialProfile :=
  [ mkInitialProfile "A1" "Drone A1" (mkLatLng (-1.2921) 36.8219) 0.8 65 150;
    mkInitialProfile "A2" "Drone A2" (mkLatLng (-1.3032) 36.8356) 0.7 70 180;
    mkInitialProfile "B1" "Drone B1" (mkLatLng (-1.2745) 36.8098) 0.9 60 120;
    mkInitialProfile "B2" "Drone B2" (mkLatLng (-1.3167) 36.8833) 0.6 75 200 ].

(** [Map<string, DroneProfile>], in insertion order. *)
Definition Profiles : Type := list (string * DroneProfile).

Fixpoint Map_set {V} (k : string) (v : V) (m : list (string * V)) : list (string * V) :=
  match m with
  | [] => [(k, v)]
  | (k', v') :: m' =>
    if decide (k = k') then (k, v) :: m' else (k', v') :: Map_set k v m'
  end.

(** [calculateDistance] *)
Definition calculateDistance (point1 point2 : LatLng) : R :=
  let latDiff := lat point2 - lat point1 in
  let lngDiff := lng point2 - lng point1 in
  Math_sqrt (latDiff * latDiff + lngDiff * lngDiff).

(** [moveTowardsDestination]; the profile it returns is the profile after the
    two [+=] on [profile.currentLocation]. *)
Definition moveTowardsDestination (profile : DroneProfile) (destination : LatLng)
  : DroneProfile :=
  let speed := maxSpeed profile in
  let timeStep := 20 / 3600 in
  let distanceStep := speed * timeStep in
  let degreeStep := distanceStep / 111 in
  let latDiff := lat destination - lat (currentLocation profile) in
  let lngDiff := lng destination - lng (currentLocation profile) in
  let totalDistance := Math_sqrt (latDiff * latDiff + lngDiff * lngDiff) in
  if Rgtb totalDistance 0 then
    let stepRatio := Math_min (degreeStep / totalDistance) 1 in
    set_currentLocation
      {| lat := lat (currentLocation profile) + latDiff * stepRatio;
         lng := lng (currentLocation profile) + lngDiff * stepRatio |}
      profile
  else profile.

Section Host.

Variable clock : nat -> Z.
Variable random : nat -> R.
Variable tzOffset : Z -> Z.

#[local] Abbreviation Date_now := (Date_now clock).
#[local] Abbreviation Math_random := (Math_random random).
#[local] Abbreviation getHours := (getHours tzOffset).
#[local] Abbreviation getDay := (getDay tzOffset).

(** [getDroneStates]: the dynamic import either yields the map of
    [const.ts] or fails, in which case the simulator keeps a map of its
    own. *)
Definition getDroneStates (importFails : bool) : Sim unit := fun w =>
  match simStates w with
  | RefNull =>
    (tt, set_simStates (if importFails then RefOwn ∅ else RefShared) w)
  | _ => (tt, w)
  end.

(** The module-level variable [droneStates], and [droneStates.set]. *)
Definition droneStates : Sim (option (gmap string OverrideEntry)) :=
  fun w => (deref w, w).

Definition droneStates_set (droneId : string) (state : OverrideEntry) : Sim unit :=
  fun w => (tt, deref_set droneId state w).

Definition isDroneUnderManualOverride (droneId : string) : Sim bool :=
  let* states := droneStates in
  match states with
  | None => ret false
  | Some states =>
    match states !! droneId with
    | None => ret false
    | Some state =>
      if negb (manualOverride state) then ret false
      else
        let* now := Date_now in
        match overrideExpiry state with
        | Some expiry =>
          if Date_gt now expiry then
            (* Override expired, clean it up *)
            droneStates_set droneId (clear_override state) ;;;
            ret false
          else ret true
        | None => ret true
        end
    end
  end.

(** [initializeProfiles] *)
Fixpoint initializeProfiles_forEach (l : list InitialProfile) (profiles : Profiles)
  : Sim Profiles :=
  match l with
  | [] => ret profiles
  | profile :: l' =>
    let* r := Math_random in
    initializeProfiles_forEach l'
      (Map_set (ip_id profile)
         {| dp_id := ip_id profile; dp_name := ip_name profile;
            baseLocation := ip_baseLocation profile;
            batteryDecayRate := ip_batteryDecayRate profile;
            maxSpeed := ip_maxSpeed profile;
            operatingAltitude := ip_operatingAltitude profile;
            currentBattery := 85 + r * 15;
            currentLocation := ip_baseLocation profile;
            missionPhase := idle;
            missionStartTime := None;
            destination := None;
            dp_manualOverride := None |}
         profiles)
  end.

Definition initializeProfiles : Sim Profiles :=
  initializeProfiles_forEach initialProfiles [].

(** [updateDroneState]; [a && b] and [a || b] draw [b] only when needed. *)
Definition updateDroneState (profile : DroneProfile) : Sim DroneProfile :=
  let* now := Date_now in
  let* profile :=
    match missionPhase profile with
    | idle =>
      let isBusinessHours := (8 <=? getHours now)%Z && (getHours now <=? 18)%Z in
      let* shouldStartMission :=
        if isBusinessHours then
          let* r := Math_random in
          ret (Rltb r 0.10 && Rgtb (currentBattery profile) 50)
        else ret false in
      if shouldStartMission then
        let profile := set_missionPhase preparing profile in
        let profile := set_missionStartTime (Some now) profile in
        let* r := Math_random in
        ret (set_destination
               (array_get destinations
                  (Math_floor (r * INR (length destinations))))
               profile)
      else
        ret (set_currentBattery
               (Math_min 100 (currentBattery profile + 0.3)) profile)
    | preparing =>
      let* r := Math_random in
      if Rltb r 0.5 then ret (set_missionPhase flying profile)
      else ret profile
    | flying =>
      match destination profile with
      | Some dest =>
        let profile := moveTowardsDestination profile (point dest) in
        let profile :=
          set_currentBattery
            (currentBattery profile - batteryDecayRate profile * 0.8) profile in
        let distanceToDestination :=
          calculateDistance (currentLocation profile) (point dest) in
        let* arrived :=
          if Rltb distanceToDestination 0.005 then ret true
          else let* r := Math_random in ret (Rltb r 0.08) in
        if arrived then ret (set_missionPhase delivering profile)
        else ret profile
      | None => ret profile
      end
    | delivering =>
      let profile := set_currentBattery (currentBattery profile - 0.2) profile in
      let* r := Math_random in
      if Rltb r 0.3 then ret (set_missionPhase returning profile)
      else ret profile
    | returning =>
      let profile := moveTowardsDestination profile (baseLocation profile) in
      let profile :=
        set_currentBattery
          (currentBattery profile - batteryDecayRate profile * 0.6) profile in
      let distanceToBase :=
        calculateDistance (currentLocation profile) (baseLocation profile) in
      let* home :=
        if Rltb distanceToBase 0.002 then ret true
        else let* r := Math_random in ret (Rltb r 0.12) in
      if home then
        let profile := set_missionPhase idle profile in
        let profile := set_currentLocation (baseLocation profile) profile in
        let profile := set_destination None profile in
        ret (set_missionStartTime None profile)
      else ret profile
    end in
  ret (set_currentBattery (Math_max 15 (currentBattery profile)) profile).

(** [generateHistoricalDataPoint]; the draws are made in the order in which
    the source evaluates its [Math.random()] calls. *)
Definition statusOptions : list string :=
  ["Standby"; "Active"; "In Flight"; "Delivered"; "Returning"].

Definition generateHistoricalDataPoint (profile : DroneProfile) (timestamp : Z)
  : Sim TelemetryData :=
  let isBusinessHours :=
    (8 <=? getHours timestamp)%Z && (getHours timestamp <=? 18)%Z in
  let isWeekend := (getDay timestamp =? 0)%Z || (getDay timestamp =? 6)%Z in
  let activityLevel := if isBusinessHours && negb isWeekend then 0.6 else 0.2 in
  let* r := Math_random in
  let isActive := Rltb r activityLevel in
  if isActive then
    let* missionProgress := Math_random in
    let* r1 := Math_random in
    let battery := 90 - missionProgress * 40 + r1 * 10 in
    let* r2 := Math_random in
    let temperature := 32 + missionProgress * 8 + r2 * 4 in
    let* r3 := Math_random in
    let speed := maxSpeed profile * (0.6 + r3 * 0.4) in
    let* r4 := Math_random in
    let latOffset := (r4 - 0.5) * 0.08 in
    let* r5 := Math_random in
    let lngOffset := (r5 - 0.5) * 0.08 in
    let* r6 := Math_random in
    let* r7 := Math_random in
    let* r8 := Math_random in
    ret {| droneId := dp_id profile;
           timestamp := timestamp;
           battery := IZR (Math_round (Math_max 20 battery * 10)) / 10;
           temperature := IZR (Math_round (temperature * 10)) / 10;
           humidity := IZR (Math_round ((55 + r6 * 25) * 10)) / 10;
           speed := IZR (Math_round (speed * 10)) / 10;
           altitude := operatingAltitude profile + r7 * 40 - 20;
           td_lat :=
             IZR (Math_round ((lat (baseLocation profile) + latOffset) * 1000000))
             / 1000000;
           td_lng :=
             IZR (Math_round ((lng (baseLocation profile) + lngOffset) * 1000000))
             / 1000000;
           td_status :=
             array_get statusOptions
               (Math_floor (r8 * INR (length statusOptions))) |}
  else
    let* r1 := Math_random in
    let* r2 := Math_random in
    let* r3 := Math_random in
    ret {| droneId := dp_id profile;
           timestamp := timestamp;
           battery := 85 + r1 * 15;
           temperature := 26 + r2 * 4;
           humidity := 60 + r3 * 20;
           speed := 0;
           altitude := 0;
           td_lat := lat (baseLocation profile);
           td_lng := lng (baseLocation profile);
           td_status := Some "Standby" |}.

(** [Array.from(this.profiles.values()).forEach(profile => ...push(...))] *)
Fixpoint historical_forEach (profiles : Profiles) (timestamp : Z)
  (batchData : list TelemetryData) : Sim (list TelemetryData) :=
  match profiles with
  | [] => ret batchData
  | (_, profile) :: rest =>
    let* data := generateHistoricalDataPoint profile timestamp in
    historical_forEach rest timestamp (batchData ++ [data])
  end.

(** [for (let i = totalPoints; i >= 0; i--)], entered with [i >= 0]. *)
Fixpoint historical_loop (profiles : Profiles) (now : Z) (intervalMinutes : Z)
  (i : nat) (batchData : list TelemetryData) : Sim (list TelemetryData) :=
  let timestamp := (now - Z.of_nat i * intervalMinutes * 60000)%Z in
  let* batchData := historical_forEach profiles timestamp batchData in
  match i with
  | O => ret batchData
  | S i' => historical_loop profiles now intervalMinutes i' batchData
  end.

(** [batchData.slice(i, j)] *)
Definition slice {A} (l : list A) (i j : nat) : list A :=
  take (j - i) (drop i l).

(** [const batchSize = 100] and
    [for (let i = 0; i < batchData.length; i += batchSize)] *)
Definition batchSize : nat := 100.

Equations insert_loop (batchData : list TelemetryData) (i : nat) (w : World)
  : unit * World by wf (length batchData - i)%nat lt :=
insert_loop batchData i w with lt_dec i (length batchData) := {
  | left _ =>
    let batch := slice batchData i (i + batchSize) in
    let '(_, w1) := insertMany batch w in
    insert_loop batchData (i + batchSize) w1;
  | right _ => (tt, w) }.
Next Obligation. unfold batchSize. lia. Qed.

(** [generateHistoricalData(hours)], for a whole number of hours: the
    division by [intervalMinutes] is then exact. *)
Definition generateHistoricalData (profiles : Profiles) (hours : Z) : Sim unit :=
  let* now := Date_now in
  let intervalMinutes := 3%Z in
  let totalPoints := (hours * 60 / intervalMinutes)%Z in
  let* batchData :=
    if (0 <=? totalPoints)%Z then
      historical_loop profiles now intervalMinutes (Z.to_nat totalPoints) []
    else ret [] in
  insert_loop batchData 0.

(** [initializeDatabase] *)
Definition initializeDatabase (profiles : Profiles) : Sim unit :=
  let* count := countDocuments in
  if (count =? 0)%nat then generateHistoricalData profiles 6
  else ret tt.

(** [generateCurrentTelemetry] *)
Definition generateCurrentTelemetry (profile : DroneProfile) (timestamp : Z)
  : Sim TelemetryData :=
  let speed := 0 in
  let altitude := 0 in
  let* r := Math_random in
  let temperature := 26 + r * 4 in
  let* (status, speed, altitude, temperature) :=
    match missionPhase profile with
    | idle =>
      let* r := Math_random in
      ret ("Standby"%string, speed, altitude, 25 + r * 3)
    | preparing =>
      let* r := Math_random in
      ret ("Pre-Flight"%string, 0, altitude, 28 + r * 3)
    | flying =>
      let* r1 := Math_random in
      let* r2 := Math_random in
      let* r3 := Math_random in
      ret ("In Flight"%string,
           maxSpeed profile * (0.8 + r1 * 0.2),
           operatingAltitude profile + r2 * 30 - 15,
           35 + r3 * 6)
    | delivering =>
      let* r := Math_random in
      ret ("Delivered"%string, 0, 0, 32 + r * 4)
    | returning =>
      let* r1 := Math_random in
      let* r2 := Math_random in
      let* r3 := Math_random in
      ret ("Returning"%string,
           maxSpeed profile * (0.7 + r1 * 0.2),
           operatingAltitude profile + r2 * 25 - 10,
           34 + r3 * 5)
    end in
  let timeOfDay := IZR (getHours timestamp) in
  let tempAdjustment := Math_sin ((timeOfDay - 6) / 12 * Math_PI) * 3 in
  let humidityBase := 65 - Math_abs (timeOfDay - 14) * 1.5 in
  let* r := Math_random in
  ret {| droneId := dp_id profile;
         timestamp := timestamp;
         battery := IZR (Math_round (currentBattery profile * 10)) / 10;
         temperature := IZR (Math_round ((temperature + tempAdjustment) * 10)) / 10;
         humidity := IZR (Math_round ((humidityBase + r * 15) * 10)) / 10;
         speed := IZR (Math_round (speed * 10)) / 10;
         altitude := IZR (Math_round altitude);
         td_lat := IZR (Math_round (lat (currentLocation profile) * 1000000)) / 1000000;
         td_lng := IZR (Math_round (lng (currentLocation profile) * 1000000)) / 1000000;
         td_status := Some status |}.

(** The [for (const [droneId, profile] of this.profiles)] of
    [generateAndSaveTelemetry]: the profiles as the loop leaves them, and
    the records it has pushed. *)
Fixpoint tick_loop (profiles : Profiles) (now : Z)
  (telemetryData : list TelemetryData) : Sim (Profiles * list TelemetryData) :=
  match profiles with
  | [] => ret ([], telemetryData)
  | (droneId, profile) :: rest =>
    let* overridden := isDroneUnderManualOverride droneId in
    if overridden then
      (* Skip this drone, don't generate automatic data *)
      let* (rest, telemetryData) := tick_loop rest now telemetryData in
      ret ((droneId, profile) :: rest, telemetryData)
    else
      let* profile := updateDroneState profile in
      let* data := generateCurrentTelemetry profile now in
      let* (rest, telemetryData) := tick_loop rest now (telemetryData ++ [data]) in
      ret ((droneId, profile) :: rest, telemetryData)
  end.

(** [generateAndSaveTelemetry] *)
Definition generateAndSaveTelemetry (profiles : Profiles) : Sim Profiles :=
  let* now := Date_now in
  let* (profiles, telemetryData) := tick_loop profiles now [] in
  (if (0 <? length telemetryData)%nat then insertMany telemetryData
   else ret tt) ;;;
  ret profiles.

(** The simulator object: its running flag, its timer (the period of the
    interval, in milliseconds, when one is set) and its profiles. *)
Record AutoDroneSimulator : Type := mkAutoDroneSimulator {
  isRunning : bool;
  interval : option Z;
  profiles : Profiles;
}.

(** [start]; [connectDB] either succeeds or throws, and nothing else in the
    [try] block throws: the steps after it catch their own errors. *)
Definition start (connectFails importFails : bool) (this : AutoDroneSimulator)
  : Sim AutoDroneSimulator :=
  if isRunning this then ret this
  else if connectFails then ret this
  else
    getDroneStates importFails ;;; (* Initialize drone states reference *)
    initializeDatabase (profiles this) ;;;
    (* Generate data every 20 seconds *)
    let this :=
      {| isRunning := true; interval := Some 20000%Z;
         profiles := profiles this |} in
    (* Generate initial data *)
    let* profiles := generateAndSaveTelemetry (profiles this) in
    ret {| isRunning := isRunning this; interval := interval this;
           profiles := profiles |}.

(** [stop] *)
Definition stop (this : AutoDroneSimulator) : AutoDroneSimulator :=
  if negb (isRunning this) then this
  else {| isRunning := false; interval := None; profiles := profiles this |}.

(** [getStatus] *)
Record DroneStatus : Type := mkDroneStatus {
  st_id : string;
  st_name : string;
  st_battery : R;
  st_phase : MissionPhase;
  st_location : LatLng;
  st_manualOverride : bool;
}.

Record Status : Type := mkStatus {
  status_isRunning : bool;
  status_droneCount : nat;
  status_profiles : list DroneStatus;
}.

Fixpoint getStatus_map (profiles : Profiles) : Sim (list DroneStatus) :=
  match profiles with
  | [] => ret []
  | (_, p) :: rest =>
    let* overridden := isDroneUnderManualOverride (dp_id p) in
    let* rest := getStatus_map rest in
    ret ({| st_id := dp_id p; st_name := dp_name p;
            st_battery := currentBattery p; st_phase := missionPhase p;
            st_location := currentLocation p;
            st_manualOverride := overridden |} :: rest)
  end.

Definition getStatus (this : AutoDroneSimulator) : Sim Status :=
  let* statuses := getStatus_map (profiles this) in
  ret {| status_isRunning := isRunning this;
         status_droneCount := length (profiles this);
         status_profiles := statuses |}.

End Host.
End Simulator.

(** * The vocabulary of the properties *)

Import Simulator.

(** ** The override registry *)

(** The first reading of the clock from a world. *)
Definition next_clock (clock : nat -> Z) (w : World) : Z := clock (clockReads w).

(** The entry the simulator sees for an identifier. *)
Definition sim_entry (w : World) (id : string) : option OverrideEntry :=
  deref w ≫= (fun m => m !! id).

(** What an override check may do to the entry it looks up: leave it as it
    was, or leave it with its flag false and its expiry removed (and every
    other field as in [state]). *)
Definition entry_unchanged (before after : option OverrideEntry) : Prop :=
  after = before.

Definition entry_cleared (state : OverrideEntry) (after : option OverrideEntry)
  : Prop :=
  exists state',
    after = Some state' /\
    manualOverride state' = false /\
    overrideExpiry state' = None /\
    oe_status state' = oe_status state /\
    oe_isOnline state' = oe_isOnline state /\
    oe_battery state' = oe_battery state /\
    oe_lastUpdate state' = oe_lastUpdate state /\
    oe_lastPosition state' = oe_lastPosition state.

(** The contract of the specification for an override check [check] that
    reads its entries through [entry]. *)
Definition override_contract (clock : nat -> Z)
  (entry : World -> string -> option OverrideEntry)
  (check : string -> Sim bool) : Prop :=
  forall (id : string) (w : World),
    let now := next_clock clock w in
    let res := fst (check id w) in
    let w' := snd (check id w) in
    (* no entry, or the flag is false *)
    ((entry w id = None \/
      exists state, entry w id = Some state /\ manualOverride state = false) ->
     res = false /\ entry_unchanged (entry w id) (entry w' id)) /\
    (* flag true, an expiry exists and the current time is past it *)
    (forall state expiry,
        entry w id = Some state -> manualOverride state = true ->
        overrideExpiry state = Some expiry -> Date_gt now expiry = true ->
        res = false /\ entry_cleared state (entry w' id)) /\
    (* every other case *)
    (forall state,
        entry w id = Some state -> manualOverride state = true ->
        (overrideExpiry state = None \/
         exists expiry, overrideExpiry state = Some expiry /\
                        Date_gt now expiry = false) ->
        res = true /\ entry_unchanged (entry w id) (entry w' id)) /\
    (* the entries of the other drones are never touched *)
    (forall k, k <> id -> entry w' k = entry w k).

(** [n] successive calls of a check, with nothing in between: the answers in
    the order of the calls. *)
Fixpoint call_n (check : Sim bool) (n : nat) : Sim (list bool) :=
  match n with
  | O => ret []
  | S n' =>
    let* b := check in
    let* bs := call_n check n' in
    ret (b :: bs)
  end.

(** ** Profiles *)

(** The static configuration of a profile, and the profiles of the drones
    the simulator is built with: [initializeProfiles] creates no other, and
    no code writes a static field. *)
Definition static_of (p : DroneProfile) : InitialProfile :=
  {| ip_id := dp_id p; ip_name := dp_name p;
     ip_baseLocation := baseLocation p;
     ip_batteryDecayRate := batteryDecayRate p;
     ip_maxSpeed := maxSpeed p;
     ip_operatingAltitude := operatingAltitude p |}.

Definition configured (p : DroneProfile) : Prop :=
  In (static_of p) initialProfiles.

(** The area spanned by the bases and the delivery sites. *)
Definition in_service_area (l : LatLng) : Prop :=
  -1.4 <= lat l <= -1.1667 /\ 36.75 <= lng l <= 36.95.

(** What holds of every profile the simulator ever holds. *)
Definition profile_invariant (p : DroneProfile) : Prop :=
  configured p /\
  15 <= currentBattery p <= 100 /\
  in_service_area (currentLocation p) /\
  (forall d, destination p = Some d -> In d destinations).

(** The states of a profile in a run of the simulator: those
    [initializeProfiles] builds, and those a tick makes of them with
    [updateDroneState] (the only code that writes to a profile). *)
Inductive reachable (clock : nat -> Z) (random : nat -> R) (tzOffset : Z -> Z)
  : DroneProfile -> Prop :=
| reachable_initial (w : World) (k : string) (p : DroneProfile) :
    In (k, p) (fst (initializeProfiles random w)) ->
    reachable clock random tzOffset p
| reachable_step (w : World) (p : DroneProfile) :
    reachable clock random tzOffset p ->
    reachable clock random tzOffset
      (fst (updateDroneState clock random tzOffset p w)).

(** The identifiers of the profiles of a map, and the maps the simulator
    holds: every profile sits under its own identifier, and no identifier
    occurs twice. *)
Definition profile_ids (profiles : Profiles) : list string :=
  map (fun kp : string * DroneProfile => dp_id (snd kp)) profiles.

Definition well_keyed (profiles : Profiles) : Prop :=
  profile_ids profiles = map fst profiles /\ NoDup (map fst profiles).

(** ** Motion *)

(** The step of [moveTowardsDestination], in degrees, and the distance that
    remains to a target. *)
Definition degreeStep (p : DroneProfile) : R := maxSpeed p * (20 / 3600) / 111.

Definition remaining (p : DroneProfile) (target : LatLng) : R :=
  calculateDistance (currentLocation p) target.

(** [n] applications of [moveTowardsDestination] towards the same target. *)
Definition move_n (target : LatLng) (n : nat) (p : DroneProfile) : DroneProfile :=
  Nat.iter n (fun q => moveTowardsDestination q target) p.


(** ** Motion on doubles *)

(** [calculateDistance] and [moveTowardsDestination] once more, this time on
    the binary64 numbers of the program: every operation rounds to the
    nearest double, as it does when the code runs. *)
Module Binary64.
Import PrimFloat.
#[local] Open Scope float_scope.

Record LatLng : Type := mkLatLng { lat : float; lng : float }.

(** The fields of a profile that [moveTowardsDestination] reads and writes. *)
Record DroneProfile : Type := mkDroneProfile {
  maxSpeed : float;
  currentLocation : LatLng;
}.

Definition Math_sqrt (x : float) : float := PrimFloat.sqrt x.

(** [Math.min]: [NaN] as soon as one argument is, and [-0] below [+0]. *)
Definition Math_min (x y : float) : float :=
  if (is_nan x || is_nan y)%bool then nan
  else if x <? y then x
  else if y <? x then y
  else if get_sign x then x else y.

(** [calculateDistance] *)
Definition calculateDistance (point1 point2 : LatLng) : float :=
  let latDiff := lat point2 - lat point1 in
  let lngDiff := lng point2 - lng point1 in
  Math_sqrt (latDiff * latDiff + lngDiff * lngDiff).

(** [moveTowardsDestination] *)
Definition moveTowardsDestination (profile : DroneProfile) (destination : LatLng)
  : DroneProfile :=
  let speed := maxSpeed profile in
  let timeStep := 20 / 3600 in
  let distanceStep := speed * timeStep in
  let degreeStep := distanceStep / 111 in
  let latDiff := lat destination - lat (currentLocation profile) in
  let lngDiff := lng destination - lng (currentLocation profile) in
  let totalDistance := Math_sqrt (latDiff * latDiff + lngDiff * lngDiff) in
  if 0 <? totalDistance then
    let stepRatio := Math_min (degreeStep / totalDistance) 1 in
    {| maxSpeed := maxSpeed profile;
       currentLocation :=
         {| lat := lat (currentLocation profile) + latDiff * stepRatio;
            lng := lng (currentLocation profile) + lngDiff * stepRatio |} |}
  else profile.

(** The step, the distance that remains and the repeated move, as for the
    exact numbers. *)
Definition degreeStep (p : DroneProfile) : float :=
  maxSpeed p * (20 / 3600) / 111.

Definition remaining (p : DroneProfile) (target : LatLng) : float :=
  calculateDistance (currentLocation p) target.

Definition move_n (target : LatLng) (n : nat) (p : DroneProfile) : DroneProfile :=
  Nat.iter n (fun q => moveTowardsDestination q target) p.

(** Two positions are the same, coordinate by coordinate. *)
Definition same_place (a b : LatLng) : bool :=
  ((lat a =? lat b) && (lng a =? lng b))%bool.

(** Drone A1 at its base, the first delivery site, drone A1 with a speed of
    ten to the minus twenty, and two points outside the service area that
    are ten to the minus two hundred degrees apart. *)
#[warnings="-inexact-float"]
Definition drone_A1 : DroneProfile :=
  {| maxSpeed := 65; currentLocation := {| lat := -1.2921; lng := 36.8219 |} |}.

#[warnings="-inexact-float"]
Definition karen_hospital : LatLng := {| lat := -1.2500; lng := 36.7833 |}.




(** What a flight of [steps] steps is expected to do on doubles: at every
    step the distance does not grow; a distance of at least one step shrinks
    by one step up to [tolerance]; from a smaller distance the drone lands on
    the target. *)
#[warnings="-inexact-float"]
Definition tolerance : float := 1e-9.

Fixpoint flight_ok (steps : nat) (p : DroneProfile) (target : LatLng) : bool :=
  match steps with
  | O => true
  | S steps =>
    let p' := moveTowardsDestination p target in
    let d := remaining p target in
    let d' := remaining p' target in
    (d' <=? d) &&
    (if degreeStep p <=? d
     then abs (d' - (d - degreeStep p)) <=? tolerance
     else same_place (currentLocation p') target) &&
    flight_ok steps p' target
  end%bool.

(** The fleet at its bases and the delivery sites, and the check of the
    flights from every base to every site and back, each of eighty steps, at
    the end of which the drone has to be on its target. *)
#[warnings="-inexact-float"]
Definition fleet : list DroneProfile :=
  [ {| maxSpeed := 65; currentLocation := {| lat := -1.2921; lng := 36.8219 |} |};
    {| maxSpeed := 70; currentLocation := {| lat := -1.3032; lng := 36.8356 |} |};
    {| maxSpeed := 60; currentLocation := {| lat := -1.2745; lng := 36.8098 |} |};
    {| maxSpeed := 75; currentLocation := {| lat := -1.3167; lng := 36.8833 |} |} ].

#[warnings="-inexact-float"]
Definition destinations : list LatLng :=
  [ {| lat := -1.2500; lng := 36.7833 |};
    {| lat := -1.3500; lng := 36.9167 |};
    {| lat := -1.1667; lng := 36.8000 |};
    {| lat := -1.4000; lng := 36.9500 |};
    {| lat := -1.2000; lng := 36.7500 |} ].

Definition route_ok (p : DroneProfile) (target : LatLng) : bool :=
  (flight_ok 80 p target &&
   same_place (currentLocation (move_n target 80 p)) target)%bool.

Definition there_and_back_ok (p : DroneProfile) (site : LatLng) : bool :=
  (route_ok p site &&
   route_ok {| maxSpeed := maxSpeed p; currentLocation := site |}
     (currentLocation p))%bool.

Definition all_routes_ok : bool :=
  forallb (fun p => forallb (there_and_back_ok p) destinations) fleet.

End Binary64.

(** ** Records *)

(** The declared domain of a record. *)
Definition in_domain (t : TelemetryData) : Prop :=
  0 <= battery t <= 100 /\
  0 <= humidity t <= 100 /\
  0 <= speed t /\
  0 <= altitude t /\
  -90 <= td_lat t <= 90 /\
  -180 <= td_lng t <= 180.

(** [x] has at most [d] decimals. *)
Definition rounded_to (d : nat) (x : R) : Prop :=
  exists k : Z, x = IZR k / 10 ^ d.

(** The rounding the specification asks of a record. *)
Definition record_rounded (t : TelemetryData) : Prop :=
  rounded_to 1 (battery t) /\
  rounded_to 1 (temperature t) /\
  rounded_to 1 (humidity t) /\
  rounded_to 1 (speed t) /\
  rounded_to 0 (altitude t) /\
  rounded_to 6 (td_lat t) /\
  rounded_to 6 (td_lng t).

(** The drone and the instant a record is about. *)
Definition record_key (t : TelemetryData) : string * Z := (droneId t, timestamp t).

(** The instants of the backfill of [hours] hours that ends at [now]: one
    every three minutes, the oldest first. *)
Definition backfill_timestamps (now hours : Z) : list Z :=
  map (fun j : nat => (now - Z.of_nat j * 180000)%Z)
      (rev (seq 0 (S (Z.to_nat (hours * 60 / 3))))).

(** One record per drone, in the order of the map, at the instant [t]. *)
Definition keys_at (profiles : Profiles) (t : Z) : list (string * Z) :=
  map (fun kp : string * DroneProfile => (dp_id (snd kp), t)) profiles.

(** ** Requests *)

(** The request with another [duration]. *)
Definition with_duration (d : JsValue) (request : Route.Body) : Route.Body :=
  {| Route.body_droneId := Route.body_droneId request;
     Route.body_status := Route.body_status request;
     Route.body_isOnline := Route.body_isOnline request;
     Route.body_battery := Route.body_battery request;
     Route.body_duration := d |}.

(** ** Concrete inputs *)

(** A world in which nothing has happened yet. *)
Definition fresh_world : World :=
  {| clockReads := 0; randomCalls := 0; registry := ∅;
     simStates := RefNull; telemetry := [] |}.

(** Local time is UTC; the clock stands at two seconds past the epoch; the
    draws are all zero. *)
Definition utc (t : Z) : Z := 0%Z.

Definition clock_2000 (n : nat) : Z := 2000%Z.

Definition draws_zero (n : nat) : R := 0.

(** Draws that make the historical point a standby reading (the first draw
    is above both activity levels), and draws that make it an active one. *)
Definition draws_standby (n : nat) : R :=
  match n with O => 0.7 | _ => 0.01 end.

Definition draws_active (n : nat) : R :=
  match n with O => 0 | _ => 0.0125 end.

(** Drone A1 as [initializeProfiles] builds it, with a battery of 90. *)
Definition drone_A1 : DroneProfile :=
  {| dp_id := "A1"; dp_name := "Drone A1";
     baseLocation := mkLatLng (-1.2921) 36.8219;
     batteryDecayRate := 0.8; maxSpeed := 65; operatingAltitude := 150;
     currentBattery := 90;
     currentLocation := mkLatLng (-1.2921) 36.8219;
     missionPhase := idle; missionStartTime := None; destination := None;
     dp_manualOverride := None |}.

(** Drone A2 as [initializeProfiles] builds it when the draws are zero. *)
Definition drone_A2 : DroneProfile :=
  {| dp_id := "A2"; dp_name := "Drone A2";
     baseLocation := mkLatLng (-1.3032) 36.8356;
     batteryDecayRate := 0.7; maxSpeed := 70; operatingAltitude := 180;
     currentBattery := 85 + 0 * 15;
     currentLocation := mkLatLng (-1.3032) 36.8356;
     missionPhase := idle; missionStartTime := None; destination := None;
     dp_manualOverride := None |}.

(** The first of the delivery sites. *)
Definition karen_hospital : LatLng := mkLatLng (-1.2500) 36.7833.

(** An override of drone A1 without an expiry, one that expired at one
    second past the epoch, and the worlds in which the registry holds them
    and the simulator has its reference to the registry. *)
Definition pinned_A1 : OverrideEntry :=
  {| oe_status := "Maintenance"; oe_isOnline := true; oe_battery := None;
     oe_lastUpdate := 0; manualOverride := true; overrideExpiry := None;
     oe_lastPosition := None |}.

Definition expired_A1 : OverrideEntry :=
  {| oe_status := "Maintenance"; oe_isOnline := true; oe_battery := None;
     oe_lastUpdate := 0; manualOverride := true;
     overrideExpiry := Some (DateAt 1000);
     oe_lastPosition := None |}.

Definition world_with (entry : OverrideEntry) : World :=
  {| clockReads := 0; randomCalls := 0;
     registry := {[ "A1"%string := entry ]};
     simStates := RefShared; telemetry := [] |}.

(** A request for a zero-length override of drone A1, and a host whose
    [Date] parser accepts nothing. *)
Definition request_zero : Route.Body :=
  {| Route.body_droneId := Some "A1"%string;
     Route.body_status := Some "Maintenance"%string;
     Route.body_isOnline := None;
     Route.body_battery := None;
     Route.body_duration := JsNumber 0 |}.

Definition no_parse (s : string) : Date := InvalidDate.

(** ** The mission cycle *)

(** The phase that follows a phase in a mission. *)
Definition next_phase (phase : MissionPhase) : MissionPhase :=
  match phase with
  | idle => preparing
  | preparing => flying
  | flying => delivering
  | delivering => returning
  | returning => idle
  end.

(** What the mission fields of a profile say together: a destination and a
    start time exactly while a mission is under way, and the base as the
    location as long as the drone has not taken off. *)
Definition mission_consistent (p : DroneProfile) : Prop :=
  (missionPhase p = idle <-> destination p = None) /\
  (missionPhase p = idle <-> missionStartTime p = None) /\
  (missionPhase p = idle \/ missionPhase p = preparing ->
   currentLocation p = baseLocation p).

(** ** Readings *)

(** The display status of a phase. *)
Definition status_of_phase (phase : MissionPhase) : string :=
  match phase with
  | idle => "Standby"
  | preparing => "Pre-Flight"
  | flying => "In Flight"
  | delivering => "Delivered"
  | returning => "Returning"
  end.

(** The phases in which a drone is in the air. *)
Definition airborne (phase : MissionPhase) : Prop :=
  phase = flying \/ phase = returning.

(** ** Chunks *)

(** The chunks of [batchSize] records in which a list is stored, from the
    index [i] on: the [j]-th holds the records from [i + 100 j] up to
    [i + 100 j + 100], and the last one may be shorter. *)
Definition chunks_from (data : list TelemetryData) (i : nat)
  : list (list TelemetryData) :=
  map (fun j => slice data (i + batchSize * j) (i + batchSize * j + batchSize))
      (seq 0 ((length data - i + 99) / batchSize)).

(** ** Frames *)

(** The registry, the simulator's reference and the store are the same in
    two worlds. *)
Definition shared_untouched (w w' : World) : Prop :=
  registry w' = registry w /\ simStates w' = simStates w /\
  telemetry w' = telemetry w.

(** ** Overrides *)

(** No override is in force in a world, as far as the simulator sees. *)
Definition no_override (w : World) : Prop :=
  forall (id : string) (state : OverrideEntry),
    sim_entry w id = Some state -> manualOverride state = false.

(** ** The admin handler *)

(** The base the admin handler places a grounded drone at. *)
Definition nairobi_base : LatLng := {| lat := -1.2921; lng := 36.8219 |}.

(** The statuses for which the admin handler places the drone at the base. *)
Definition ground_statuses : list string :=
  ["Powered Off"; "Standby"; "Pre-Flight"; "Active"; "Maintenance"]%string.

(** The statuses the [switch] of [generateRealisticTelemetry] has a case
    for. *)
Definition switch_statuses : list string :=
  ["Powered Off"; "Standby"; "Pre-Flight"; "Active"; "In Flight"; "Landing";
   "Delivered"; "Returning"; "Maintenance"; "Emergency"]%string.

(** The simulator sees an override on the drone [id] that is in force at each
    of the next [k] readings of the clock. *)
Definition pinned_for (clock : nat -> Z) (w : World) (id : string) (k : nat)
  : Prop :=
  exists state : OverrideEntry,
    sim_entry w id = Some state /\ manualOverride state = true /\
    forall (e : Date) (n : nat),
      overrideExpiry state = Some e ->
      (clockReads w <= n < clockReads w + k)%nat ->
      Date_gt (clock n) e = false.

(** ** More concrete inputs *)



(** A fleet of two, and a stopped simulator that holds it. *)
Definition two_drones : Profiles :=
  [("A1"%string, drone_A1); ("A2"%string, drone_A2)].

Definition stopped_simulator : AutoDroneSimulator :=
  {| isRunning := false; interval := None; profiles := two_drones |}.

(** A request that names no drone, and one for an override of drone A1 of
    ten to the sixteen milliseconds. *)
Definition request_no_drone : Route.Body :=
  {| Route.body_droneId := None;
     Route.body_status := Some "Standby"%string;
     Route.body_isOnline := None;
     Route.body_battery := None;
     Route.body_duration := JsUndefined |}.

Definition request_forever : Route.Body :=
  with_duration (JsNumber 10000000000000000) request_zero.

(** The context of a reading for a drone last seen at the base with a
    battery of 85. *)
Definition context_at_base : Route.Context :=
  {| Route.ctx_battery := 85;
     Route.ctx_lastPosition := nairobi_base;
     Route.ctx_previousTelemetry := None |}.

(** * Properties *)

(** ** The counters of the world *)

Lemma clockReads_clock_read w : clockReads (clock_read w) = S (clockReads w).
Proof. reflexivity. Qed.
Lemma randomCalls_clock_read w : randomCalls (clock_read w) = randomCalls w.
Proof. reflexivity. Qed.
Lemma registry_clock_read w : registry (clock_read w) = registry w.
Proof. reflexivity. Qed.
Lemma simStates_clock_read w : simStates (clock_read w) = simStates w.
Proof. reflexivity. Qed.
Lemma telemetry_clock_read w : telemetry (clock_read w) = telemetry w.
Proof. reflexivity. Qed.

Lemma clockReads_random_called w : clockReads (random_called w) = clockReads w.
Proof. reflexivity. Qed.
Lemma randomCalls_random_called w :
  randomCalls (random_called w) = S (randomCalls w).
Proof. reflexivity. Qed.
Lemma registry_random_called w : registry (random_called w) = registry w.
Proof. reflexivity. Qed.
Lemma simStates_random_called w : simStates (random_called w) = simStates w.
Proof. reflexivity. Qed.
Lemma telemetry_random_called w : telemetry (random_called w) = telemetry w.
Proof. reflexivity. Qed.

Lemma clockReads_stored b w : clockReads (stored b w) = clockReads w.
Proof. reflexivity. Qed.
Lemma randomCalls_stored b w : randomCalls (stored b w) = randomCalls w.
Proof. reflexivity. Qed.
Lemma registry_stored b w : registry (stored b w) = registry w.
Proof. reflexivity. Qed.
Lemma simStates_stored b w : simStates (stored b w) = simStates w.
Proof. reflexivity. Qed.
Lemma telemetry_stored b w : telemetry (stored b w) = telemetry w ++ [b].
Proof. reflexivity. Qed.

Create Rewrite HintDb world.
#[export] Hint Rewrite
  clockReads_clock_read randomCalls_clock_read registry_clock_read
  simStates_clock_read telemetry_clock_read
  clockReads_random_called randomCalls_random_called registry_random_called
  simStates_random_called telemetry_random_called
  clockReads_stored randomCalls_stored registry_stored simStates_stored
  telemetry_stored : world.

(** ** The override registry *)

Lemma entry_cleared_clear_override state :
  entry_cleared state (Some (clear_override state)).
Proof. exists (clear_override state). repeat split. Qed.

Lemma sim_entry_deref_set w k v id :
  deref w <> None ->
  sim_entry (deref_set k v w) id = if decide (k = id) then Some v else sim_entry w id.
Proof.
  unfold sim_entry, deref, deref_set. destruct (simStates w) eqn:E; simpl.
  - congruence.
  - intros _. rewrite E. simpl. destruct (decide (k = id)) as [->|].
    + apply lookup_insert_eq.
    + now apply lookup_insert_ne.
  - intros _. destruct (decide (k = id)) as [->|].
    + apply lookup_insert_eq.
    + now apply lookup_insert_ne.
Qed.

(** The route's check, case by case. *)
Lemma route_check_cases clock id w :
  Route.isDroneUnderManualOverride clock id w =
  match registry w !! id with
  | None => (false, w)
  | Some state =>
    if manualOverride state then
      let w1 := snd (Date_now clock w) in
      match overrideExpiry state with
      | Some e =>
        if Date_gt (next_clock clock w) e
        then (false, set_registry (<[id := clear_override state]> (registry w)) w1)
        else (true, w1)
      | None => (true, w1)
      end
    else (false, w)
  end.
Proof.
  unfold Route.isDroneUnderManualOverride, bind, Route.droneStates_get, ret.
  destruct (registry w !! id) as [state|]; [|reflexivity].
  destruct (manualOverride state); simpl; [|reflexivity].
  destruct (overrideExpiry state) as [e|]; [|reflexivity].
  unfold next_clock. destruct (Date_gt _ e); reflexivity.
Qed.

(** The simulator's check, case by case. *)
Lemma sim_check_cases clock id w :
  Simulator.isDroneUnderManualOverride clock id w =
  match sim_entry w id with
  | None => (false, w)
  | Some state =>
    if manualOverride state then
      let w1 := snd (Date_now clock w) in
      match overrideExpiry state with
      | Some e =>
        if Date_gt (next_clock clock w) e
        then (false, deref_set id (clear_override state) w1)
        else (true, w1)
      | None => (true, w1)
      end
    else (false, w)
  end.
Proof.
  unfold Simulator.isDroneUnderManualOverride, bind, Simulator.droneStates, ret,
    sim_entry.
  destruct (deref w) as [m|]; simpl; [|reflexivity].
  destruct (m !! id) as [state|]; [|reflexivity].
  destruct (manualOverride state); simpl; [|reflexivity].
  destruct (overrideExpiry state) as [e|]; [|reflexivity].
  unfold next_clock. destruct (Date_gt _ e); reflexivity.
Qed.

Lemma sim_entry_Date_now clock w id :
  sim_entry (snd (Date_now clock w)) id = sim_entry w id.
Proof. reflexivity. Qed.

Lemma deref_Date_now clock w : deref (snd (Date_now clock w)) = deref w.
Proof. reflexivity. Qed.

Lemma sim_entry_Some_deref w id state :
  sim_entry w id = Some state -> deref w <> None.
Proof. unfold sim_entry. destruct (deref w); simpl; congruence. Qed.

Ltac contract_case :=
  cbn [fst snd]; unfold entry_unchanged;
  repeat split; intros;
  repeat match goal with
         | H : _ \/ _ |- _ => destruct H
         | H : exists _, _ |- _ => destruct H
         | H : _ /\ _ |- _ => destruct H
         end;
  subst; try congruence; auto.

(** C2, the route's copy. *)
Lemma route_override_contract clock :
  override_contract clock (fun w id => registry w !! id)
    (Route.isDroneUnderManualOverride clock).
Proof.
  intros id w. cbv zeta. rewrite route_check_cases.
  destruct (registry w !! id) as [state|] eqn:E; [|contract_case].
  destruct (manualOverride state) eqn:F; [|contract_case].
  destruct (overrideExpiry state) as [e|] eqn:X; [|contract_case].
  destruct (Date_gt (next_clock clock w) e) eqn:G; [|contract_case].
  contract_case.
  - cbn [registry set_registry]. rewrite lookup_insert_eq.
    replace state0 with state by congruence.
    apply entry_cleared_clear_override.
  - cbn [registry set_registry]. now apply lookup_insert_ne.
Qed.

(** C2, the simulator's copy. *)
Lemma sim_override_contract clock :
  override_contract clock sim_entry (Simulator.isDroneUnderManualOverride clock).
Proof.
  intros id w. cbv zeta. rewrite sim_check_cases.
  destruct (sim_entry w id) as [state|] eqn:E; [|contract_case].
  pose proof (sim_entry_Some_deref _ _ _ E) as D.
  destruct (manualOverride state) eqn:F; [|contract_case].
  destruct (overrideExpiry state) as [e|] eqn:X; [|contract_case].
  destruct (Date_gt (next_clock clock w) e) eqn:G; [|contract_case].
  contract_case.
  - rewrite sim_entry_deref_set by now rewrite deref_Date_now.
    rewrite decide_True by reflexivity.
    replace state0 with state by congruence.
    apply entry_cleared_clear_override.
  - rewrite sim_entry_deref_set by now rewrite deref_Date_now.
    rewrite decide_False by (intro; subst; congruence). apply sim_entry_Date_now.
Qed.

(** C2.  The override check, in both of its copies: the answer is [false] and
    nothing changes when there is no entry for the identifier or its flag is
    false; when the flag is true, an expiry exists and the clock reading is
    past it, the answer is [false] and the entry is left with its flag false
    and its expiry removed; in every other case (no expiry, or an expiry that
    is not yet past) the answer is [true] and the entry is unchanged. *)
Theorem override_check_contract (clock : nat -> Z) :
  override_contract clock (fun w id => registry w !! id)
    (Route.isDroneUnderManualOverride clock) /\
  override_contract clock sim_entry (Simulator.isDroneUnderManualOverride clock).
Proof. split; [apply route_override_contract | apply sim_override_contract]. Qed.

(** An entry whose flag is false makes the simulator's check a no-op. *)
Lemma sim_check_inactive clock id w :
  (forall state, sim_entry w id = Some state -> manualOverride state = false) ->
  Simulator.isDroneUnderManualOverride clock id w = (false, w).
Proof.
  intros H. rewrite sim_check_cases.
  destruct (sim_entry w id) as [state|] eqn:E; [|reflexivity].
  now rewrite (H state eq_refl).
Qed.

Lemma route_check_inactive clock id w :
  (forall state, registry w !! id = Some state -> manualOverride state = false) ->
  Route.isDroneUnderManualOverride clock id w = (false, w).
Proof.
  intros H. rewrite route_check_cases.
  destruct (registry w !! id) as [state|] eqn:E; [|reflexivity].
  now rewrite (H state eq_refl).
Qed.

(** Once a check is a no-op answering [false], so is any number of them. *)
Lemma call_n_inactive (check : Sim bool) w n :
  check w = (false, w) ->
  call_n check n w = (replicate n false, w).
Proof.
  intros H. induction n as [|n IH]; [reflexivity|].
  simpl. unfold bind. rewrite H. unfold bind in IH. rewrite IH. reflexivity.
Qed.

Lemma entry_cleared_inactive state after :
  entry_cleared state after ->
  forall state', after = Some state' -> manualOverride state' = false.
Proof. intros (s & -> & F & _) s' [= <-]. exact F. Qed.

(** C3.  Idempotence of the expiry clear, for the simulator's check and for
    the route's copy: when the entry of a drone has its flag true and an
    expiry that the clock has passed, any number of successive calls of the
    check (at least one, with no admin write in between and whatever the
    clock reads afterwards) all answer [false], and they leave the entry with
    its flag false and its expiry removed: no call re-activates it. *)
Theorem override_expiry_idempotent (clock : nat -> Z) (id : string) (w : World)
  (state : OverrideEntry) (expiry : Date) (n : nat) :
  manualOverride state = true ->
  overrideExpiry state = Some expiry ->
  Date_gt (next_clock clock w) expiry = true ->
  (sim_entry w id = Some state ->
   let (answers, w') :=
     call_n (Simulator.isDroneUnderManualOverride clock id) (S n) w in
   answers = replicate (S n) false /\ entry_cleared state (sim_entry w' id)) /\
  (registry w !! id = Some state ->
   let (answers, w') :=
     call_n (Route.isDroneUnderManualOverride clock id) (S n) w in
   answers = replicate (S n) false /\ entry_cleared state (registry w' !! id)).
Proof.
  intros F X G. split; intros E.
  - destruct (sim_override_contract clock id w) as (_ & Hexp & _).
    destruct (Hexp state expiry E F X G) as [Hres Hcl].
    cbn [call_n]. unfold bind at 1.
    destruct (Simulator.isDroneUnderManualOverride clock id w) as [b w1] eqn:C.
    cbn [fst snd] in Hres, Hcl. subst b.
    unfold bind.
    rewrite (call_n_inactive _ w1 n)
      by (apply sim_check_inactive, (entry_cleared_inactive _ _ Hcl)).
    split; [reflexivity | exact Hcl].
  - destruct (route_override_contract clock id w) as (_ & Hexp & _).
    destruct (Hexp state expiry E F X G) as [Hres Hcl].
    cbn [call_n]. unfold bind at 1.
    destruct (Route.isDroneUnderManualOverride clock id w) as [b w1] eqn:C.
    cbn [fst snd] in Hres, Hcl. subst b.
    unfold bind.
    rewrite (call_n_inactive _ w1 n)
      by (apply route_check_inactive, (entry_cleared_inactive _ _ Hcl)).
    split; [reflexivity | exact Hcl].
Qed.

(** ** The mission state machine *)

Ltac break_match :=
  match goal with
  | |- context [match ?c with _ => _ end] =>
    lazymatch c with
    | context [match _ with _ => _ end] => fail
    | _ => destruct c eqn:?
    end
  end.

Lemma configured_cases p :
  configured p ->
  (batteryDecayRate p = 0.8 /\ maxSpeed p = 65 /\ operatingAltitude p = 150 /\
   baseLocation p = mkLatLng (-1.2921) 36.8219 /\ dp_id p = "A1"%string) \/
  (batteryDecayRate p = 0.7 /\ maxSpeed p = 70 /\ operatingAltitude p = 180 /\
   baseLocation p = mkLatLng (-1.3032) 36.8356 /\ dp_id p = "A2"%string) \/
  (batteryDecayRate p = 0.9 /\ maxSpeed p = 60 /\ operatingAltitude p = 120 /\
   baseLocation p = mkLatLng (-1.2745) 36.8098 /\ dp_id p = "B1"%string) \/
  (batteryDecayRate p = 0.6 /\ maxSpeed p = 75 /\ operatingAltitude p = 200 /\
   baseLocation p = mkLatLng (-1.3167) 36.8833 /\ dp_id p = "B2"%string).
Proof.
  unfold configured, static_of, initialProfiles. simpl.
  intros [H|[H|[H|[H|[]]]]]; inversion H; subst; tauto.
Qed.

Lemma configured_decay p : configured p -> 0 < batteryDecayRate p.
Proof.
  intros H. destruct (configured_cases p H) as [H'|[H'|[H'|H']]];
    destruct H' as (-> & _); lra.
Qed.

Lemma moveTowardsDestination_battery p d :
  currentBattery (moveTowardsDestination p d) = currentBattery p.
Proof. unfold moveTowardsDestination. break_match; reflexivity. Qed.

Lemma moveTowardsDestination_decay p d :
  batteryDecayRate (moveTowardsDestination p d) = batteryDecayRate p.
Proof. unfold moveTowardsDestination. break_match; reflexivity. Qed.

Ltac profile_simpl :=
  cbn [fst snd dp_id dp_name baseLocation batteryDecayRate maxSpeed
       operatingAltitude currentBattery currentLocation missionPhase
       missionStartTime destination dp_manualOverride
       set_currentBattery set_missionPhase set_missionStartTime
       set_destination set_currentLocation].

(** The case analysis of one [updateDroneState]: a goal per path through
    the function, with the profile fields of the result computed. *)
Ltac step_cases p w :=
  unfold updateDroneState, bind, ret;
  destruct (Date_now _ w) as [?now ?w];
  destruct (missionPhase p) eqn:?; cbn beta iota;
  repeat (break_match; cbn beta iota);
  repeat match goal with
         | H : (_, _) = (_, _) |- _ => inversion H; subst; clear H
         end;
  profile_simpl.

Lemma updateDroneState_battery_range clock random tzOffset p w :
  0 <= batteryDecayRate p ->
  currentBattery p <= 100 ->
  15 <= currentBattery (fst (updateDroneState clock random tzOffset p w)) <= 100.
Proof.
  intros D H. step_cases p w;
    rewrite ?moveTowardsDestination_battery, ?moveTowardsDestination_decay;
    unfold Math_max, Math_min, Rmax, Rmin;
    repeat (destruct (Rle_dec _ _)); lra.
Qed.

(** Outside the idle phase a step never adds to the battery: what it leaves
    is at most what it found, or the floor of 15. *)
Lemma updateDroneState_battery_drains clock random tzOffset p w :
  0 <= batteryDecayRate p ->
  missionPhase p <> idle ->
  currentBattery (fst (updateDroneState clock random tzOffset p w)) <=
  Math_max 15 (currentBattery p).
Proof.
  intros D N. step_cases p w; try congruence;
    rewrite ?moveTowardsDestination_battery, ?moveTowardsDestination_decay;
    unfold Math_max, Math_min, Rmax, Rmin;
    repeat (destruct (Rle_dec _ _)); lra.
Qed.

(** C4.  For every profile of a configured drone whose battery is at most
    100, the battery after one [updateDroneState] lies in [[15, 100]],
    whatever the phase, the clock and the random draws: the final clamp
    gives the floor of 15, and the battery grows in the idle phase only,
    where it is capped at 100. *)
Theorem battery_after_step_in_range (clock : nat -> Z) (random : nat -> R)
  (tzOffset : Z -> Z) (p : DroneProfile) (w : World) :
  configured p ->
  currentBattery p <= 100 ->
  let p' := fst (updateDroneState clock random tzOffset p w) in
  15 <= currentBattery p' <= 100 /\
  (missionPhase p <> idle ->
   currentBattery p' <= Math_max 15 (currentBattery p)).
Proof.
  intros C H. pose proof (configured_decay p C) as D. cbv zeta. split.
  - apply updateDroneState_battery_range; [lra | exact H].
  - apply updateDroneState_battery_drains. lra.
Qed.

(** ** Motion *)

Lemma LatLng_eq (a b : LatLng) : lat a = lat b -> lng a = lng b -> a = b.
Proof. destruct a, b; simpl; intros -> ->; reflexivity. Qed.















(** The same flight on doubles, all the way: over twenty steps the distance
    never grows, every full step takes one step off it up to [1e-9], and
    the drone is on the site after eighteen steps.  And so it is on the
    forty routes of the fleet, from each base to each site and back. *)
Lemma flight_A1_on_doubles :
  Binary64.flight_ok 20 Binary64.drone_A1 Binary64.karen_hospital = true /\
  Binary64.same_place
    (Binary64.currentLocation
       (Binary64.move_n Binary64.karen_hospital 18 Binary64.drone_A1))
    Binary64.karen_hospital = true.
Proof. vm_compute. split; reflexivity. Qed.

Lemma routes_on_doubles : Binary64.all_routes_ok = true.
Proof. vm_compute. reflexivity. Qed.

(** ** Rounding *)

Lemma Int_part_bounds (x : R) : IZR (Int_part x) <= x < IZR (Int_part x) + 1.
Proof. destruct (base_Int_part x). lra. Qed.

Lemma Math_floor_range (x : R) (a b : Z) :
  IZR a <= x < IZR b -> (a <= Math_floor x < b)%Z.
Proof.
  intros [Ha Hb]. pose proof (Int_part_bounds x) as [H1 H2].
  unfold Math_floor. split.
  - apply Z.lt_succ_r. apply lt_IZR. rewrite succ_IZR. lra.
  - apply lt_IZR. lra.
Qed.

Lemma Math_round_range (x : R) (a b : Z) :
  IZR a <= x <= IZR b -> (a <= Math_round x <= b)%Z.
Proof.
  intros [Ha Hb]. pose proof (Int_part_bounds (x + / 2)) as [H1 H2].
  unfold Math_round. split.
  - apply Z.lt_succ_r. apply lt_IZR. rewrite succ_IZR. lra.
  - apply Z.lt_succ_r. apply lt_IZR. rewrite succ_IZR. lra.
Qed.

Lemma Int_part_IZR (z : Z) : Int_part (IZR z) = z.
Proof. symmetry. apply Int_part_spec. lra. Qed.

(** [Math.round(x * s) / s] stays between the bounds of [x] that are
    themselves multiples of [1 / s]. *)
Lemma rounded_range (x s : R) (a b : Z) :
  0 < s -> IZR a <= x * s <= IZR b ->
  IZR a / s <= IZR (Math_round (x * s)) / s <= IZR b / s.
Proof.
  intros Hs H. apply Math_round_range in H as [Ha Hb].
  apply IZR_le in Ha, Hb.
  split; apply Rmult_le_compat_r; try lra; left; now apply Rinv_0_lt_compat.
Qed.

Lemma getHours_range tzOffset t : (0 <= getHours tzOffset t < 24)%Z.
Proof. unfold getHours. apply Z.mod_pos_bound. lia. Qed.

Lemma array_get_In {A} (a : list A) (i : Z) (x : A) :
  array_get a i = Some x -> In x a.
Proof.
  unfold array_get. destruct (i <? 0)%Z; [discriminate|].
  apply nth_error_In.
Qed.

Lemma array_get_in_range {A} (a : list A) (i : Z) :
  (0 <= i < Z.of_nat (length a))%Z -> exists x, array_get a i = Some x.
Proof.
  intros [H0 H1]. unfold array_get.
  destruct (i <? 0)%Z eqn:E; [lia|].
  destruct (nth_error a (Z.to_nat i)) as [x|] eqn:N; [now exists x|].
  apply nth_error_None in N. lia.
Qed.

(** ** Reachable profiles *)

Section Reachable.

Variable clock : nat -> Z.
Variable random : nat -> R.
Variable tzOffset : Z -> Z.

Hypothesis random_range : forall n : nat, 0 <= random n < 1.

Lemma initial_profile_invariant w k p :
  In (k, p) (fst (initializeProfiles random w)) -> profile_invariant p /\ dp_id p = k.
Proof.
  unfold initializeProfiles, initialProfiles.
  cbn [initializeProfiles_forEach]. unfold bind, Math_random, ret.
  cbn [fst snd randomCalls Map_set ip_id ip_name ip_baseLocation
       ip_batteryDecayRate ip_maxSpeed ip_operatingAltitude].
  repeat (rewrite decide_False by discriminate).
  cbn [Map_set].
  pose proof (random_range (randomCalls w)) as R0.
  pose proof (random_range (S (randomCalls w))) as R1.
  pose proof (random_range (S (S (randomCalls w)))) as R2.
  pose proof (random_range (S (S (S (randomCalls w))))) as R3.
  intros [E|[E|[E|[E|[]]]]]; inversion E; subst; clear E;
    (split; [|reflexivity]);
    unfold profile_invariant, configured, static_of, initialProfiles,
      in_service_area;
    cbn; repeat split; try lra; try tauto; try discriminate.
Qed.

Lemma moveTowardsDestination_static p d :
  static_of (moveTowardsDestination p d) = static_of p.
Proof. unfold moveTowardsDestination. break_match; reflexivity. Qed.

Lemma moveTowardsDestination_destination p d :
  destination (moveTowardsDestination p d) = destination p.
Proof. unfold moveTowardsDestination. break_match; reflexivity. Qed.

(** A step towards a target of the area stays in the area. *)
Lemma moveTowardsDestination_area p d :
  0 <= maxSpeed p ->
  in_service_area (currentLocation p) -> in_service_area d ->
  in_service_area (currentLocation (moveTowardsDestination p d)).
Proof.
  intros Hs Hp Hd. unfold moveTowardsDestination.
  set (D := Math_sqrt _). set (s := maxSpeed p * (20 / 3600) / 111).
  unfold Rgtb, Rltb. destruct (Rlt_dec 0 D) as [HD|]; [|exact Hp].
  cbn [currentLocation set_currentLocation].
  set (r := Math_min (s / D) 1).
  assert (0 <= r <= 1) as Hr.
  { unfold r, Math_min. split; [|apply Rmin_r].
    apply Rmin_glb; [|lra]. unfold s.
    apply Rmult_le_pos; [lra|]. left. now apply Rinv_0_lt_compat. }
  unfold in_service_area in *. cbn [lat lng].
  destruct Hp as [[? ?] [? ?]], Hd as [[? ?] [? ?]], Hr.
  repeat split; nra.
Qed.

Lemma destinations_area d : In d destinations -> in_service_area (point d).
Proof.
  unfold destinations, in_service_area, point.
  intros [<-|[<-|[<-|[<-|[<-|[]]]]]]; cbn; lra.
Qed.

Lemma configured_base_area p : configured p -> in_service_area (baseLocation p).
Proof.
  intros H. unfold in_service_area.
  destruct (configured_cases p H) as [H'|[H'|[H'|H']]];
    destruct H' as (_ & _ & _ & -> & _); cbn; lra.
Qed.

Lemma configured_maxSpeed p : configured p -> 60 <= maxSpeed p <= 75.
Proof.
  intros H.
  destruct (configured_cases p H) as [H'|[H'|[H'|H']]];
    destruct H' as (_ & -> & _); lra.
Qed.

Lemma configured_altitude p : configured p -> 120 <= operatingAltitude p <= 200.
Proof.
  intros H.
  destruct (configured_cases p H) as [H'|[H'|[H'|H']]];
    destruct H' as (_ & _ & -> & _); lra.
Qed.

Lemma updateDroneState_static w p :
  static_of (fst (updateDroneState clock random tzOffset p w)) = static_of p.
Proof.
  step_cases p w; try reflexivity;
    try apply moveTowardsDestination_static.
Qed.

Lemma moveTowardsDestination_base p d :
  baseLocation (moveTowardsDestination p d) = baseLocation p.
Proof. unfold moveTowardsDestination. break_match; reflexivity. Qed.

Lemma updateDroneState_area w p :
  configured p ->
  in_service_area (currentLocation p) ->
  (forall d, destination p = Some d -> In d destinations) ->
  in_service_area
    (currentLocation (fst (updateDroneState clock random tzOffset p w))).
Proof.
  intros C A Hd.
  pose proof (configured_maxSpeed p C) as Hs.
  pose proof (configured_base_area p C) as Hb.
  step_cases p w; rewrite ?moveTowardsDestination_base; try assumption;
    apply moveTowardsDestination_area; try assumption; try lra;
    apply destinations_area; auto.
Qed.

Lemma updateDroneState_destination w p :
  (forall d, destination p = Some d -> In d destinations) ->
  forall d,
    destination (fst (updateDroneState clock random tzOffset p w)) = Some d ->
    In d destinations.
Proof.
  intros Hd. step_cases p w; rewrite ?moveTowardsDestination_destination;
    try discriminate; try (intros ? ?; apply Hd; congruence).
  intros d. apply array_get_In.
Qed.

Lemma updateDroneState_invariant w p :
  profile_invariant p ->
  profile_invariant (fst (updateDroneState clock random tzOffset p w)).
Proof.
  intros (C & B & A & D). repeat split.
  - unfold configured. now rewrite updateDroneState_static.
  - apply updateDroneState_battery_range; [|lra].
    left. now apply configured_decay.
  - apply updateDroneState_battery_range; [|lra].
    left. now apply configured_decay.
  - now apply updateDroneState_area.
  - now apply updateDroneState_area.
  - now apply updateDroneState_area.
  - now apply updateDroneState_area.
  - now apply updateDroneState_destination.
Qed.

(** Every reachable profile satisfies the invariant. *)
Lemma reachable_invariant p :
  reachable clock random tzOffset p -> profile_invariant p.
Proof.
  induction 1 as [w k p H|w p _ IH].
  - now apply (initial_profile_invariant w k p).
  - now apply updateDroneState_invariant.
Qed.

End Reachable.

Lemma Rltb_true x y : Rltb x y = true <-> x < y.
Proof. unfold Rltb. destruct (Rlt_dec x y); split; auto; discriminate. Qed.

Lemma Rltb_false x y : Rltb x y = false <-> ~ x < y.
Proof.
  unfold Rltb. destruct (Rlt_dec x y); split; auto; try discriminate.
  intros H. contradiction.
Qed.

Lemma business_hours_true h :
  (8 <=? h)%Z && (h <=? 18)%Z = true <-> (8 <= h <= 18)%Z.
Proof. rewrite andb_true_iff. lia. Qed.

(** The destination drawn for a new mission is one of the five sites. *)
Lemma destination_drawn (r : R) :
  0 <= r < 1 ->
  exists d,
    array_get destinations (Math_floor (r * INR (length destinations))) = Some d /\
    In d destinations.
Proof.
  intros Hr.
  destruct (array_get_in_range destinations
              (Math_floor (r * INR (length destinations)))) as [d Hd].
  { change (length destinations) with 5%nat.
    change (Z.of_nat 5) with 5%Z. apply Math_floor_range. simpl INR. lra. }
  exists d. split; [exact Hd|]. now apply array_get_In in Hd.
Qed.

(** [updateDroneState] on an idle profile, in closed form. *)
Lemma updateDroneState_idle clock random tzOffset p w :
  missionPhase p = idle ->
  fst (updateDroneState clock random tzOffset p w) =
  let now := next_clock clock w in
  let h := getHours tzOffset now in
  if (8 <=? h)%Z && (h <=? 18)%Z
     && (Rltb (random (randomCalls w)) 0.10 && Rgtb (currentBattery p) 50)
  then
    set_currentBattery (Math_max 15 (currentBattery p))
      (set_destination
         (array_get destinations
            (Math_floor (random (S (randomCalls w)) * INR (length destinations))))
         (set_missionStartTime (Some now) (set_missionPhase preparing p)))
  else
    set_currentBattery
      (Math_max 15 (Math_min 100 (currentBattery p + 0.3))) p.
Proof.
  intros Hidle.
  unfold updateDroneState, bind, ret, Date_now, Math_random, next_clock.
  rewrite Hidle. cbv zeta.
  destruct ((8 <=? _)%Z && (_ <=? 18)%Z); cbn [andb]; [|reflexivity].
  autorewrite with world.
  destruct (Rltb (random (randomCalls w)) 0.10 && Rgtb (currentBattery p) 50);
    cbn beta iota; autorewrite with world; reflexivity.
Qed.

(** C8.  A reachable drone in phase [idle]: when the local hour of the clock
    reading is between 8 and 18, the next random draw is below 0.10 and the
    battery exceeds 50, one [updateDroneState] sets the phase to [preparing],
    the mission start time to the clock reading, and the destination to one
    of the five sites; otherwise the phase stays [idle] and the battery grows
    by 0.3, capped at 100. *)
Theorem idle_step (clock : nat -> Z) (random : nat -> R) (tzOffset : Z -> Z)
  (p : DroneProfile) (w : World) :
  (forall n : nat, 0 <= random n < 1) ->
  reachable clock random tzOffset p ->
  missionPhase p = idle ->
  let now := next_clock clock w in
  let draw := random (randomCalls w) in
  let starts :=
    (8 <= getHours tzOffset now <= 18)%Z /\ draw < 0.10 /\ currentBattery p > 50 in
  let p' := fst (updateDroneState clock random tzOffset p w) in
  length destinations = 5%nat /\
  (starts ->
   missionPhase p' = preparing /\
   missionStartTime p' = Some now /\
   exists d, destination p' = Some d /\ In d destinations) /\
  (~ starts ->
   missionPhase p' = idle /\
   currentBattery p' = Math_min 100 (currentBattery p + 0.3)).
Proof.
  intros Hrand Hreach Hidle. cbv zeta. split; [reflexivity|].
  destruct (reachable_invariant clock random tzOffset Hrand p Hreach)
    as (_ & Hb & _).
  rewrite updateDroneState_idle by exact Hidle. cbv zeta.
  set (now := next_clock clock w). set (h := getHours tzOffset now).
  assert (forall b, 15 <= b -> Math_max 15 (Math_min 100 (b + 0.3)) =
                               Math_min 100 (b + 0.3)) as Hclamp.
  { intros b Hb'. unfold Math_max, Math_min, Rmax, Rmin.
    repeat destruct (Rle_dec _ _); lra. }
  destruct ((8 <=? h)%Z && (h <=? 18)%Z) eqn:B;
    destruct (Rltb (random (randomCalls w)) 0.10) eqn:L;
    destruct (Rgtb (currentBattery p) 50) eqn:G;
    cbn [andb]; profile_simpl;
    try (split;
         [ intros (X & Y & Z);
           try (apply business_hours_true in X; congruence);
           try (apply Rltb_false in L; lra);
           try (apply Rltb_false in G; lra)
         | intros _; split; [exact Hidle | apply Hclamp; lra] ]).
  destruct (destination_drawn (random (S (randomCalls w))) (Hrand _))
    as (d & Hd & Hin).
  split.
  - intros _. split; [reflexivity|]. split; [reflexivity|].
    exists d. split; assumption.
  - intros N. exfalso. apply N.
    apply business_hours_true in B. apply Rltb_true in L, G. tauto.
Qed.

(** ** The telemetry synthesizer *)

Lemma rounded_bounds (x s lo hi : R) (a b : Z) :
  0 < s -> IZR a <= x * s <= IZR b -> lo <= IZR a / s -> IZR b / s <= hi ->
  lo <= IZR (Math_round (x * s)) / s <= hi.
Proof.
  intros Hs H Hlo Hhi. pose proof (rounded_range x s a b Hs H). lra.
Qed.

Lemma Math_round_nonneg (x : R) : 0 <= x -> 0 <= IZR (Math_round x).
Proof.
  intros H. pose proof (Int_part_bounds (x + / 2)) as [_ H2].
  unfold Math_round. apply IZR_le. apply Z.lt_succ_r. apply lt_IZR.
  rewrite succ_IZR. lra.
Qed.

Lemma rounded_nonneg (x s : R) :
  0 < s -> 0 <= x * s -> 0 <= IZR (Math_round (x * s)) / s.
Proof.
  intros Hs H. apply Rmult_le_pos; [now apply Math_round_nonneg|].
  left. now apply Rinv_0_lt_compat.
Qed.

Lemma area_lat_rounded (x : R) :
  -2 <= x <= -1 ->
  -90 <= IZR (Math_round (x * 1000000)) / 1000000 <= 90.
Proof.
  intros H. apply (rounded_bounds x 1000000 _ _ (-2000000) (-1000000)); lra.
Qed.

Lemma area_lng_rounded (x : R) :
  36 <= x <= 37 ->
  -180 <= IZR (Math_round (x * 1000000)) / 1000000 <= 180.
Proof.
  intros H. apply (rounded_bounds x 1000000 _ _ 36000000 37000000); lra.
Qed.

Lemma percent_rounded (x : R) :
  0 <= x <= 100 -> 0 <= IZR (Math_round (x * 10)) / 10 <= 100.
Proof.
  intros H. apply (rounded_bounds x 10 _ _ 0 1000); lra.
Qed.

Section Synthesizer.

Variable clock : nat -> Z.
Variable random : nat -> R.
Variable tzOffset : Z -> Z.
Hypothesis random_range : forall n : nat, 0 <= random n < 1.

Lemma historical_in_domain p ts w :
  configured p ->
  in_domain (fst (generateHistoricalDataPoint random tzOffset p ts w)).
Proof.
  intros C.
  pose proof (configured_maxSpeed p C) as Hs.
  pose proof (configured_altitude p C) as Ha.
  destruct (configured_base_area p C) as [Hlat Hlng].
  unfold generateHistoricalDataPoint, bind, ret, Math_random.
  destruct (Rltb (random (randomCalls w)) _); unfold in_domain;
    cbn beta iota zeta;
    cbn [fst battery humidity speed altitude td_lat td_lng];
    autorewrite with world;
    set (n := randomCalls w);
    pose proof (random_range n) as R0;
    pose proof (random_range (S n)) as R1;
    pose proof (random_range (S (S n))) as R2;
    pose proof (random_range (S (S (S n)))) as R3;
    pose proof (random_range (S (S (S (S n))))) as R4;
    pose proof (random_range (S (S (S (S (S n)))))) as R5;
    pose proof (random_range (S (S (S (S (S (S n))))))) as R6;
    pose proof (random_range (S (S (S (S (S (S (S n)))))))) as R7;
    pose proof (random_range (S (S (S (S (S (S (S (S n))))))))) as R8.
  - repeat split.
    + apply percent_rounded. unfold Math_max, Rmax.
      destruct (Rle_dec _ _); lra.
    + apply percent_rounded. unfold Math_max, Rmax.
      destruct (Rle_dec _ _); lra.
    + apply percent_rounded. lra.
    + apply percent_rounded. lra.
    + apply rounded_nonneg; [lra|].
      apply Rmult_le_pos; [|lra]. apply Rmult_le_pos; lra.
    + lra.
    + apply area_lat_rounded. lra.
    + apply area_lat_rounded. lra.
    + apply area_lng_rounded. lra.
    + apply area_lng_rounded. lra.
  - repeat split; lra.
Qed.

Lemma live_in_domain p ts w :
  profile_invariant p ->
  in_domain (fst (generateCurrentTelemetry random tzOffset p ts w)).
Proof.
  intros (C & B & [Hlat Hlng] & _).
  pose proof (configured_maxSpeed p C) as Hs.
  pose proof (configured_altitude p C) as Ha.
  pose proof (getHours_range tzOffset ts) as [H0 H23].
  apply IZR_le in H0. apply IZR_lt in H23.
  assert (0 <= Math_abs (IZR (getHours tzOffset ts) - 14) <= 14) as Habs.
  { unfold Math_abs, Rabs. destruct (Rcase_abs _); lra. }
  unfold generateCurrentTelemetry, bind, ret, Math_random.
  unfold in_domain.
  destruct (missionPhase p);
    cbn beta iota zeta;
    cbn [fst battery humidity speed altitude td_lat td_lng];
    autorewrite with world;
    set (n := randomCalls w);
    pose proof (random_range n) as R0;
    pose proof (random_range (S n)) as R1;
    pose proof (random_range (S (S n))) as R2;
    pose proof (random_range (S (S (S n)))) as R3;
    pose proof (random_range (S (S (S (S n))))) as R4;
    (split; [apply percent_rounded; lra|]);
    (split; [apply percent_rounded; lra|]);
    (split;
     [apply rounded_nonneg; [lra|];
      first [lra | apply Rmult_le_pos; [|lra]; apply Rmult_le_pos; lra]|]);
    (split; [apply Math_round_nonneg; lra|]);
    (split; [apply area_lat_rounded; lra | apply area_lng_rounded; lra]).
Qed.

End Synthesizer.

(** C5.  Every record of the two entry points of the synthesizer is inside
    its declared domain, whatever the timestamp and the random draws: the
    historical point of any profile of a configured drone, and the live
    point of any reachable profile. *)
Theorem records_in_domain (clock : nat -> Z) (random : nat -> R)
  (tzOffset : Z -> Z) (p : DroneProfile) (ts : Z) (w : World) :
  (forall n : nat, 0 <= random n < 1) ->
  (configured p ->
   in_domain (fst (generateHistoricalDataPoint random tzOffset p ts w))) /\
  (reachable clock random tzOffset p ->
   in_domain (fst (generateCurrentTelemetry random tzOffset p ts w))).
Proof.
  intros Hrand. split.
  - now apply historical_in_domain.
  - intros H. apply live_in_domain; [exact Hrand|].
    now apply (reachable_invariant clock random tzOffset Hrand).
Qed.

(** ** Rounding of the records *)

Lemma rounded_to_1 (k : Z) : rounded_to 1 (IZR k / 10).
Proof. exists k. simpl. f_equal. lra. Qed.

Lemma rounded_to_0 (k : Z) : rounded_to 0 (IZR k).
Proof. exists k. simpl. lra. Qed.

Lemma rounded_to_6 (k : Z) : rounded_to 6 (IZR k / 1000000).
Proof. exists k. simpl. f_equal. lra. Qed.

(** The live point does round every field. *)
Lemma live_record_rounded random tzOffset p ts w :
  record_rounded (fst (generateCurrentTelemetry random tzOffset p ts w)).
Proof.
  unfold generateCurrentTelemetry, bind, ret, Math_random, record_rounded.
  destruct (missionPhase p); cbn beta iota zeta;
    cbn [fst battery temperature humidity speed altitude td_lat td_lng];
    repeat split;
    first [apply rounded_to_1 | apply rounded_to_0 | apply rounded_to_6].
Qed.

Lemma not_rounded_half (d : nat) (x : R) (n : Z) :
  Z.odd n = true -> 2 * (x * 10 ^ d) = IZR n -> ~ rounded_to d x.
Proof.
  intros Hodd H [k Hk]. subst x.
  assert (10 ^ d <> 0) as Hp by (apply pow_nonzero; lra).
  unfold Rdiv in H. rewrite Rmult_assoc, Rinv_l, Rmult_1_r in H by exact Hp.
  rewrite <- mult_IZR in H. apply eq_IZR in H. subst n.
  rewrite Z.odd_mul in Hodd. discriminate.
Qed.

(** C6, at the inputs where it fails.  The historical point of drone A1 at
    the epoch, read in UTC: with the draws [draws_standby] it is a standby
    reading whose battery is 85.15, which is not rounded to one decimal; with
    the draws [draws_active] it is an active reading whose altitude is 130.5,
    which is not rounded to an integer. *)
Theorem historical_point_not_rounded :
  let standby :=
    fst (generateHistoricalDataPoint draws_standby utc drone_A1 0 fresh_world) in
  let active :=
    fst (generateHistoricalDataPoint draws_active utc drone_A1 0 fresh_world) in
  battery standby = 85.15 /\ ~ rounded_to 1 (battery standby) /\
  altitude active = 130.5 /\ ~ rounded_to 0 (altitude active).
Proof.
  cbv zeta.
  unfold generateHistoricalDataPoint, bind, ret, Math_random.
  replace (getHours utc 0) with 0%Z by reflexivity.
  replace (getDay utc 0) with 4%Z by reflexivity.
  cbn [Z.leb Z.compare andb negb orb Z.eqb randomCalls fresh_world
       draws_standby draws_active].
  unfold Rltb.
  destruct (Rlt_dec 0.7 0.2) as [F|_]; [lra|].
  destruct (Rlt_dec 0 0.2) as [_|F]; [|lra].
  cbn beta iota zeta.
  cbn [fst battery altitude]. autorewrite with world.
  cbn [randomCalls fresh_world draws_standby draws_active
       operatingAltitude drone_A1].
  assert (85 + 0.01 * 15 = 85.15) as E1 by lra.
  assert (150 + 0.0125 * 40 - 20 = 130.5) as E2 by lra.
  rewrite E1, E2. repeat split.
  - apply (not_rounded_half 1 _ 1703); [reflexivity | simpl; lra].
  - apply (not_rounded_half 0 _ 261); [reflexivity | simpl; lra].
Qed.

(** ** The backfill *)

Section Backfill.

Variable clock : nat -> Z.
Variable random : nat -> R.
Variable tzOffset : Z -> Z.

Lemma generateHistoricalDataPoint_key p ts w :
  record_key (fst (generateHistoricalDataPoint random tzOffset p ts w)) =
  (dp_id p, ts).
Proof.
  unfold generateHistoricalDataPoint, bind, ret, Math_random.
  destruct (Rltb _ _); reflexivity.
Qed.

Lemma historical_forEach_keys profiles ts acc w :
  map record_key (fst (historical_forEach random tzOffset profiles ts acc w)) =
  map record_key acc ++ keys_at profiles ts.
Proof.
  revert acc w. induction profiles as [|[k p] rest IH]; intros acc w.
  - simpl. now rewrite app_nil_r.
  - cbn [historical_forEach]. unfold bind at 1.
    destruct (generateHistoricalDataPoint random tzOffset p ts w) as [data w1] eqn:E.
    rewrite IH. rewrite map_app. cbn [map keys_at snd].
    pose proof (generateHistoricalDataPoint_key p ts w) as K.
    rewrite E in K. cbn [fst] in K. rewrite K.
    rewrite <- app_assoc. reflexivity.
Qed.

Lemma historical_loop_keys profiles now i acc w :
  map record_key
      (fst (historical_loop random tzOffset profiles now 3 i acc w)) =
  map record_key acc ++
  flat_map (keys_at profiles)
    (map (fun j : nat => (now - Z.of_nat j * 180000)%Z) (rev (seq 0 (S i)))).
Proof.
  revert acc w. induction i as [|i IH]; intros acc w.
  - cbn [historical_loop]. unfold bind, ret.
    destruct (historical_forEach random tzOffset profiles _ acc w)
      as [acc' w1] eqn:E.
    pose proof (historical_forEach_keys profiles (now - Z.of_nat 0 * 3 * 60000)
                  acc w) as K.
    rewrite E in K. cbn [fst] in K |- *. rewrite K.
    cbn [seq rev app map flat_map]. rewrite app_nil_r.
    replace (Z.of_nat 0 * 3 * 60000)%Z with (Z.of_nat 0 * 180000)%Z by lia.
    reflexivity.
  - cbn [historical_loop]. unfold bind at 1.
    destruct (historical_forEach random tzOffset profiles _ acc w)
      as [acc' w1] eqn:E.
    pose proof (historical_forEach_keys profiles
                  (now - Z.of_nat (S i) * 3 * 60000) acc w) as K.
    rewrite E in K. cbn [fst] in K.
    rewrite IH, K.
    rewrite (seq_S (S i) 0), rev_app_distr.
    cbn [rev app map flat_map plus]. rewrite <- app_assoc.
    replace (Z.of_nat (S i) * 3 * 60000)%Z
      with (Z.of_nat (S i) * 180000)%Z by lia.
    reflexivity.
Qed.

(** The chunks the insertion loop stores, from the index [i] on. *)
Lemma insert_loop_chunks batchData i w :
  exists batches : list (list TelemetryData),
    snd (insert_loop batchData i w) =
    {| clockReads := clockReads w; randomCalls := randomCalls w;
       registry := registry w; simStates := simStates w;
       telemetry := telemetry w ++ batches |} /\
    concat batches = drop i batchData /\
    Forall (fun b => (0 < length b <= batchSize)%nat) batches.
Proof.
  funelim (insert_loop batchData i w); clear Heqcall.
  - (* one more chunk *)
    unfold insertMany. cbn beta iota zeta.
    destruct (H tt (stored (slice batchData i (i + batchSize)) w))
      as (batches & Hw & Hc & Hf).
    exists (slice batchData i (i + batchSize) :: batches).
    rewrite Hw. autorewrite with world. split; [|split].
    + now rewrite <- app_assoc.
    + cbn [concat]. rewrite Hc. unfold slice.
      replace (i + batchSize - i)%nat with batchSize by lia.
      rewrite <- drop_drop. apply take_drop.
    + constructor; [|exact Hf]. unfold slice.
      rewrite length_take, length_drop. unfold batchSize. lia.
  - (* past the end *)
    cbn [snd]. exists []. rewrite app_nil_r. split; [|split].
    + destruct w; reflexivity.
    + rewrite drop_ge by lia. reflexivity.
    + constructor.
Qed.

(** The generation of the records stores nothing. *)
Lemma generateHistoricalDataPoint_telemetry p ts w :
  telemetry (snd (generateHistoricalDataPoint random tzOffset p ts w)) =
  telemetry w.
Proof.
  unfold generateHistoricalDataPoint, bind, ret, Math_random.
  destruct (Rltb _ _); reflexivity.
Qed.

Lemma historical_forEach_telemetry profiles ts acc w :
  telemetry (snd (historical_forEach random tzOffset profiles ts acc w)) =
  telemetry w.
Proof.
  revert acc w. induction profiles as [|[k p] rest IH]; intros acc w.
  - reflexivity.
  - cbn [historical_forEach]. unfold bind at 1.
    destruct (generateHistoricalDataPoint random tzOffset p ts w) as [data w1] eqn:E.
    rewrite IH. change w1 with (snd (data, w1)). rewrite <- E.
    apply generateHistoricalDataPoint_telemetry.
Qed.

Lemma historical_loop_telemetry profiles now i acc w :
  telemetry (snd (historical_loop random tzOffset profiles now 3 i acc w)) =
  telemetry w.
Proof.
  revert acc w. induction i as [|i IH]; intros acc w;
    cbn [historical_loop]; unfold bind at 1;
    destruct (historical_forEach random tzOffset profiles _ acc w)
      as [acc' w1] eqn:E.
  - unfold ret. cbn [snd]. change w1 with (snd (acc', w1)). rewrite <- E.
    apply historical_forEach_telemetry.
  - rewrite IH. change w1 with (snd (acc', w1)). rewrite <- E.
    apply historical_forEach_telemetry.
Qed.

(** The instants of the backfill, one by one. *)
Lemma backfill_instants_S now (n : nat) :
  map (fun j : nat => (now - Z.of_nat j * 180000)%Z) (rev (seq 0 (S (S n)))) =
  (now - Z.of_nat (S n) * 180000)%Z ::
  map (fun j : nat => (now - Z.of_nat j * 180000)%Z) (rev (seq 0 (S n))).
Proof. rewrite (seq_S (S n) 0), rev_app_distr. reflexivity. Qed.

Lemma backfill_instants_spacing now (n i : nat) (t t' : Z) :
  let stamps :=
    map (fun j : nat => (now - Z.of_nat j * 180000)%Z) (rev (seq 0 (S n))) in
  stamps !! i = Some t -> stamps !! S i = Some t' -> (t' - t = 180000)%Z.
Proof.
  cbv zeta. revert i t t'. induction n as [|n IH]; intros i t t'.
  - destruct i; discriminate.
  - rewrite backfill_instants_S. destruct i as [|i].
    + destruct n as [|n]; [|rewrite backfill_instants_S];
        cbn [lookup list_lookup]; intros [= <-] [= <-]; lia.
    + cbn [lookup list_lookup]. apply IH.
Qed.

Lemma backfill_instants_last now (n : nat) :
  last (map (fun j : nat => (now - Z.of_nat j * 180000)%Z) (rev (seq 0 (S n)))) =
  Some now.
Proof.
  change (seq 0 (S n)) with (0%nat :: seq 1 n). cbn [rev].
  rewrite map_app. cbn [map]. rewrite last_snoc. f_equal. lia.
Qed.

End Backfill.

(** C9.  For every positive number of hours, the backfill concerns exactly
    [hours * 60 / 3 + 1] instants, three minutes apart, the last of which is
    the clock reading; it generates one record per drone at each instant, in
    that order, and stores them in consecutive chunks of at most 100 records
    (none empty).  When no record is persisted, [initializeDatabase] runs
    this backfill, for 6 hours. *)
Theorem backfill_shape (clock : nat -> Z) (random : nat -> R)
  (tzOffset : Z -> Z) (profiles : Profiles) (hours : Z) (w : World) :
  (0 < hours)%Z ->
  let now := next_clock clock w in
  let stamps := backfill_timestamps now hours in
  let w' := snd (generateHistoricalData clock random tzOffset profiles hours w) in
  Z.of_nat (length stamps) = (hours * 60 / 3 + 1)%Z /\
  last stamps = Some now /\
  (forall (i : nat) (t t' : Z),
      stamps !! i = Some t -> stamps !! S i = Some t' -> (t' - t = 180000)%Z) /\
  (exists batches : list (list TelemetryData),
      telemetry w' = telemetry w ++ batches /\
      Forall (fun b => (0 < length b <= 100)%nat) batches /\
      map record_key (concat batches) = flat_map (keys_at profiles) stamps) /\
  (length (concat (telemetry w)) = 0%nat ->
   initializeDatabase clock random tzOffset profiles w =
   generateHistoricalData clock random tzOffset profiles 6 w).
Proof.
  intros Hh. cbv zeta. unfold backfill_timestamps.
  assert (0 <= hours * 60 / 3)%Z as Hpos by (apply Z.div_pos; lia).
  split; [|split; [|split; [|split]]].
  - rewrite length_map, length_rev, length_seq. lia.
  - apply backfill_instants_last.
  - intros i t t'. apply backfill_instants_spacing.
  - unfold generateHistoricalData, bind, Date_now.
    destruct (0 <=? hours * 60 / 3)%Z eqn:E; [|lia].
    destruct (historical_loop random tzOffset profiles (clock (clockReads w)) 3
                (Z.to_nat (hours * 60 / 3)) [] (clock_read w))
      as [batchData w1] eqn:L.
    destruct (insert_loop_chunks batchData 0 w1) as (batches & Hw & Hc & Hf).
    exists batches. rewrite Hw. cbn [telemetry]. split; [|split].
    + f_equal. change w1 with (snd (batchData, w1)). rewrite <- L.
      now rewrite historical_loop_telemetry.
    + exact Hf.
    + rewrite Hc. rewrite drop_0.
      change batchData with (fst (batchData, w1)). rewrite <- L.
      rewrite historical_loop_keys. reflexivity.
  - intros Hc. unfold initializeDatabase, bind, countDocuments.
    rewrite Hc. reflexivity.
Qed.

(** ** The admin handler *)

Lemma trunc_IZR (z : Z) : trunc (IZR z) = z.
Proof.
  unfold trunc. destruct (Rle_dec 0 (IZR z)).
  - apply Int_part_IZR.
  - rewrite <- opp_IZR, Int_part_IZR. lia.
Qed.

Lemma Date_of_number_IZR (z : Z) :
  (- 8640000000000000 <= z <= 8640000000000000)%Z ->
  Date_of_number (IZR z) = DateAt z.
Proof.
  intros [Hlo Hhi]. apply IZR_le in Hlo, Hhi.
  unfold Date_of_number, Rleb.
  destruct (Rle_dec (Rabs (IZR z)) 8640000000000000) as [_|N].
  - now rewrite trunc_IZR.
  - exfalso. apply N. unfold Rabs. destruct (Rcase_abs _); lra.
Qed.

Lemma js_or_falsy (v d : JsValue) : truthy v = false -> js_or v d = d.
Proof. unfold js_or. now intros ->. Qed.

Lemma generateRealisticTelemetry_registry clock random id status context w :
  registry (snd (Route.generateRealisticTelemetry clock random id status context w)) =
  registry w.
Proof.
  unfold Route.generateRealisticTelemetry, bind, ret, Date_now, Math_random.
  repeat (destruct (decide _); [reflexivity|]). reflexivity.
Qed.

(** C10.  A request whose [duration] is falsy (0, [null], [false], the empty
    string, or no [duration] at all) is handled exactly as the request
    without a [duration]; and for such a request that names a drone and a
    status, the entry written for the drone is an override that expires five
    minutes after the handler's clock reading, which the answer reports. *)
Theorem falsy_duration_is_five_minutes (clock : nat -> Z) (random : nat -> R)
  (Date_parse : string -> Date) (request : Route.Body) (w : World) :
  truthy (Route.body_duration request) = false ->
  Route.POST clock random Date_parse request w =
  Route.POST clock random Date_parse (with_duration JsUndefined request) w /\
  forall id status : string,
    Route.string_truthy (Route.body_droneId request) = Some id ->
    Route.string_truthy (Route.body_status request) = Some status ->
    let now := next_clock clock w in
    (- 8640000000000000 <= now + 300000 <= 8640000000000000)%Z ->
    exists (state : OverrideEntry) (answer : Route.Success),
      registry (snd (Route.POST clock random Date_parse request w)) !! id =
      Some state /\
      manualOverride state = true /\
      overrideExpiry state = Some (DateAt (now + 300000)) /\
      fst (Route.POST clock random Date_parse request w) = Route.Status200 answer /\
      Route.res_overrideExpiry answer = (now + 300000)%Z.
Proof.
  intros Hfalsy. split.
  - unfold Route.POST. cbn [with_duration Route.body_droneId Route.body_status
      Route.body_isOnline Route.body_battery Route.body_duration].
    rewrite (js_or_falsy _ _ Hfalsy). reflexivity.
  - intros id status Hid Hst now Hrange.
    destruct (Route.POST clock random Date_parse request w) as [resp w'] eqn:P.
    unfold Route.POST in P. rewrite Hid, Hst, (js_or_falsy _ _ Hfalsy) in P.
    unfold bind at 1 in P. unfold Date_now at 1 in P.
    fold (next_clock clock w) in P. fold now in P.
    assert (Route.Date_of_sum Date_parse now (JsNumber (5 * 60 * 1000)) =
            DateAt (now + 300000)) as E.
    { unfold Route.Date_of_sum.
      replace (IZR now + 5 * 60 * 1000) with (IZR (now + 300000))
        by (rewrite plus_IZR; lra).
      now apply Date_of_number_IZR. }
    rewrite E in P.
    unfold bind, Route.findOne_latest, Date_now, Route.droneStates_set,
      Route.save, insertMany, ret in P.
    match type of P with
    | context [Route.generateRealisticTelemetry ?c ?r ?i ?s ?ctx ?w0] =>
      pose proof (generateRealisticTelemetry_registry c r i s ctx w0) as Hreg;
      destruct (Route.generateRealisticTelemetry c r i s ctx w0) as [tel w3]
    end.
    cbn [fst snd] in Hreg. injection P as <- <-.
    eexists. eexists. cbn [fst snd]. autorewrite with world. rewrite Hreg.
    cbn [registry set_registry]. rewrite lookup_insert_eq.
    repeat split.
Qed.

(** ** The tick *)

Section Tick.

Variable clock : nat -> Z.
Variable random : nat -> R.
Variable tzOffset : Z -> Z.

Lemma updateDroneState_id p w :
  dp_id (fst (updateDroneState clock random tzOffset p w)) = dp_id p.
Proof.
  change (ip_id (static_of (fst (updateDroneState clock random tzOffset p w))) =
          ip_id (static_of p)).
  now rewrite updateDroneState_static.
Qed.

Lemma generateCurrentTelemetry_id p ts w :
  droneId (fst (generateCurrentTelemetry random tzOffset p ts w)) = dp_id p.
Proof.
  unfold generateCurrentTelemetry, bind, ret, Math_random.
  destruct (missionPhase p); reflexivity.
Qed.

Lemma isDroneUnderManualOverride_telemetry id w :
  telemetry (snd (isDroneUnderManualOverride clock id w)) = telemetry w.
Proof.
  rewrite sim_check_cases.
  destruct (sim_entry w id) as [state|]; [|reflexivity].
  destruct (manualOverride state); [|reflexivity].
  destruct (overrideExpiry state) as [e|]; [|reflexivity].
  destruct (Date_gt _ e); [|reflexivity].
  cbn [snd]. unfold deref_set. destruct (simStates _); reflexivity.
Qed.

Lemma updateDroneState_telemetry p w :
  telemetry (snd (updateDroneState clock random tzOffset p w)) = telemetry w.
Proof.
  unfold updateDroneState, bind, ret, Date_now, Math_random.
  destruct (missionPhase p); cbn beta iota;
    repeat (break_match; cbn beta iota);
    repeat match goal with
           | H : (_, _) = (_, _) |- _ => inversion H; subst; clear H
           end;
    reflexivity.
Qed.

Lemma generateCurrentTelemetry_telemetry p ts w :
  telemetry (snd (generateCurrentTelemetry random tzOffset p ts w)) = telemetry w.
Proof.
  unfold generateCurrentTelemetry, bind, ret, Math_random.
  destruct (missionPhase p); reflexivity.
Qed.

(** What the loop of a tick does over a map: it keeps the keys, pushes
    records of drones of the map only, and stores nothing. *)
Lemma tick_loop_spec profiles now acc w :
  exists profiles' new w',
    tick_loop clock random tzOffset profiles now acc w =
    ((profiles', acc ++ new), w') /\
    map fst profiles' = map fst profiles /\
    profile_ids profiles' = profile_ids profiles /\
    Forall (fun r => In (droneId r) (profile_ids profiles)) new /\
    telemetry w' = telemetry w.
Proof.
  revert acc w. induction profiles as [|[k p] rest IH]; intros acc w.
  - exists [], [], w. cbn. rewrite app_nil_r. repeat split. constructor.
  - cbn [tick_loop]. unfold bind at 1.
    pose proof (isDroneUnderManualOverride_telemetry k w) as T0.
    destruct (isDroneUnderManualOverride clock k w) as [[|] w0]; cbn [snd] in T0.
    + unfold bind, ret.
      destruct (IH acc w0) as (rest' & new & w' & -> & Hk & Hi & Hf & Ht).
      exists ((k, p) :: rest'), new, w'. cbn [map fst]. repeat split.
      * now rewrite Hk.
      * unfold profile_ids in *. cbn [map snd]. now rewrite Hi.
      * eapply Forall_impl; [exact Hf|]. cbn. intros r Hr. now right.
      * congruence.
    + unfold bind at 1.
      pose proof (updateDroneState_telemetry p w0) as T1.
      pose proof (updateDroneState_id p w0) as I1.
      destruct (updateDroneState clock random tzOffset p w0) as [p1 w1].
      cbn [fst snd] in T1, I1. unfold bind at 1.
      pose proof (generateCurrentTelemetry_telemetry p1 now w1) as T2.
      pose proof (generateCurrentTelemetry_id p1 now w1) as I2.
      destruct (generateCurrentTelemetry random tzOffset p1 now w1) as [data w2].
      cbn [fst snd] in T2, I2. unfold bind, ret.
      destruct (IH (acc ++ [data]) w2)
        as (rest' & new & w' & -> & Hk & Hi & Hf & Ht).
      exists ((k, p1) :: rest'), (data :: new), w'. cbn [map fst]. repeat split.
      * now rewrite <- app_assoc.
      * now rewrite Hk.
      * unfold profile_ids in *. cbn [map snd]. now rewrite Hi, I1.
      * constructor.
        -- cbn. left. congruence.
        -- eapply Forall_impl; [exact Hf|]. cbn. intros r Hr. now right.
      * congruence.
Qed.

Lemma tick_loop_app l1 l2 now acc w :
  tick_loop clock random tzOffset (l1 ++ l2) now acc w =
  let '((l1', acc1), w1) := tick_loop clock random tzOffset l1 now acc w in
  let '((l2', acc2), w2) := tick_loop clock random tzOffset l2 now acc1 w1 in
  ((l1' ++ l2', acc2), w2).
Proof.
  revert acc w. induction l1 as [|[k p] l1 IH]; intros acc w.
  - cbn [app tick_loop]. unfold ret.
    destruct (tick_loop clock random tzOffset l2 now acc w) as [[l2' acc2] w2].
    reflexivity.
  - cbn [app tick_loop]. unfold bind, ret.
    destruct (isDroneUnderManualOverride clock k w) as [[|] w0].
    + rewrite IH.
      destruct (tick_loop clock random tzOffset l1 now acc w0) as [[l1' acc1] w1].
      destruct (tick_loop clock random tzOffset l2 now acc1 w1) as [[l2' acc2] w2].
      reflexivity.
    + destruct (updateDroneState clock random tzOffset p w0) as [p1 w1].
      destruct (generateCurrentTelemetry random tzOffset p1 now w1) as [data w2].
      rewrite IH.
      destruct (tick_loop clock random tzOffset l1 now (acc ++ [data]) w2)
        as [[l1' acc1] w3].
      destruct (tick_loop clock random tzOffset l2 now acc1 w3) as [[l2' acc2] w4].
      reflexivity.
Qed.

(** The map of the simulator is well keyed from the start, and a tick keeps
    it so. *)
Lemma initializeProfiles_well_keyed w :
  well_keyed (fst (initializeProfiles random w)).
Proof.
  unfold initializeProfiles, initialProfiles.
  cbn [initializeProfiles_forEach]. unfold bind, Math_random, ret.
  cbn [fst snd Map_set ip_id].
  repeat (rewrite decide_False by discriminate). cbn [Map_set].
  split; [reflexivity|].
  apply (bool_decide_unpack _). vm_compute. exact I.
Qed.

Lemma generateAndSaveTelemetry_well_keyed profiles w :
  well_keyed profiles ->
  well_keyed (fst (generateAndSaveTelemetry clock random tzOffset profiles w)).
Proof.
  intros [Hi Hn]. unfold generateAndSaveTelemetry, bind, Date_now.
  destruct (tick_loop_spec profiles (clock (clockReads w)) [] (clock_read w))
    as (profiles' & new & w' & -> & Hk & Hi' & _).
  unfold ret, insertMany. destruct (0 <? length _)%nat; cbn [fst];
    (split; [congruence | now rewrite Hk]).
Qed.

End Tick.

(** C1.  The skip guarantee.  In a tick over a map whose profiles sit under
    their own identifiers, a drone that the override check reports as
    overridden when its turn comes (that is, in the world the loop has made
    of the drones before it) keeps its profile, field for field, at its place
    in the map; and the tick stores at most one batch, which holds no record
    of that drone. *)
Theorem skip_guarantee (clock : nat -> Z) (random : nat -> R)
  (tzOffset : Z -> Z) (pre post : Profiles) (k : string) (p : DroneProfile)
  (w : World) :
  well_keyed (pre ++ (k, p) :: post) ->
  let now := next_clock clock w in
  let w_k := snd (tick_loop clock random tzOffset pre now [] (clock_read w)) in
  fst (isDroneUnderManualOverride clock k w_k) = true ->
  let result :=
    generateAndSaveTelemetry clock random tzOffset (pre ++ (k, p) :: post) w in
  (exists pre' post' : Profiles,
      fst result = pre' ++ (k, p) :: post' /\
      map fst pre' = map fst pre /\ map fst post' = map fst post) /\
  (exists appended : list (list TelemetryData),
      telemetry (snd result) = telemetry w ++ appended /\
      (length appended <= 1)%nat /\
      Forall (Forall (fun r => droneId r <> k)) appended).
Proof.
  intros [Hkeys Hnodup] now w_k Hover result.
  (* the identifiers before and after the drone are not its own *)
  rewrite map_app in Hnodup. cbn [map fst] in Hnodup.
  apply NoDup_app in Hnodup as (_ & Hdisj & Hnodup).
  apply NoDup_cons in Hnodup as [Hnotin _].
  unfold profile_ids in Hkeys. rewrite !map_app in Hkeys.
  apply app_inj_1 in Hkeys as [Hpre Hrest]; [|now rewrite !length_map].
  injection Hrest as _ Hpost.
  fold (profile_ids pre) in Hpre. fold (profile_ids post) in Hpost.
  assert (~ In k (profile_ids pre)) as Hk1.
  { rewrite Hpre. intros X. apply list_elem_of_In in X.
    apply (Hdisj k X). left. }
  assert (~ In k (profile_ids post)) as Hk2.
  { rewrite Hpost. intros X. now apply list_elem_of_In in X. }
  (* the loop, drone by drone *)
  destruct (tick_loop_spec clock random tzOffset pre now [] (clock_read w))
    as (pre' & new1 & w1 & E1 & K1 & _ & F1 & T1).
  subst w_k. rewrite E1 in Hover. cbn [snd] in Hover.
  pose proof (isDroneUnderManualOverride_telemetry clock k w1) as T2.
  destruct (isDroneUnderManualOverride clock k w1) as [b w2] eqn:E2.
  cbn [fst snd] in Hover, T2. subst b.
  destruct (tick_loop_spec clock random tzOffset post now ([] ++ new1) w2)
    as (post' & new2 & w3 & E3 & K3 & _ & F3 & T3).
  assert (Forall (fun r => droneId r <> k) (([] ++ new1) ++ new2)) as Hrec.
  { cbn [app]. apply Forall_app. split.
    - eapply Forall_impl; [exact F1|]. cbn. intros r Hr <-. contradiction.
    - eapply Forall_impl; [exact F3|]. cbn. intros r Hr <-. contradiction. }
  assert (telemetry w3 = telemetry w) as Tw by (rewrite T3, T2, T1; reflexivity).
  assert (result =
          (pre' ++ (k, p) :: post',
           if (0 <? length (([] ++ new1) ++ new2))%nat
           then stored (([] ++ new1) ++ new2) w3 else w3)) as ->.
  { subst result. unfold generateAndSaveTelemetry, bind, Date_now.
    fold (next_clock clock w). fold now. rewrite tick_loop_app, E1.
    cbn [tick_loop]. unfold bind. rewrite E2, E3. unfold ret, insertMany.
    destruct (0 <? length _)%nat; reflexivity. }
  cbn [fst snd]. split.
  - exists pre', post'. split; [reflexivity|split; assumption].
  - destruct (0 <? length _)%nat.
    + exists [([] ++ new1) ++ new2].
      rewrite telemetry_stored, Tw. repeat split; [cbn; lia|].
      constructor; [exact Hrec | constructor].
    + exists []. rewrite Tw, app_nil_r.
      repeat split; [cbn; lia | constructor].
Qed.

(** * The theorems at concrete inputs *)

Lemma draws_zero_range : forall n : nat, 0 <= draws_zero n < 1.
Proof. intros n. unfold draws_zero. lra. Defined.

Lemma drone_A1_configured : configured drone_A1.
Proof. left. reflexivity. Defined.

Lemma drone_A2_configured : configured drone_A2.
Proof. right. left. reflexivity. Defined.

(** Drone A2 is the second profile [initializeProfiles] builds. *)
Lemma drone_A2_reachable :
  reachable clock_2000 draws_zero utc drone_A2.
Proof.
  apply (reachable_initial clock_2000 draws_zero utc fresh_world "A2").
  unfold initializeProfiles, initialProfiles.
  cbn [initializeProfiles_forEach]. unfold bind, Math_random, ret.
  cbn [fst snd Map_set ip_id].
  repeat (rewrite decide_False by discriminate). cbn [Map_set].
  right. left. reflexivity.
Defined.

Lemma battery_after_step_in_range_witness :
  let p' := fst (updateDroneState clock_2000 draws_zero utc drone_A1
                   fresh_world) in
  configured drone_A1 /\
  currentBattery drone_A1 <= 100 /\
  15 <= currentBattery p' <= 100.
Proof.
  cbv zeta.
  assert (currentBattery drone_A1 <= 100) as H by (cbn; lra).
  split; [exact drone_A1_configured|]. split; [exact H|].
  exact (proj1 (battery_after_step_in_range clock_2000 draws_zero utc drone_A1
                  fresh_world drone_A1_configured H)).
Defined.




Lemma records_in_domain_witness :
  (forall n : nat, 0 <= draws_zero n < 1) /\
  configured drone_A2 /\
  reachable clock_2000 draws_zero utc drone_A2 /\
  in_domain (fst (generateHistoricalDataPoint draws_zero utc drone_A2 0
                    fresh_world)) /\
  in_domain (fst (generateCurrentTelemetry draws_zero utc drone_A2 0
                    fresh_world)).
Proof.
  destruct (records_in_domain clock_2000 draws_zero utc drone_A2 0 fresh_world
              draws_zero_range) as [Hhist Hlive].
  split; [exact draws_zero_range|].
  split; [exact drone_A2_configured|].
  split; [exact drone_A2_reachable|].
  split; [exact (Hhist drone_A2_configured) | exact (Hlive drone_A2_reachable)].
Defined.

Lemma idle_step_witness :
  let p' := fst (updateDroneState clock_2000 draws_zero utc drone_A2
                   fresh_world) in
  (forall n : nat, 0 <= draws_zero n < 1) /\
  reachable clock_2000 draws_zero utc drone_A2 /\
  missionPhase drone_A2 = idle /\
  ~ (8 <= getHours utc (next_clock clock_2000 fresh_world) <= 18)%Z /\
  missionPhase p' = idle /\
  currentBattery p' = Math_min 100 (currentBattery drone_A2 + 0.3).
Proof.
  cbv zeta.
  assert (~ (8 <= getHours utc (next_clock clock_2000 fresh_world) <= 18)%Z)
    as Hnight by (vm_compute; intros [H _]; apply H; reflexivity).
  destruct (idle_step clock_2000 draws_zero utc drone_A2 fresh_world
              draws_zero_range drone_A2_reachable eq_refl) as (_ & _ & Hstay).
  split; [exact draws_zero_range|]. split; [exact drone_A2_reachable|].
  split; [reflexivity|]. split; [exact Hnight|].
  apply Hstay. intros [Hday _]. exact (Hnight Hday).
Defined.

Lemma backfill_shape_witness :
  (0 < 6)%Z /\
  (let profiles := [("A1"%string, drone_A1); ("A2"%string, drone_A2)] in
   let now := next_clock clock_2000 fresh_world in
   let stamps := backfill_timestamps now 6 in
   let w' :=
     snd (generateHistoricalData clock_2000 draws_zero utc profiles 6
            fresh_world) in
   Z.of_nat (length stamps) = 121%Z /\
   last stamps = Some now /\
   (forall (i : nat) (t t' : Z),
       stamps !! i = Some t -> stamps !! S i = Some t' -> (t' - t = 180000)%Z) /\
   (exists batches : list (list TelemetryData),
       telemetry w' = telemetry fresh_world ++ batches /\
       Forall (fun b => (0 < length b <= 100)%nat) batches /\
       map record_key (concat batches) = flat_map (keys_at profiles) stamps) /\
   initializeDatabase clock_2000 draws_zero utc profiles fresh_world =
   generateHistoricalData clock_2000 draws_zero utc profiles 6 fresh_world).
Proof.
  assert (0 < 6)%Z as H by lia.
  split; [exact H|].
  destruct (backfill_shape clock_2000 draws_zero utc
              [("A1"%string, drone_A1); ("A2"%string, drone_A2)] 6 fresh_world H)
    as (Hlen & Hlast & Hgap & Hchunks & Hinit).
  cbv zeta. split; [exact Hlen|]. split; [exact Hlast|].
  split; [exact Hgap|]. split; [exact Hchunks|]. exact (Hinit eq_refl).
Defined.

Lemma two_drones_well_keyed :
  well_keyed [("A1"%string, drone_A1); ("A2"%string, drone_A2)].
Proof.
  split.
  - reflexivity.
  - apply NoDup_cons. split.
    + intros H. apply list_elem_of_In in H. destruct H as [H|[]]. discriminate.
    + apply NoDup_singleton.
Defined.

Lemma pinned_A1_overridden :
  fst (isDroneUnderManualOverride clock_2000 "A1"
         (snd (tick_loop clock_2000 draws_zero utc [] 
                 (next_clock clock_2000 (world_with pinned_A1)) []
                 (clock_read (world_with pinned_A1))))) = true.
Proof. reflexivity. Defined.

Lemma skip_guarantee_witness :
  let w := world_with pinned_A1 in
  let post := [("A2"%string, drone_A2)] in
  well_keyed ([] ++ ("A1"%string, drone_A1) :: post) /\
  fst (isDroneUnderManualOverride clock_2000 "A1"
         (snd (tick_loop clock_2000 draws_zero utc []
                 (next_clock clock_2000 w) [] (clock_read w)))) = true /\
  (let result :=
     generateAndSaveTelemetry clock_2000 draws_zero utc
       ([] ++ ("A1"%string, drone_A1) :: post) w in
   (exists pre' post' : Profiles,
       fst result = pre' ++ ("A1"%string, drone_A1) :: post' /\
       map fst pre' = map fst ([] : Profiles) /\ map fst post' = map fst post) /\
   (exists appended : list (list TelemetryData),
       telemetry (snd result) = telemetry w ++ appended /\
       (length appended <= 1)%nat /\
       Forall (Forall (fun r => droneId r <> "A1"%string)) appended)).
Proof.
  cbv zeta. split; [exact two_drones_well_keyed|].
  split; [exact pinned_A1_overridden|].
  exact (skip_guarantee clock_2000 draws_zero utc [] [("A2"%string, drone_A2)]
           "A1" drone_A1 (world_with pinned_A1) two_drones_well_keyed
           pinned_A1_overridden).
Defined.

Lemma override_check_contract_witness :
  let w := world_with expired_A1 in
  let route := Route.isDroneUnderManualOverride clock_2000 "A1" w in
  let sim := Simulator.isDroneUnderManualOverride clock_2000 "A1" w in
  registry w !! "A1"%string = Some expired_A1 /\
  sim_entry w "A1" = Some expired_A1 /\
  manualOverride expired_A1 = true /\
  overrideExpiry expired_A1 = Some (DateAt 1000) /\
  Date_gt (next_clock clock_2000 w) (DateAt 1000) = true /\
  (fst route = false /\
   entry_cleared expired_A1 (registry (snd route) !! "A1"%string)) /\
  (fst sim = false /\ entry_cleared expired_A1 (sim_entry (snd sim) "A1")).
Proof.
  cbv zeta.
  destruct (override_check_contract clock_2000) as [Hroute Hsim].
  destruct (Hroute "A1"%string (world_with expired_A1)) as (_ & Hr & _).
  destruct (Hsim "A1"%string (world_with expired_A1)) as (_ & Hs & _).
  repeat (split; [reflexivity|]). split.
  - exact (Hr expired_A1 (DateAt 1000) eq_refl eq_refl eq_refl eq_refl).
  - exact (Hs expired_A1 (DateAt 1000) eq_refl eq_refl eq_refl eq_refl).
Defined.

Lemma override_expiry_idempotent_witness :
  let w := world_with expired_A1 in
  manualOverride expired_A1 = true /\
  overrideExpiry expired_A1 = Some (DateAt 1000) /\
  Date_gt (next_clock clock_2000 w) (DateAt 1000) = true /\
  sim_entry w "A1" = Some expired_A1 /\
  registry w !! "A1"%string = Some expired_A1 /\
  (let (answers, w') :=
     call_n (Simulator.isDroneUnderManualOverride clock_2000 "A1") 3 w in
   answers = replicate 3 false /\ entry_cleared expired_A1 (sim_entry w' "A1")) /\
  (let (answers, w') :=
     call_n (Route.isDroneUnderManualOverride clock_2000 "A1") 3 w in
   answers = replicate 3 false /\
   entry_cleared expired_A1 (registry w' !! "A1"%string)).
Proof.
  cbv zeta.
  assert (sim_entry (world_with expired_A1) "A1" = Some expired_A1) as E1
      by reflexivity.
  assert (registry (world_with expired_A1) !! "A1"%string = Some expired_A1)
    as E2 by reflexivity.
  destruct (override_expiry_idempotent clock_2000 "A1" (world_with expired_A1)
              expired_A1 (DateAt 1000) 2 eq_refl eq_refl eq_refl) as [S R].
  repeat (split; [reflexivity|]). split; [exact (S E1) | exact (R E2)].
Defined.

Lemma request_zero_falsy : truthy (Route.body_duration request_zero) = false.
Proof.
  cbn [request_zero Route.body_duration truthy].
  destruct (Req_dec_T 0 0) as [_|N]; [reflexivity | now elim N].
Defined.

Lemma falsy_duration_is_five_minutes_witness :
  truthy (Route.body_duration request_zero) = false /\
  Route.POST clock_2000 draws_zero no_parse request_zero fresh_world =
  Route.POST clock_2000 draws_zero no_parse
    (with_duration JsUndefined request_zero) fresh_world /\
  exists (state : OverrideEntry) (answer : Route.Success),
    registry (snd (Route.POST clock_2000 draws_zero no_parse request_zero
                     fresh_world)) !! "A1"%string = Some state /\
    manualOverride state = true /\
    overrideExpiry state = Some (DateAt 302000) /\
    fst (Route.POST clock_2000 draws_zero no_parse request_zero fresh_world) =
    Route.Status200 answer /\
    Route.res_overrideExpiry answer = 302000%Z.
Proof.
  destruct (falsy_duration_is_five_minutes clock_2000 draws_zero no_parse
              request_zero fresh_world request_zero_falsy) as [Hsame Hexp].
  split; [exact request_zero_falsy|]. split; [exact Hsame|].
  apply (Hexp "A1"%string "Maintenance"%string eq_refl eq_refl).
  unfold next_clock, clock_2000. lia.
Defined.

(** * Further properties of the code *)

(** ** The mission state machine, phase by phase *)

Lemma moveTowardsDestination_phase p d :
  missionPhase (moveTowardsDestination p d) = missionPhase p.
Proof. unfold moveTowardsDestination. break_match; reflexivity. Qed.

Lemma moveTowardsDestination_startTime p d :
  missionStartTime (moveTowardsDestination p d) = missionStartTime p.
Proof. unfold moveTowardsDestination. break_match; reflexivity. Qed.

(** X1.  One [updateDroneState] keeps the phase or moves it to the next phase
    of the cycle idle, preparing, flying, delivering, returning, idle: no
    phase is ever skipped and none is entered backwards. *)
Theorem phase_follows_cycle (clock : nat -> Z) (random : nat -> R)
  (tzOffset : Z -> Z) (p : DroneProfile) (w : World) :
  let p' := fst (updateDroneState clock random tzOffset p w) in
  missionPhase p' = missionPhase p \/
  missionPhase p' = next_phase (missionPhase p).
Proof.
  cbv zeta. step_cases p w;
    rewrite ?moveTowardsDestination_phase;
    try match goal with H : missionPhase p = _ |- _ => rewrite H end;
    cbn [next_phase]; auto.
Qed.

(** X2.  A drone moves only while flying or returning: in every other phase
    one [updateDroneState] leaves its location as it is. *)
Theorem grounded_drone_stays (clock : nat -> Z) (random : nat -> R)
  (tzOffset : Z -> Z) (p : DroneProfile) (w : World) :
  missionPhase p <> flying ->
  missionPhase p <> returning ->
  currentLocation (fst (updateDroneState clock random tzOffset p w)) =
  currentLocation p.
Proof.
  intros Hf Hr. step_cases p w; congruence.
Qed.

Section MissionInvariant.

Variable clock : nat -> Z.
Variable random : nat -> R.
Variable tzOffset : Z -> Z.
Hypothesis random_range : forall n : nat, 0 <= random n < 1.

Lemma initial_mission_consistent w k p :
  In (k, p) (fst (initializeProfiles random w)) -> mission_consistent p.
Proof.
  unfold initializeProfiles, initialProfiles.
  cbn [initializeProfiles_forEach]. unfold bind, Math_random, ret.
  cbn [fst snd Map_set ip_id].
  repeat (rewrite decide_False by discriminate). cbn [Map_set].
  intros [E|[E|[E|[E|[]]]]]; inversion E; subst; clear E;
    unfold mission_consistent; cbn; tauto.
Qed.

Lemma updateDroneState_mission_consistent w p :
  mission_consistent p ->
  mission_consistent (fst (updateDroneState clock random tzOffset p w)).
Proof.
  intros (Hd & Hs & Hl). unfold mission_consistent.
  step_cases p w;
    rewrite ?moveTowardsDestination_phase, ?moveTowardsDestination_destination,
      ?moveTowardsDestination_startTime, ?moveTowardsDestination_base;
    try match goal with H : missionPhase p = _ |- _ => rewrite H end;
    try (intuition (try congruence; try discriminate); fail).
  (* a mission starts: the destination drawn exists *)
  match goal with
  | H : Math_random random ?w1 = (?r0, _) |- context [Math_floor (?r0 * _)] =>
    injection H as <- _;
    destruct (destination_drawn (random (randomCalls w1)) (random_range _))
      as (d & -> & _)
  end.
  intuition (try congruence; try discriminate).
Qed.

(** Every profile the simulator holds is consistent. *)
Lemma reachable_mission_consistent p :
  reachable clock random tzOffset p -> mission_consistent p.
Proof.
  induction 1 as [w k p H|w p _ IH].
  - now apply (initial_mission_consistent w k p).
  - now apply updateDroneState_mission_consistent.
Qed.

End MissionInvariant.

(** X3.  In every state the simulator can reach, a profile has a destination
    exactly when it is not idle, a mission start time exactly when it is not
    idle, and it sits at its base as long as it is idle or preparing. *)
Theorem mission_fields_consistent (clock : nat -> Z) (random : nat -> R)
  (tzOffset : Z -> Z) (p : DroneProfile) :
  (forall n : nat, 0 <= random n < 1) ->
  reachable clock random tzOffset p ->
  (missionPhase p = idle <-> destination p = None) /\
  (missionPhase p = idle <-> missionStartTime p = None) /\
  (missionPhase p = idle \/ missionPhase p = preparing ->
   currentLocation p = baseLocation p).
Proof.
  intros Hrand Hreach.
  exact (reachable_mission_consistent clock random tzOffset Hrand p Hreach).
Qed.

(** ** Arrival *)




(** ** The geometry of a step *)

(** X5.  [moveTowardsDestination] changes nothing but the location, and it
    leaves a drone where it is when there is nowhere to go or no speed to go
    with: for a drone already at the target the profile is returned as it
    is (the guard on a zero distance keeps the division by it away), and
    with a speed of zero a drone of the service area keeps its location,
    whatever the target in the area. *)
Theorem moveTowardsDestination_stays (p : DroneProfile) (target : LatLng) :
  let p' := moveTowardsDestination p target in
  static_of p' = static_of p /\
  currentBattery p' = currentBattery p /\
  missionPhase p' = missionPhase p /\
  destination p' = destination p /\
  missionStartTime p' = missionStartTime p /\
  (currentLocation p = target -> p' = p) /\
  (maxSpeed p = 0 ->
   in_service_area (currentLocation p) -> in_service_area target ->
   currentLocation p' = currentLocation p).
Proof.
  cbv zeta.
  split; [apply moveTowardsDestination_static|].
  split; [apply moveTowardsDestination_battery|].
  split; [apply moveTowardsDestination_phase|].
  split; [apply moveTowardsDestination_destination|].
  split; [apply moveTowardsDestination_startTime|].
  split.
  - intros <-. unfold moveTowardsDestination, Math_sqrt.
    replace (lat (currentLocation p) - lat (currentLocation p)) with 0 by ring.
    replace (lng (currentLocation p) - lng (currentLocation p)) with 0 by ring.
    replace (0 * 0 + 0 * 0) with 0 by ring. rewrite sqrt_0.
    unfold Rgtb, Rltb. destruct (Rlt_dec 0 0); [lra | reflexivity].
  - intros Hspeed _ _. unfold moveTowardsDestination, Math_sqrt, Math_min.
    rewrite Hspeed.
    set (D := sqrt _). unfold Rgtb, Rltb.
    destruct (Rlt_dec 0 D) as [HD|HD]; [|reflexivity].
    cbn [currentLocation set_currentLocation].
    replace (0 * (20 / 3600) / 111 / D) with 0 by (field; lra).
    unfold Rmin. destruct (Rle_dec 0 1); [|lra].
    apply LatLng_eq; cbn [lat lng]; ring.
Qed.

(** ** Live readings *)

Lemma Math_round_0 : Math_round 0 = 0%Z.
Proof. unfold Math_round. symmetry. apply Int_part_spec. lra. Qed.

Lemma rounded_zero : IZR (Math_round (0 * 10)) / 10 = 0.
Proof. rewrite Rmult_0_l, Math_round_0. lra. Qed.

Lemma rounded_positive (x s : R) (a : Z) :
  0 < s -> (0 < a)%Z -> IZR a <= x * s -> 0 < IZR (Math_round (x * s)) / s.
Proof.
  intros Hs Ha H.
  assert (a <= Math_round (x * s))%Z as Hr.
  { pose proof (Int_part_bounds (x * s + / 2)) as [_ H2].
    unfold Math_round. apply Z.lt_succ_r. apply lt_IZR. rewrite succ_IZR. lra. }
  apply IZR_le in Hr. apply IZR_lt in Ha.
  apply Rmult_lt_0_compat; [lra | now apply Rinv_0_lt_compat].
Qed.

(** X6.  A live reading of a configured drone names the drone, carries the
    timestamp it was asked for and the display status of the phase, and shows
    the drone in motion exactly when it is in the air: speed and altitude are
    positive for a flying or returning drone and zero in every other phase. *)
Theorem live_reading_shows_phase (random : nat -> R) (tzOffset : Z -> Z)
  (p : DroneProfile) (ts : Z) (w : World) :
  (forall n : nat, 0 <= random n < 1) ->
  configured p ->
  let t := fst (generateCurrentTelemetry random tzOffset p ts w) in
  droneId t = dp_id p /\ timestamp t = ts /\
  td_status t = Some (status_of_phase (missionPhase p)) /\
  (airborne (missionPhase p) -> 0 < speed t /\ 0 < altitude t) /\
  (~ airborne (missionPhase p) -> speed t = 0 /\ altitude t = 0).
Proof.
  intros Hrand C. cbv zeta.
  pose proof (configured_maxSpeed p C) as Hs.
  pose proof (configured_altitude p C) as Ha.
  unfold generateCurrentTelemetry, bind, ret, Math_random, airborne.
  destruct (missionPhase p); cbn beta iota zeta;
    cbn [fst droneId timestamp td_status speed altitude status_of_phase];
    autorewrite with world;
    set (n := randomCalls w);
    pose proof (Hrand (S n)) as R1;
    pose proof (Hrand (S (S n))) as R2;
    (split; [reflexivity|]); (split; [reflexivity|]); (split; [reflexivity|]);
    split; intros H;
    try (exfalso; destruct H; discriminate);
    try (exfalso; apply H; auto; fail);
    try (split; [apply rounded_zero | now rewrite Math_round_0]).
  - split.
    + apply (rounded_positive _ 10 1); [lra | lia | nra].
    + apply IZR_lt.
      assert (1 <= Math_round (operatingAltitude p + random (S (S n)) * 30 - 15))%Z
        by (apply (Math_round_range _ 1 1000); lra).
      lia.
  - split.
    + apply (rounded_positive _ 10 1); [lra | lia | nra].
    + apply IZR_lt.
      assert (1 <= Math_round (operatingAltitude p + random (S (S n)) * 25 - 10))%Z
        by (apply (Math_round_range _ 1 1000); lra).
      lia.
Qed.

(** X7.  Whatever the phase and the hour, a live reading has a temperature
    between 22 and 44 degrees and a humidity between 44 and 80 percent. *)
Theorem live_reading_climate (random : nat -> R) (tzOffset : Z -> Z)
  (p : DroneProfile) (ts : Z) (w : World) :
  (forall n : nat, 0 <= random n < 1) ->
  let t := fst (generateCurrentTelemetry random tzOffset p ts w) in
  22 <= temperature t <= 44 /\ 44 <= humidity t <= 80.
Proof.
  intros Hrand. cbv zeta.
  pose proof (getHours_range tzOffset ts) as [H0 H23].
  apply IZR_le in H0. apply IZR_lt in H23.
  assert (0 <= Math_abs (IZR (getHours tzOffset ts) - 14) <= 14) as Habs.
  { unfold Math_abs, Rabs. destruct (Rcase_abs _); lra. }
  pose proof (SIN_bound ((IZR (getHours tzOffset ts) - 6) / 12 * Math_PI))
    as Hsin.
  unfold generateCurrentTelemetry, bind, ret, Math_random.
  set (adj := Math_sin _ * 3).
  assert (-3 <= adj <= 3) as Hadj by (unfold adj, Math_sin; lra).
  destruct (missionPhase p); cbn beta iota zeta;
    cbn [fst temperature humidity];
    autorewrite with world;
    set (n := randomCalls w);
    pose proof (Hrand (S n)) as R1;
    pose proof (Hrand (S (S n))) as R2;
    pose proof (Hrand (S (S (S n)))) as R3;
    pose proof (Hrand (S (S (S (S n))))) as R4;
    (split;
     [ apply (rounded_bounds _ 10 _ _ 220 440); lra
     | apply (rounded_bounds _ 10 _ _ 440 800); lra ]).
Qed.

(** ** Historical readings *)

Lemma statusOptions_drawn (r : R) :
  0 <= r < 1 ->
  exists s,
    array_get statusOptions (Math_floor (r * INR (length statusOptions))) = Some s /\
    In s statusOptions.
Proof.
  intros Hr.
  destruct (array_get_in_range statusOptions
              (Math_floor (r * INR (length statusOptions)))) as [s Hs].
  { change (length statusOptions) with 5%nat.
    change (Z.of_nat 5) with 5%Z. apply Math_floor_range. simpl INR. lra. }
  exists s. split; [exact Hs|]. now apply array_get_In in Hs.
Qed.

(** Rounding to six decimals moves a coordinate by at most half a
    millionth. *)
Lemma rounded_6_close (x lo hi : R) :
  lo <= x <= hi ->
  lo - 0.0000005 <= IZR (Math_round (x * 1000000)) / 1000000 <= hi + 0.0000005.
Proof.
  intros H. pose proof (Int_part_bounds (x * 1000000 + / 2)) as [H1 H2].
  unfold Math_round. lra.
Qed.

(** X8.  A historical reading of a configured drone always has one of the
    five display statuses of the backfill, a battery between 50 and 100 (the
    floor of 20 in the code never applies), a temperature between 26 and 44,
    a humidity between 55 and 80, a speed of at most the drone's maximum and
    a position within 0.04 degrees of its base, up to the rounding. *)
Theorem historical_reading_ranges (random : nat -> R) (tzOffset : Z -> Z)
  (p : DroneProfile) (ts : Z) (w : World) :
  (forall n : nat, 0 <= random n < 1) ->
  configured p ->
  let t := fst (generateHistoricalDataPoint random tzOffset p ts w) in
  (exists s, td_status t = Some s /\ In s statusOptions) /\
  50 <= battery t <= 100 /\
  26 <= temperature t <= 44 /\
  55 <= humidity t <= 80 /\
  0 <= speed t <= maxSpeed p /\
  lat (baseLocation p) - 0.0400005 <= td_lat t <= lat (baseLocation p) + 0.0400005 /\
  lng (baseLocation p) - 0.0400005 <= td_lng t <= lng (baseLocation p) + 0.0400005.
Proof.
  intros Hrand C. cbv zeta.
  assert (exists m : Z, maxSpeed p = IZR m /\ (60 <= m <= 75)%Z) as (m & Hm & Hm').
  { destruct (configured_cases p C) as [H|[H|[H|H]]];
      destruct H as (_ & -> & _);
      [exists 65%Z | exists 70%Z | exists 60%Z | exists 75%Z]; split; try lia; lra. }
  assert (60 <= IZR m <= 75) as Hs by (split; apply IZR_le; lia).
  unfold generateHistoricalDataPoint, bind, ret, Math_random.
  destruct (Rltb (random (randomCalls w)) _);
    cbn beta iota zeta;
    cbn [fst td_status battery temperature humidity speed td_lat td_lng];
    autorewrite with world;
    set (n := randomCalls w);
    pose proof (Hrand (S n)) as R1;
    pose proof (Hrand (S (S n))) as R2;
    pose proof (Hrand (S (S (S n)))) as R3;
    pose proof (Hrand (S (S (S (S n))))) as R4;
    pose proof (Hrand (S (S (S (S (S n)))))) as R5;
    pose proof (Hrand (S (S (S (S (S (S n))))))) as R6;
    pose proof (Hrand (S (S (S (S (S (S (S n)))))))) as R7;
    pose proof (Hrand (S (S (S (S (S (S (S (S n))))))))) as R8.
  - split.
    { destruct (statusOptions_drawn (random (S (S (S (S (S (S (S (S (S n))))))))))
                 (Hrand _)) as (s & Hs1 & Hs2).
      exists s. split; assumption. }
    split.
    { apply (rounded_bounds _ 10 _ _ 500 1000); try lra.
      unfold Math_max, Rmax. destruct (Rle_dec _ _); lra. }
    split; [apply (rounded_bounds _ 10 _ _ 320 440); lra|].
    split; [apply (rounded_bounds _ 10 _ _ 550 800); lra|].
    split.
    { rewrite Hm. split.
      - apply rounded_nonneg; [lra|]. nra.
      - assert (IZR m = IZR (m * 10) / 10) as -> by (rewrite mult_IZR; lra).
        apply Rmult_le_compat_r; [lra|]. apply IZR_le.
        apply (Math_round_range _ 0 (m * 10)). rewrite mult_IZR. split; nra. }
    split.
    + pose proof (rounded_6_close
                    (lat (baseLocation p) + (random (S (S (S (S (S n))))) - 0.5) * 0.08)
                    (lat (baseLocation p) - 0.04) (lat (baseLocation p) + 0.04)
                    ltac:(lra)). lra.
    + pose proof (rounded_6_close
                    (lng (baseLocation p) + (random (S (S (S (S (S (S n)))))) - 0.5) * 0.08)
                    (lng (baseLocation p) - 0.04) (lng (baseLocation p) + 0.04)
                    ltac:(lra)). lra.
  - split; [exists "Standby"%string; split; [reflexivity | now left]|].
    repeat split; lra.
Qed.

(** ** The backfill, once more *)

Section BackfillMore.

Variable clock : nat -> Z.
Variable random : nat -> R.
Variable tzOffset : Z -> Z.

Lemma chunks_from_step data i :
  (i < length data)%nat ->
  chunks_from data i =
  slice data i (i + batchSize) :: chunks_from data (i + batchSize).
Proof.
  intros Hi. unfold chunks_from.
  assert ((length data - i + 99) / batchSize =
          S ((length data - (i + batchSize) + 99) / batchSize))%nat as ->.
  { unfold batchSize.
    destruct (le_lt_dec (length data - i) 100) as [Hle|Hgt].
    - replace (length data - (i + 100))%nat with 0%nat by lia.
      change ((0 + 99) / 100)%nat with 0%nat.
      symmetry. apply Nat.div_unique with (r := (length data - i - 1)%nat); lia.
    - replace (length data - i + 99)%nat
        with ((length data - (i + 100) + 99) + 1 * 100)%nat by lia.
      rewrite Nat.div_add by lia. lia. }
  cbn [seq map]. f_equal.
  - f_equal; unfold batchSize; lia.
  - rewrite <- seq_shift, map_map. apply map_ext. intros j.
    f_equal; unfold batchSize; lia.
Qed.

Lemma chunks_from_end data i :
  (length data <= i)%nat -> chunks_from data i = [].
Proof.
  intros Hi. unfold chunks_from.
  replace (length data - i)%nat with 0%nat by lia. reflexivity.
Qed.

(** The insertion loop stores exactly the chunks, and does nothing else. *)
Lemma insert_loop_exact batchData i w :
  snd (insert_loop batchData i w) =
  {| clockReads := clockReads w; randomCalls := randomCalls w;
     registry := registry w; simStates := simStates w;
     telemetry := telemetry w ++ chunks_from batchData i |}.
Proof.
  funelim (insert_loop batchData i w); clear Heqcall.
  - unfold insertMany. cbn beta iota zeta. rewrite (H tt).
    autorewrite with world. rewrite (chunks_from_step batchData i) by exact l.
    now rewrite <- app_assoc.
  - cbn [snd]. rewrite chunks_from_end by lia. rewrite app_nil_r.
    destruct w; reflexivity.
Qed.

Lemma generateHistoricalDataPoint_frame p ts w :
  shared_untouched w (snd (generateHistoricalDataPoint random tzOffset p ts w)).
Proof.
  unfold generateHistoricalDataPoint, bind, ret, Math_random.
  destruct (Rltb _ _); repeat split.
Qed.

Lemma historical_forEach_frame profiles ts acc w :
  shared_untouched w (snd (historical_forEach random tzOffset profiles ts acc w)).
Proof.
  revert acc w. induction profiles as [|[k p] rest IH]; intros acc w.
  - repeat split.
  - cbn [historical_forEach]. unfold bind at 1.
    pose proof (generateHistoricalDataPoint_frame p ts w) as (R1 & S1 & T1).
    destruct (generateHistoricalDataPoint random tzOffset p ts w) as [data w1].
    cbn [snd] in R1, S1, T1.
    destruct (IH (acc ++ [data]) w1) as (R2 & S2 & T2).
    repeat split; congruence.
Qed.

Lemma historical_loop_frame profiles now i acc w :
  shared_untouched w (snd (historical_loop random tzOffset profiles now 3 i acc w)).
Proof.
  revert acc w. induction i as [|i IH]; intros acc w;
    cbn [historical_loop]; unfold bind at 1.
  - pose proof (historical_forEach_frame profiles
                  (now - Z.of_nat 0 * 3 * 60000) acc w) as F.
    destruct (historical_forEach random tzOffset profiles _ acc w) as [acc' w1].
    exact F.
  - pose proof (historical_forEach_frame profiles
                  (now - Z.of_nat (S i) * 3 * 60000) acc w) as F.
    destruct (historical_forEach random tzOffset profiles _ acc w) as [acc' w1].
    cbn [snd] in F. destruct F as (R1 & S1 & T1).
    destruct (IH acc' w1) as (R2 & S2 & T2).
    repeat split; congruence.
Qed.

Lemma historical_forEach_length profiles ts acc w :
  length (fst (historical_forEach random tzOffset profiles ts acc w)) =
  (length acc + length profiles)%nat.
Proof.
  pose proof (historical_forEach_keys random tzOffset profiles ts acc w) as K.
  apply (f_equal (@length _)) in K.
  rewrite length_app, !length_map in K. unfold keys_at in K.
  rewrite length_map in K. exact K.
Qed.

Lemma flat_map_keys_length profiles (stamps : list Z) :
  length (flat_map (keys_at profiles) stamps) =
  (length stamps * length profiles)%nat.
Proof.
  induction stamps as [|t l IH]; [reflexivity|].
  cbn [flat_map]. rewrite length_app, IH. unfold keys_at.
  rewrite length_map. cbn [length]. lia.
Qed.

Lemma historical_loop_length profiles now i w :
  length (fst (historical_loop random tzOffset profiles now 3 i [] w)) =
  (S i * length profiles)%nat.
Proof.
  pose proof (historical_loop_keys random tzOffset profiles now i [] w) as K.
  apply (f_equal (@length _)) in K.
  rewrite length_map in K. cbn [map app] in K.
  rewrite flat_map_keys_length, length_map, length_rev, length_seq in K.
  exact K.
Qed.

End BackfillMore.

(** What the backfill leaves behind, for a number of hours that is not
    negative. *)
Lemma generateHistoricalData_stores clock random tzOffset profiles hours w :
  (0 <= hours)%Z ->
  let w' := snd (generateHistoricalData clock random tzOffset profiles hours w) in
  exists data : list TelemetryData,
    length data = (S (Z.to_nat (hours * 60 / 3)) * length profiles)%nat /\
    telemetry w' = telemetry w ++ chunks_from data 0 /\
    registry w' = registry w /\ simStates w' = simStates w.
Proof.
  intros Hh. cbv zeta.
  assert (0 <= hours * 60 / 3)%Z as Hpos by (apply Z.div_pos; lia).
  unfold generateHistoricalData, bind, Date_now.
  destruct (0 <=? hours * 60 / 3)%Z eqn:E; [|lia].
  pose proof (historical_loop_length random tzOffset profiles
                (clock (clockReads w)) (Z.to_nat (hours * 60 / 3)) (clock_read w))
    as Hlen.
  pose proof (historical_loop_frame random tzOffset profiles
                (clock (clockReads w)) (Z.to_nat (hours * 60 / 3)) []
                (clock_read w)) as (Hreg & Hsim & Htel).
  destruct (historical_loop random tzOffset profiles (clock (clockReads w)) 3
              (Z.to_nat (hours * 60 / 3)) [] (clock_read w))
    as [data w1] eqn:L.
  cbn [fst snd] in Hlen, Hreg, Hsim, Htel.
  exists data. rewrite insert_loop_exact. cbn [telemetry registry simStates].
  split; [exact Hlen|]. split; [now rewrite Htel|]. split; assumption.
Qed.

(** X9.  The backfill stores its records in chunks of exactly 100, in
    order, but for the last chunk, which holds the rest: for a number of
    hours that is not negative it generates [(hours * 60 / 3 + 1)] records
    per drone and appends them to the store as the slices [0, 100),
    [100, 200), ... of that list, so in [ceil (n / 100)] calls for [n]
    records; it leaves the registry and the simulator's reference alone. *)
Theorem backfill_chunks_exact (clock : nat -> Z) (random : nat -> R)
  (tzOffset : Z -> Z) (profiles : Profiles) (hours : Z) (w : World) :
  (0 <= hours)%Z ->
  let w' := snd (generateHistoricalData clock random tzOffset profiles hours w) in
  exists data : list TelemetryData,
    length data = (S (Z.to_nat (hours * 60 / 3)) * length profiles)%nat /\
    telemetry w' = telemetry w ++ chunks_from data 0 /\
    length (chunks_from data 0) = ((length data + 99) / 100)%nat /\
    (forall j : nat,
        (100 * j + 100 <= length data)%nat ->
        exists chunk, chunks_from data 0 !! j = Some chunk /\
                      length chunk = 100%nat) /\
    registry w' = registry w /\ simStates w' = simStates w.
Proof.
  intros Hh. cbv zeta.
  destruct (generateHistoricalData_stores clock random tzOffset profiles hours w Hh)
    as (data & Hlen & Htel & Hreg & Hsim).
  exists data. split; [exact Hlen|]. split; [exact Htel|].
  split; [|split; [|split; assumption]].
  - unfold chunks_from. rewrite length_map, length_seq.
    now rewrite Nat.sub_0_r.
  - intros j Hj. unfold chunks_from. rewrite Nat.sub_0_r.
    change (map ?f ?l) with (f <$> l). rewrite list_lookup_fmap.
    rewrite lookup_seq_lt.
    + cbn [fmap option_fmap option_map]. eexists. split; [reflexivity|].
      unfold slice. rewrite length_take, length_drop. unfold batchSize. lia.
    + unfold batchSize. apply Nat.div_le_lower_bound; lia.
Qed.

Lemma concat_chunks_from data i : concat (chunks_from data i) = drop i data.
Proof.
  remember (length data - i)%nat as k eqn:Hk. revert i Hk.
  induction k as [k IH] using lt_wf_ind. intros i Hk.
  destruct (lt_dec i (length data)) as [Hlt|Hge].
  - rewrite chunks_from_step by exact Hlt. cbn [concat].
    rewrite (IH (length data - (i + batchSize))%nat)
      by (unfold batchSize; lia). unfold slice.
    replace (i + batchSize - i)%nat with batchSize by lia.
    rewrite <- drop_drop. apply take_drop.
  - rewrite chunks_from_end by lia. rewrite drop_ge by lia. reflexivity.
Qed.

(** X10.  A backfill over a negative number of hours generates nothing: no
    record, no draw, no call of the store; all it does is read the clock
    once. *)
Theorem backfill_negative_hours (clock : nat -> Z) (random : nat -> R)
  (tzOffset : Z -> Z) (profiles : Profiles) (hours : Z) (w : World) :
  (hours < 0)%Z ->
  generateHistoricalData clock random tzOffset profiles hours w =
  (tt, clock_read w).
Proof.
  intros Hh. unfold generateHistoricalData, bind, Date_now, ret.
  assert (hours * 60 / 3 < 0)%Z as Hneg
      by (apply Z.div_lt_upper_bound; lia).
  destruct (0 <=? hours * 60 / 3)%Z eqn:E; [lia|].
  simp insert_loop. reflexivity.
Qed.

(** X11.  The start-up backfill happens once: with at least one drone,
    whatever the store holds before, a second [initializeDatabase] right
    after the first changes nothing; and a store that already holds a record
    is never written to. *)
Theorem initializeDatabase_once (clock : nat -> Z) (random : nat -> R)
  (tzOffset : Z -> Z) (profiles : Profiles) (w : World) :
  profiles <> [] ->
  let w1 := snd (initializeDatabase clock random tzOffset profiles w) in
  initializeDatabase clock random tzOffset profiles w1 = (tt, w1) /\
  (concat (telemetry w) <> [] -> w1 = w).
Proof.
  intros Hne. cbv zeta.
  assert (forall v, concat (telemetry v) <> [] ->
                    initializeDatabase clock random tzOffset profiles v = (tt, v))
    as Hnoop.
  { intros v Hv. unfold initializeDatabase, bind, countDocuments, ret.
    destruct (length (concat (telemetry v))) eqn:E; [|reflexivity].
    apply length_zero_iff_nil in E. contradiction. }
  split.
  - apply Hnoop.
    destruct (concat (telemetry w)) as [|t l] eqn:Hc.
    + (* the store was empty: the backfill has put records in it *)
      unfold initializeDatabase, bind, countDocuments. rewrite Hc.
      cbn [length Nat.eqb].
      destruct (generateHistoricalData_stores clock random tzOffset profiles 6
                  w ltac:(lia)) as (data & Hlen & -> & _).
      rewrite concat_app, concat_chunks_from, drop_0.
      intros Habs. apply app_eq_nil in Habs as [_ ->].
      destruct profiles; [congruence | cbn in Hlen; lia].
    + rewrite Hnoop by (rewrite Hc; discriminate). cbn [snd].
      rewrite Hc. discriminate.
  - intros Hc. now rewrite Hnoop.
Qed.

(** ** The two copies of the override check *)

Lemma sim_entry_shared w id :
  simStates w = RefShared -> sim_entry w id = registry w !! id.
Proof. unfold sim_entry, deref. now intros ->. Qed.

(** X12.  Once the simulator's reference is the map of the admin route
    (which [getDroneStates] makes it, the first time it is called and the
    import succeeds), the simulator's copy of the override check and the
    route's are one function: the same answer and the same effect, on every
    identifier and in every world. *)
Theorem override_checks_agree (clock : nat -> Z) (id : string) (w : World) :
  (simStates w = RefNull ->
   simStates (snd (getDroneStates false w)) = RefShared) /\
  (simStates w = RefShared ->
   Simulator.isDroneUnderManualOverride clock id w =
   Route.isDroneUnderManualOverride clock id w).
Proof.
  split.
  - intros H. unfold getDroneStates. rewrite H. reflexivity.
  - intros H. rewrite sim_check_cases, route_check_cases.
    rewrite (sim_entry_shared w id H).
    destruct (registry w !! id) as [state|]; [|reflexivity].
    destruct (manualOverride state); [|reflexivity].
    destruct (overrideExpiry state) as [e|]; [|reflexivity].
    destruct (Date_gt _ e); [|reflexivity].
    cbv zeta. unfold deref_set, Date_now. cbn [snd].
    rewrite simStates_clock_read, H. reflexivity.
Qed.

(** ** Ticks in which nothing is overridden *)

Section TickMore.

Variable clock : nat -> Z.
Variable random : nat -> R.
Variable tzOffset : Z -> Z.

Lemma updateDroneState_frame p w :
  shared_untouched w (snd (updateDroneState clock random tzOffset p w)).
Proof.
  unfold updateDroneState, bind, ret, Date_now, Math_random.
  destruct (missionPhase p); cbn beta iota;
    repeat (break_match; cbn beta iota);
    repeat match goal with
           | H : (_, _) = (_, _) |- _ => inversion H; subst; clear H
           end;
    repeat split.
Qed.

Lemma generateCurrentTelemetry_frame p ts w :
  shared_untouched w (snd (generateCurrentTelemetry random tzOffset p ts w)).
Proof.
  unfold generateCurrentTelemetry, bind, ret, Math_random.
  destruct (missionPhase p); repeat split.
Qed.

Lemma generateCurrentTelemetry_key p ts w :
  record_key (fst (generateCurrentTelemetry random tzOffset p ts w)) =
  (dp_id p, ts).
Proof.
  unfold generateCurrentTelemetry, bind, ret, Math_random.
  destruct (missionPhase p); reflexivity.
Qed.

Lemma no_override_frame w w' :
  shared_untouched w w' -> no_override w -> no_override w'.
Proof.
  intros (Hr & Hs & _) H id state. unfold sim_entry, deref.
  rewrite Hs, Hr. apply H.
Qed.

(** With no override in force the loop of a tick skips no drone: it pushes
    one record per profile, in the order of the map. *)
Lemma tick_loop_no_override profiles now acc w :
  no_override w ->
  exists profiles' new w',
    tick_loop clock random tzOffset profiles now acc w =
    ((profiles', acc ++ new), w') /\
    map record_key new = keys_at profiles now /\
    shared_untouched w w'.
Proof.
  revert acc w. induction profiles as [|[k p] rest IH]; intros acc w Hno.
  - exists [], [], w. cbn. rewrite app_nil_r. repeat split.
  - cbn [tick_loop]. unfold bind at 1.
    rewrite (sim_check_inactive clock k w (Hno k)). unfold bind at 1.
    pose proof (updateDroneState_frame p w) as F1.
    pose proof (updateDroneState_id clock random tzOffset p w) as I1.
    destruct (updateDroneState clock random tzOffset p w) as [p1 w1].
    cbn [fst snd] in F1, I1. unfold bind at 1.
    pose proof (generateCurrentTelemetry_frame p1 now w1) as F2.
    pose proof (generateCurrentTelemetry_key p1 now w1) as K2.
    destruct (generateCurrentTelemetry random tzOffset p1 now w1) as [data w2].
    cbn [fst snd] in F2, K2. unfold bind, ret.
    assert (shared_untouched w w2) as F12.
    { destruct F1 as (? & ? & ?), F2 as (? & ? & ?). repeat split; congruence. }
    destruct (IH (acc ++ [data]) w2 (no_override_frame _ _ F12 Hno))
      as (rest' & new & w' & -> & Hk & F3).
    exists ((k, p1) :: rest'), (data :: new), w'. split; [|split].
    + now rewrite <- app_assoc.
    + cbn [map keys_at snd]. rewrite K2, I1. f_equal. exact Hk.
    + destruct F12 as (? & ? & ?), F3 as (? & ? & ?). repeat split; congruence.
Qed.

(** The tick as a whole, with no override in force. *)
Lemma tick_no_override profiles w :
  no_override w ->
  exists (profiles' : Profiles) (records : list TelemetryData),
    fst (generateAndSaveTelemetry clock random tzOffset profiles w) = profiles' /\
    map record_key records = keys_at profiles (next_clock clock w) /\
    telemetry (snd (generateAndSaveTelemetry clock random tzOffset profiles w)) =
    telemetry w ++ (if decide (profiles = []) then [] else [records]).
Proof.
  intros Hno. unfold generateAndSaveTelemetry, bind, Date_now.
  assert (no_override (clock_read w)) as Hno'
      by (apply (no_override_frame w); [repeat split | exact Hno]).
  destruct (tick_loop_no_override profiles (clock (clockReads w)) []
              (clock_read w) Hno')
    as (profiles' & new & w' & -> & Hk & (_ & _ & Ht)).
  cbn [app]. exists profiles', new. unfold next_clock.
  split; [|split; [exact Hk|]].
  - unfold ret, insertMany. destruct (0 <? length new)%nat; reflexivity.
  - apply (f_equal (@length _)) in Hk. unfold keys_at in Hk.
    rewrite !length_map in Hk.
    destruct (decide (profiles = [])) as [->|Hne].
    + destruct new; [|discriminate]. cbn. unfold ret. cbn [snd].
      now rewrite Ht, app_nil_r.
    + destruct new as [|t new].
      * destruct profiles; [congruence | discriminate].
      * cbn [length Nat.ltb Nat.leb]. unfold insertMany, ret. cbn [snd].
        now rewrite telemetry_stored, Ht.
Qed.

End TickMore.

(** X13.  When no override is in force, a tick skips no drone: it stores a
    single batch with exactly one record per drone of the map, in the order
    of the map, all of them stamped with the one clock reading made at the
    start of the tick (and it stores nothing when the map is empty). *)
Theorem tick_covers_every_drone (clock : nat -> Z) (random : nat -> R)
  (tzOffset : Z -> Z) (profiles : Profiles) (w : World) :
  no_override w ->
  exists records : list TelemetryData,
    map record_key records = keys_at profiles (next_clock clock w) /\
    telemetry (snd (generateAndSaveTelemetry clock random tzOffset profiles w)) =
    telemetry w ++ (if decide (profiles = []) then [] else [records]).
Proof.
  intros Hno.
  destruct (tick_no_override clock random tzOffset profiles w Hno)
    as (profiles' & records & _ & Hk & Ht).
  now exists records.
Qed.

(** ** The admin handler, step by step *)

Section Admin.

Variable clock : nat -> Z.
Variable random : nat -> R.
Variable Date_parse : string -> Date.

(** The reading [generateRealisticTelemetry] makes: about the drone and the
    status it is given, stamped with the clock, and made without touching
    anything but the clock and the draws. *)
Lemma generateRealisticTelemetry_spec id status context w :
  let r := Route.generateRealisticTelemetry clock random id status context w in
  droneId (fst r) = id /\ td_status (fst r) = Some status /\
  timestamp (fst r) = next_clock clock w /\
  humidity (fst r) = 65 /\
  shared_untouched w (snd r) /\
  clockReads (snd r) = S (clockReads w).
Proof.
  cbv zeta.
  unfold Route.generateRealisticTelemetry, bind, ret, Date_now, Math_random,
    next_clock.
  repeat (destruct (decide _); [repeat split|]). repeat split.
Qed.

(** The effect of a request that names a drone and a status. *)
Lemma POST_valid request w id status :
  Route.string_truthy (Route.body_droneId request) = Some id ->
  Route.string_truthy (Route.body_status request) = Some status ->
  let now := next_clock clock w in
  let expiry :=
    Route.Date_of_sum Date_parse now
      (js_or (Route.body_duration request) (JsNumber (5 * 60 * 1000))) in
  let r := Route.POST clock random Date_parse request w in
  exists (entry : OverrideEntry) (t : TelemetryData),
    registry (snd r) = <[id := entry]> (registry w) /\
    manualOverride entry = true /\
    overrideExpiry entry = Some expiry /\
    oe_status entry = status /\
    telemetry (snd r) = telemetry w ++ [[t]] /\
    droneId t = id /\ td_status t = Some status /\
    simStates (snd r) = simStates w /\
    clockReads (snd r) = (clockReads w + 4)%nat /\
    match expiry with
    | DateAt e =>
      exists answer,
        fst r = Route.Status200 answer /\
        Route.res_overrideExpiry answer = e /\
        Route.res_droneId answer = id /\
        Route.res_status answer = status /\
        Route.res_battery answer = battery t
    | InvalidDate => fst r = Route.Status500
    end.
Proof.
  intros Hid Hst now expiry r.
  destruct r as [resp w'] eqn:P. subst r.
  unfold Route.POST in P. rewrite Hid, Hst in P.
  unfold bind at 1 in P. unfold Date_now at 1 in P.
  fold (next_clock clock w) in P. fold now in P. fold expiry in P.
  unfold bind, Route.findOne_latest, Date_now, Route.droneStates_set,
    Route.save, insertMany, ret in P.
  match type of P with
  | context [Route.generateRealisticTelemetry ?c ?r ?i ?s ?ctx ?w0] =>
    pose proof (generateRealisticTelemetry_spec i s ctx w0)
      as (Gid & Gst & _ & _ & (Greg & Gsim & Gtel) & Gclock);
    destruct (Route.generateRealisticTelemetry c r i s ctx w0) as [t w3]
  end.
  cbn [fst snd] in Gid, Gst, Greg, Gsim, Gtel, Gclock.
  cbn [registry set_registry simStates telemetry clockReads clock_read]
    in Greg, Gsim, Gtel, Gclock.
  destruct expiry as [e|]; injection P as <- <-; cbn [fst snd];
    autorewrite with world; eexists; exists t;
    (split; [exact Greg|]);
    rewrite Gsim, Gtel, Gclock;
    repeat (split; [first [reflexivity | assumption | lia]|]).
  - eexists. repeat split.
  - reflexivity.
Qed.

End Admin.

Lemma POST_refuses_incomplete_world clock random Date_parse request w :
  Route.string_truthy (Route.body_droneId request) = None \/
  Route.string_truthy (Route.body_status request) = None ->
  snd (Route.POST clock random Date_parse request w) = w.
Proof.
  intros [H|H]; unfold Route.POST; rewrite H; [reflexivity|].
  destruct (Route.string_truthy (Route.body_droneId request)); reflexivity.
Qed.

(** X14.  A request without a drone identifier or without a status (missing
    or empty) is refused with status 400 before anything happens: no clock
    reading, no override, no record. *)
Theorem POST_refuses_incomplete (clock : nat -> Z) (random : nat -> R)
  (Date_parse : string -> Date) (request : Route.Body) (w : World) :
  Route.string_truthy (Route.body_droneId request) = None \/
  Route.string_truthy (Route.body_status request) = None ->
  Route.POST clock random Date_parse request w = (Route.Status400, w).
Proof.
  intros [H|H]; unfold Route.POST; rewrite H; [reflexivity|].
  destruct (Route.string_truthy (Route.body_droneId request)); reflexivity.
Qed.

Lemma POST_Status200_valid clock random Date_parse request w answer :
  fst (Route.POST clock random Date_parse request w) = Route.Status200 answer ->
  exists status,
    Route.string_truthy (Route.body_droneId request) =
    Some (Route.res_droneId answer) /\
    Route.string_truthy (Route.body_status request) = Some status /\
    Route.Date_of_sum Date_parse (next_clock clock w)
      (js_or (Route.body_duration request) (JsNumber (5 * 60 * 1000))) =
    DateAt (Route.res_overrideExpiry answer).
Proof.
  intros H.
  destruct (Route.string_truthy (Route.body_droneId request)) as [id|] eqn:Hid;
    [|unfold Route.POST in H; rewrite Hid in H; discriminate].
  destruct (Route.string_truthy (Route.body_status request)) as [status|] eqn:Hst;
    [|unfold Route.POST in H; rewrite Hid, Hst in H; discriminate].
  destruct (POST_valid clock random Date_parse request w id status Hid Hst)
    as (entry & t & _ & _ & _ & _ & _ & _ & _ & _ & _ & Hresp).
  destruct (Route.Date_of_sum _ _ _) as [e|].
  - destruct Hresp as (answer' & Ha & He & Hi & _).
    rewrite H in Ha. injection Ha as <-. subst. now exists status.
  - rewrite H in Hresp. discriminate.
Qed.

(** X15.  An accepted override lasts exactly until the expiry the answer
    reports: right after a request answered with status 200, the override
    check on the drone of the answer says yes when the next clock reading is
    at or before that expiry and no when it is past it, in which case the
    entry it leaves has its flag cleared. *)
Theorem override_lasts_until_expiry (clock : nat -> Z) (random : nat -> R)
  (Date_parse : string -> Date) (request : Route.Body) (w : World)
  (answer : Route.Success) :
  fst (Route.POST clock random Date_parse request w) = Route.Status200 answer ->
  let w' := snd (Route.POST clock random Date_parse request w) in
  let id := Route.res_droneId answer in
  let check := Route.isDroneUnderManualOverride clock id w' in
  next_clock clock w' = clock (clockReads w + 4)%nat /\
  ((next_clock clock w' <= Route.res_overrideExpiry answer)%Z ->
   fst check = true) /\
  ((Route.res_overrideExpiry answer < next_clock clock w')%Z ->
   fst check = false /\
   exists state, registry (snd check) !! id = Some state /\
                 manualOverride state = false /\ overrideExpiry state = None).
Proof.
  intros H. cbv zeta.
  destruct (POST_Status200_valid _ _ _ _ _ _ H) as (status & Hid & Hst & He).
  destruct (POST_valid clock random Date_parse request w _ status Hid Hst)
    as (entry & t & Hreg & Hflag & Hexp & _ & _ & _ & _ & _ & Hclock & _).
  rewrite He in Hexp.
  set (w' := snd (Route.POST clock random Date_parse request w)) in *.
  assert (registry w' !! Route.res_droneId answer = Some entry) as Hlook
      by (rewrite Hreg; apply lookup_insert_eq).
  rewrite route_check_cases, Hlook, Hflag, Hexp. cbn [Date_gt].
  split; [unfold next_clock; now rewrite Hclock|]. split.
  - intros Hle. destruct (_ <? _)%Z eqn:E; [lia | reflexivity].
  - intros Hlt. destruct (_ <? _)%Z eqn:E; [|lia]. cbn [fst snd].
    split; [reflexivity|]. exists (clear_override entry).
    cbn [registry set_registry]. rewrite lookup_insert_eq. repeat split.
Qed.

(** X16.  What a request answered with 200 has done: it has written the
    override entry of the drone of the answer, with the flag set, the status
    of the answer and the expiry the answer reports; it has left the entries
    of all other drones as they were; and it has stored exactly one reading,
    about that drone, with that status and with the battery the answer
    reports. *)
Theorem accepted_POST_effects (clock : nat -> Z) (random : nat -> R)
  (Date_parse : string -> Date) (request : Route.Body) (w : World)
  (answer : Route.Success) :
  fst (Route.POST clock random Date_parse request w) = Route.Status200 answer ->
  let w' := snd (Route.POST clock random Date_parse request w) in
  let id := Route.res_droneId answer in
  (exists entry,
      registry w' !! id = Some entry /\
      manualOverride entry = true /\
      oe_status entry = Route.res_status answer /\
      overrideExpiry entry = Some (DateAt (Route.res_overrideExpiry answer))) /\
  (forall k, k <> id -> registry w' !! k = registry w !! k) /\
  (exists t,
      telemetry w' = telemetry w ++ [[t]] /\
      droneId t = id /\ td_status t = Some (Route.res_status answer) /\
      battery t = Route.res_battery answer).
Proof.
  intros H. cbv zeta.
  destruct (POST_Status200_valid _ _ _ _ _ _ H) as (status & Hid & Hst & He).
  destruct (POST_valid clock random Date_parse request w _ status Hid Hst)
    as (entry & t & Hreg & Hflag & Hexp & Hstatus & Htel & Ht1 & Ht2 & _ & _ & Hresp).
  rewrite He in Hexp, Hresp.
  destruct Hresp as (answer' & Ha & _ & _ & Hs & Hb).
  rewrite H in Ha. injection Ha as <-.
  split; [|split].
  - exists entry. rewrite Hreg, lookup_insert_eq. rewrite Hs.
    repeat split; assumption.
  - intros k Hk. rewrite Hreg. now apply lookup_insert_ne.
  - exists t. rewrite Hs, Hb. repeat split; assumption.
Qed.

Lemma route_check_never_expiring clock id w entry :
  registry w !! id = Some entry ->
  manualOverride entry = true ->
  overrideExpiry entry = Some InvalidDate ->
  Route.isDroneUnderManualOverride clock id w = (true, clock_read w).
Proof.
  intros Hl Hf He. rewrite route_check_cases, Hl, Hf, He. reflexivity.
Qed.

Lemma call_n_never_expiring clock id entry n w :
  registry w !! id = Some entry ->
  manualOverride entry = true ->
  overrideExpiry entry = Some InvalidDate ->
  fst (call_n (Route.isDroneUnderManualOverride clock id) n w) =
  replicate n true.
Proof.
  intros Hl Hf He. revert w Hl. induction n as [|n IH]; intros w Hl;
    [reflexivity|].
  cbn [call_n]. unfold bind at 1.
  rewrite (route_check_never_expiring clock id w entry Hl Hf He).
  unfold bind, ret.
  specialize (IH (clock_read w) Hl).
  destruct (call_n _ n (clock_read w)) as [bs w1]. cbn [fst] in IH |- *.
  now rewrite IH.
Qed.

(** X17.  A duration that takes the expiry beyond the range of dates (more
    than 8.64e15 ms from the epoch) is answered with status 500, and yet it
    has pinned the drone for good: the entry is written with an expiry that
    is no date, so that every later override check, at any time, says yes. *)
Theorem oversized_duration_pins_forever (clock : nat -> Z) (random : nat -> R)
  (Date_parse : string -> Date) (request : Route.Body) (w : World)
  (id status : string) (x : R) (n : nat) :
  Route.string_truthy (Route.body_droneId request) = Some id ->
  Route.string_truthy (Route.body_status request) = Some status ->
  Route.body_duration request = JsNumber x ->
  0 < x ->
  8640000000000000 < IZR (next_clock clock w) + x ->
  let r := Route.POST clock random Date_parse request w in
  fst r = Route.Status500 /\
  (exists entry,
      registry (snd r) !! id = Some entry /\ manualOverride entry = true /\
      overrideExpiry entry = Some InvalidDate) /\
  fst (call_n (Route.isDroneUnderManualOverride clock id) n (snd r)) =
  replicate n true.
Proof.
  intros Hid Hst Hd Hx Hbig. cbv zeta.
  destruct (POST_valid clock random Date_parse request w id status Hid Hst)
    as (entry & t & Hreg & Hflag & Hexp & _ & _ & _ & _ & _ & _ & Hresp).
  assert (Route.Date_of_sum Date_parse (next_clock clock w)
            (js_or (Route.body_duration request) (JsNumber (5 * 60 * 1000))) =
          InvalidDate) as Hinv.
  { rewrite Hd. unfold js_or, truthy.
    destruct (Req_dec_T x 0) as [->|_]; [lra|].
    unfold Route.Date_of_sum, Date_of_number, Rleb.
    destruct (Rle_dec _ _) as [Hle|_]; [|reflexivity].
    exfalso. unfold Rabs in Hle. destruct (Rcase_abs _); lra. }
  rewrite Hinv in Hexp, Hresp.
  assert (registry (snd (Route.POST clock random Date_parse request w)) !! id =
          Some entry) as Hl by (rewrite Hreg; apply lookup_insert_eq).
  split; [exact Hresp|]. split.
  - now exists entry.
  - now apply (call_n_never_expiring clock id entry).
Qed.

(** ** The readings of the admin handler *)

Ltac draws Hrand :=
  repeat match goal with
         | |- context [?random ?n] =>
           lazymatch type of Hrand with
           | forall n : nat, 0 <= random n < 1 =>
             lazymatch goal with
             | H : 0 <= random n < 1 |- _ => fail
             | _ => pose proof (Hrand n)
             end
           end
         end.

(** X18.  For a battery between 0 and 100 and a last position at least 0.005
    degrees inside the range of coordinates, the reading the admin handler
    makes up is in the declared domain, whatever the status asked for: the
    battery stays between 0 and 100, the speed is between 0 and 65, the
    altitude between 0 and 200, the temperature between 22 and 48 (all
    bounds included), the humidity is 65 and the coordinates are
    coordinates. *)
Theorem override_reading_ranges (clock : nat -> Z) (random : nat -> R)
  (id status : string) (context : Route.Context) (w : World) :
  (forall n : nat, 0 <= random n < 1) ->
  0 <= Route.ctx_battery context <= 100 ->
  -89.995 <= lat (Route.ctx_lastPosition context) <= 89.995 ->
  -179.995 <= lng (Route.ctx_lastPosition context) <= 179.995 ->
  let t := fst (Route.generateRealisticTelemetry clock random id status context w) in
  in_domain t /\
  22 <= temperature t <= 48 /\ humidity t = 65 /\
  speed t <= 65 /\ altitude t <= 200.
Proof.
  intros Hrand Hb Hlat Hlng. cbv zeta.
  unfold Route.generateRealisticTelemetry, bind, ret, Date_now, Math_random,
    in_domain, Math_min, Math_max.
  repeat (destruct (decide _) as [_|_];
          [cbn [fst battery humidity speed altitude td_lat td_lng temperature lat lng];
           draws Hrand;
           try (unfold Rmin; destruct (Rle_dec _ _));
           try (unfold Rmax; destruct (Rle_dec _ _));
           repeat split; lra|]).
  cbn [fst battery humidity speed altitude td_lat td_lng temperature lat lng].
  repeat split; lra.
Qed.

(** X19.  For the five ground statuses (powered off, standby, pre-flight,
    active, maintenance) the reading of the admin handler places the drone
    at the Nairobi base, at rest and on the ground, wherever its last
    reading had it. *)
Theorem ground_status_at_base (clock : nat -> Z) (random : nat -> R)
  (id status : string) (context : Route.Context) (w : World) :
  In status ground_statuses ->
  let t := fst (Route.generateRealisticTelemetry clock random id status context w) in
  td_lat t = lat nairobi_base /\ td_lng t = lng nairobi_base /\
  speed t = 0 /\ altitude t = 0.
Proof.
  intros Hin. cbv zeta.
  unfold Route.generateRealisticTelemetry, bind, ret, Date_now, Math_random.
  cbn in Hin.
  destruct Hin as [<-|[<-|[<-|[<-|[<-|[]]]]]];
    repeat (destruct (decide _) as [?|?];
            [try discriminate; repeat split|try congruence]).
Qed.

(** X20.  The status is not validated: for a status the switch has no case
    for, the handler still makes a reading, with that status, and it is the
    default one: at the last position, at rest and on the ground, at 28
    degrees and with the battery it was given, without a random draw. *)
Theorem unknown_status_default_reading (clock : nat -> Z) (random : nat -> R)
  (id status : string) (context : Route.Context) (w : World) :
  ~ In status switch_statuses ->
  let r := Route.generateRealisticTelemetry clock random id status context w in
  td_status (fst r) = Some status /\
  battery (fst r) = Route.ctx_battery context /\
  temperature (fst r) = 28 /\ speed (fst r) = 0 /\ altitude (fst r) = 0 /\
  td_lat (fst r) = lat (Route.ctx_lastPosition context) /\
  td_lng (fst r) = lng (Route.ctx_lastPosition context) /\
  randomCalls (snd r) = randomCalls w.
Proof.
  intros Hout. cbv zeta.
  unfold Route.generateRealisticTelemetry, bind, ret, Date_now, Math_random.
  repeat (destruct (decide _) as [E|_];
          [exfalso; apply Hout; rewrite E; cbn; tauto|]).
  repeat split.
Qed.

(** ** Listing the overrides *)

Lemma GET_world clock droneId w :
  snd (Route.GET clock droneId w) =
  set_registry (Route.sweep (next_clock clock w) <$> registry w) (clock_read w).
Proof.
  unfold Route.GET, bind, ret, Date_now, Route.droneStates_get, next_clock.
  cbn [fst snd]. autorewrite with world.
  destruct (Route.string_truthy droneId) as [id|]; [|reflexivity].
  now destruct (_ !! id).
Qed.

Lemma GET_registry clock droneId w id :
  registry (snd (Route.GET clock droneId w)) !! id =
  Route.sweep (next_clock clock w) <$> registry w !! id.
Proof. rewrite GET_world. cbn [registry set_registry]. apply lookup_fmap. Qed.

Lemma expired_clear_override now state :
  Route.expired now (clear_override state) = false.
Proof. reflexivity. Qed.

Lemma sweep_not_expired now state :
  Route.expired now (Route.sweep now state) = false.
Proof.
  unfold Route.sweep. destruct (Route.expired now state) eqn:E;
    [apply expired_clear_override | exact E].
Qed.

(** X21.  Listing the overrides first sweeps the registry at the one clock
    reading it makes: afterwards no entry is flagged with an expiry that has
    passed, an expired entry is there with its flag cleared and no expiry,
    every other entry is as it was, no drone is added or dropped, and the
    store of readings is not touched. *)
Theorem GET_sweeps_expired (clock : nat -> Z) (droneId : option string)
  (w : World) :
  let now := next_clock clock w in
  let w' := snd (Route.GET clock droneId w) in
  (forall id state,
      registry w' !! id = Some state -> Route.expired now state = false) /\
  (forall id state,
      registry w !! id = Some state ->
      registry w' !! id =
      Some (if Route.expired now state then clear_override state else state)) /\
  (forall id, registry w' !! id = None <-> registry w !! id = None) /\
  telemetry w' = telemetry w /\
  clockReads w' = S (clockReads w).
Proof.
  cbv zeta. split; [|split; [|split; [|split]]].
  - intros id state. rewrite GET_registry.
    destruct (registry w !! id) as [st|]; [|discriminate].
    cbn. intros [= <-]. apply sweep_not_expired.
  - intros id state H. now rewrite GET_registry, H.
  - intros id. rewrite GET_registry. apply fmap_None.
  - now rewrite GET_world.
  - now rewrite GET_world.
Qed.

(** X22.  The sweep of the listing and the lazy clean-up of the override
    check agree: started from the same world, they leave the same entry for
    the drone that is checked, and the check says yes exactly when the
    listing leaves that entry flagged. *)
Theorem GET_agrees_with_check (clock : nat -> Z) (droneId : option string)
  (id : string) (w : World) :
  let listed := registry (snd (Route.GET clock droneId w)) !! id in
  let check := Route.isDroneUnderManualOverride clock id w in
  registry (snd check) !! id = listed /\
  fst check = match listed with
              | Some state => manualOverride state
              | None => false
              end.
Proof.
  cbv zeta. rewrite GET_registry, route_check_cases.
  unfold Route.sweep, Route.expired.
  destruct (registry w !! id) as [state|] eqn:Hl; cbn [fmap option_fmap option_map];
    [|cbn [fst snd]; now rewrite Hl].
  destruct (manualOverride state) eqn:Hf; cbn [andb];
    [|cbn [fst snd]; now rewrite Hl, Hf].
  destruct (overrideExpiry state) as [e|]; cbn [snd fst].
  - destruct (Date_gt _ e); cbn [fst snd registry set_registry].
    + now rewrite lookup_insert_eq.
    + unfold Date_now. cbn [snd]. autorewrite with world. now rewrite Hl, Hf.
  - unfold Date_now. cbn [snd]. autorewrite with world. now rewrite Hl, Hf.
Qed.

(** X23.  Asking the listing for a drone that has no entry (or for no drone,
    or with an empty identifier) is not an error: the answer is the listing
    of all entries, as the sweep left them. *)
Theorem GET_unknown_drone_lists_all (clock : nat -> Z)
  (droneId : option string) (w : World) :
  (forall id, Route.string_truthy droneId = Some id -> registry w !! id = None) ->
  fst (Route.GET clock droneId w) =
  Route.AllStates (Route.sweep (next_clock clock w) <$> registry w).
Proof.
  intros Hnone.
  unfold Route.GET, bind, ret, Date_now, Route.droneStates_get, next_clock.
  cbn [fst snd]. autorewrite with world.
  destruct (Route.string_truthy droneId) as [id|]; [|reflexivity].
  cbn [registry set_registry]. rewrite lookup_fmap, (Hnone id eq_refl).
  reflexivity.
Qed.

(** ** An override and the tick *)

Section Pinned.

Variable clock : nat -> Z.
Variable random : nat -> R.
Variable tzOffset : Z -> Z.

Lemma sim_entry_frame w w' id :
  shared_untouched w w' -> sim_entry w' id = sim_entry w id.
Proof.
  intros (Hr & Hs & _). unfold sim_entry, deref. now rewrite Hs, Hr.
Qed.

Lemma clockReads_deref_set k v w : clockReads (deref_set k v w) = clockReads w.
Proof. unfold deref_set. now destruct (simStates w). Qed.

(** The check of one drone leaves the entry of another one alone, and reads
    the clock at most once. *)
Lemma sim_check_other k id w :
  k <> id ->
  let r := isDroneUnderManualOverride clock k w in
  sim_entry (snd r) id = sim_entry w id /\
  (clockReads w <= clockReads (snd r) <= S (clockReads w))%nat.
Proof.
  intros Hk. cbv zeta. split.
  - destruct (sim_override_contract clock k w) as (_ & _ & _ & H).
    apply H. congruence.
  - rewrite sim_check_cases.
    destruct (sim_entry w k) as [state|]; [|cbn; lia].
    destruct (manualOverride state); [|cbn; lia].
    unfold Date_now. cbn [snd].
    destruct (overrideExpiry state) as [e|];
      [destruct (Date_gt _ e)|]; cbn [snd];
      rewrite ?clockReads_deref_set; autorewrite with world; lia.
Qed.

Lemma updateDroneState_clockReads p w :
  clockReads (snd (updateDroneState clock random tzOffset p w)) =
  S (clockReads w).
Proof.
  unfold updateDroneState, bind, ret, Date_now, Math_random.
  destruct (missionPhase p); cbn beta iota;
    repeat (break_match; cbn beta iota);
    repeat match goal with
           | H : (_, _) = (_, _) |- _ => inversion H; subst; clear H
           end;
    reflexivity.
Qed.

Lemma generateCurrentTelemetry_clockReads p ts w :
  clockReads (snd (generateCurrentTelemetry random tzOffset p ts w)) =
  clockReads w.
Proof.
  unfold generateCurrentTelemetry, bind, ret, Math_random.
  destruct (missionPhase p); reflexivity.
Qed.

Lemma pinned_for_later w w' id k k' :
  pinned_for clock w id k ->
  sim_entry w' id = sim_entry w id ->
  (clockReads w <= clockReads w')%nat ->
  (clockReads w' + k' <= clockReads w + k)%nat ->
  pinned_for clock w' id k'.
Proof.
  intros (state & He & Hf & Hx) Hsame H1 H2.
  exists state. rewrite Hsame. repeat split; try assumption.
  intros e n Hexp Hn. apply Hx; [exact Hexp | lia].
Qed.

(** The check of a pinned drone says yes and only reads the clock. *)
Lemma sim_check_pinned w id k :
  pinned_for clock w id (S k) ->
  isDroneUnderManualOverride clock id w = (true, clock_read w).
Proof.
  intros (state & He & Hf & Hx).
  rewrite sim_check_cases, He, Hf. unfold Date_now, next_clock. cbn [snd].
  destruct (overrideExpiry state) as [e|] eqn:Hexp; [|reflexivity].
  rewrite (Hx e (clockReads w) eq_refl); [reflexivity | lia].
Qed.

(** The loop of a tick over a pinned drone: its profile stays where it is,
    as it is, and no record of it is pushed. *)
Lemma tick_loop_pinned profiles now acc w id :
  profile_ids profiles = map fst profiles ->
  pinned_for clock w id (2 * length profiles) ->
  exists profiles' new w',
    tick_loop clock random tzOffset profiles now acc w =
    ((profiles', acc ++ new), w') /\
    (forall i p, profiles !! i = Some (id, p) -> profiles' !! i = Some (id, p)) /\
    Forall (fun t => droneId t <> id) new /\
    telemetry w' = telemetry w.
Proof.
  revert acc w. induction profiles as [|[k p] rest IH]; intros acc w Hkeys Hpin.
  - exists [], [], w. cbn. rewrite app_nil_r.
    split; [reflexivity|]. split; [auto|]. split; [constructor | reflexivity].
  - unfold profile_ids in Hkeys. cbn [map fst snd] in Hkeys.
    injection Hkeys as Hk Hkeys. fold (profile_ids rest) in Hkeys.
    cbn [length] in Hpin.
    cbn [tick_loop]. unfold bind at 1.
    destruct (decide (k = id)) as [->|Hne].
    + rewrite (sim_check_pinned w id (S (2 * length rest)))
        by (eapply pinned_for_later; [exact Hpin|reflexivity|lia|lia]).
      unfold bind, ret.
      destruct (IH acc (clock_read w) Hkeys) as (rest' & new & w' & -> & Hl & Hf & Ht).
      { eapply pinned_for_later; [exact Hpin|reflexivity| |];
          autorewrite with world; lia. }
      exists ((id, p) :: rest'), new, w'. repeat split; try assumption.
      intros [|i] q; cbn; [trivial | apply Hl].
    + pose proof (sim_check_other k id w Hne) as [E0 C0].
      pose proof (isDroneUnderManualOverride_telemetry clock k w) as T0.
      destruct (isDroneUnderManualOverride clock k w) as [[|] w0];
        cbn [snd] in E0, C0, T0.
      * unfold bind, ret.
        destruct (IH acc w0 Hkeys) as (rest' & new & w' & -> & Hl & Hf & Ht).
        { eapply pinned_for_later; [exact Hpin|exact E0|lia|lia]. }
        exists ((k, p) :: rest'), new, w'. repeat split; try congruence.
        intros [|i] q; cbn; [congruence | apply Hl].
      * unfold bind at 1.
        pose proof (updateDroneState_frame clock random tzOffset p w0) as F1.
        pose proof (updateDroneState_clockReads p w0) as C1.
        pose proof (updateDroneState_id clock random tzOffset p w0) as I1.
        destruct (updateDroneState clock random tzOffset p w0) as [p1 w1].
        cbn [fst snd] in F1, C1, I1. unfold bind at 1.
        pose proof (generateCurrentTelemetry_frame random tzOffset p1 now w1) as F2.
        pose proof (generateCurrentTelemetry_clockReads p1 now w1) as C2.
        pose proof (generateCurrentTelemetry_id random tzOffset p1 now w1) as I2.
        destruct (generateCurrentTelemetry random tzOffset p1 now w1) as [data w2].
        cbn [fst snd] in F2, C2, I2. unfold bind, ret.
        destruct (IH (acc ++ [data]) w2 Hkeys) as (rest' & new & w' & -> & Hl & Hf & Ht).
        { eapply pinned_for_later; [exact Hpin| | |].
          - rewrite (sim_entry_frame w1 w2 id F2), (sim_entry_frame w0 w1 id F1).
            exact E0.
          - lia.
          - lia. }
        exists ((k, p1) :: rest'), (data :: new), w'. repeat split.
        -- now rewrite <- app_assoc.
        -- intros [|i] q; cbn; [congruence | apply Hl].
        -- constructor; [congruence | exact Hf].
        -- destruct F1 as (_ & _ & ?), F2 as (_ & _ & ?). congruence.
Qed.

(** The tick as a whole over a pinned drone. *)
Lemma tick_pinned profiles w id :
  profile_ids profiles = map fst profiles ->
  pinned_for clock w id (1 + 2 * length profiles) ->
  let r := generateAndSaveTelemetry clock random tzOffset profiles w in
  (forall i p, profiles !! i = Some (id, p) -> fst r !! i = Some (id, p)) /\
  exists appended : list (list TelemetryData),
    telemetry (snd r) = telemetry w ++ appended /\
    Forall (Forall (fun t => droneId t <> id)) appended.
Proof.
  intros Hkeys Hpin. cbv zeta.
  unfold generateAndSaveTelemetry, bind, Date_now.
  destruct (tick_loop_pinned profiles (clock (clockReads w)) [] (clock_read w)
              id Hkeys)
    as (profiles' & new & w' & -> & Hl & Hf & Ht).
  { eapply pinned_for_later; [exact Hpin|reflexivity| |];
      autorewrite with world; lia. }
  cbn [app]. unfold ret, insertMany.
  destruct (0 <? length new)%nat; cbn [fst snd]; (split; [exact Hl|]).
  - exists [new]. rewrite telemetry_stored, Ht. autorewrite with world.
    split; [reflexivity | now constructor].
  - exists []. rewrite Ht. autorewrite with world. rewrite app_nil_r.
    split; [reflexivity | constructor].
Qed.

End Pinned.

(** X24.  An override set through the admin handler holds the simulator off:
    when the simulator's reference is the registry of the route, a tick that
    follows a request answered with 200, and whose clock readings are all at
    or before the expiry of the answer, leaves the profile of that drone as
    it is, at its place in the map, and stores no record of that drone. *)
Theorem override_holds_simulator_off (clock : nat -> Z) (random : nat -> R)
  (tzOffset : Z -> Z) (Date_parse : string -> Date) (request : Route.Body)
  (answer : Route.Success) (profiles : Profiles) (w : World) :
  simStates w = RefShared ->
  profile_ids profiles = map fst profiles ->
  fst (Route.POST clock random Date_parse request w) = Route.Status200 answer ->
  let w' := snd (Route.POST clock random Date_parse request w) in
  let id := Route.res_droneId answer in
  (forall n : nat,
      (clockReads w' <= n < clockReads w' + 1 + 2 * length profiles)%nat ->
      (clock n <= Route.res_overrideExpiry answer)%Z) ->
  let r := generateAndSaveTelemetry clock random tzOffset profiles w' in
  (forall i p, profiles !! i = Some (id, p) -> fst r !! i = Some (id, p)) /\
  exists appended : list (list TelemetryData),
    telemetry (snd r) = telemetry w' ++ appended /\
    Forall (Forall (fun t => droneId t <> id)) appended.
Proof.
  intros Hshared Hkeys H. cbv zeta. intros Hclock.
  destruct (POST_Status200_valid _ _ _ _ _ _ H) as (status & Hid & Hst & He).
  destruct (POST_valid clock random Date_parse request w _ status Hid Hst)
    as (entry & t & Hreg & Hflag & Hexp & _ & _ & _ & _ & Hsim & _ & _).
  rewrite He in Hexp.
  apply tick_pinned; [exact Hkeys|].
  exists entry. split; [|split; [exact Hflag|]].
  - unfold sim_entry, deref. rewrite Hsim, Hshared, Hreg.
    apply lookup_insert_eq.
  - intros e n He' Hn. rewrite Hexp in He'. injection He' as <-.
    cbn [Date_gt]. specialize (Hclock n). apply Z.ltb_ge. apply Hclock. lia.
Qed.

(** X25.  When the import of the registry fails, overrides do not reach the
    simulator: it keeps an empty map of its own, so that after any request
    to the admin handler no override is in force for it, and the next tick
    stores a record for every drone of the map, the overridden one
    included. *)
Theorem failed_import_ignores_overrides (clock : nat -> Z) (random : nat -> R)
  (tzOffset : Z -> Z) (Date_parse : string -> Date) (request : Route.Body)
  (profiles : Profiles) (w : World) :
  simStates w = RefNull ->
  let w0 := snd (getDroneStates true w) in
  let w1 := snd (Route.POST clock random Date_parse request w0) in
  (forall id, fst (isDroneUnderManualOverride clock id w1) = false) /\
  exists records : list TelemetryData,
    map record_key records = keys_at profiles (next_clock clock w1) /\
    telemetry (snd (generateAndSaveTelemetry clock random tzOffset profiles w1)) =
    telemetry w1 ++ (if decide (profiles = []) then [] else [records]).
Proof.
  intros Hnull. cbv zeta.
  set (w0 := snd (getDroneStates true w)).
  assert (simStates w0 = RefOwn ∅) as H0
      by (unfold w0, getDroneStates; now rewrite Hnull).
  set (w1 := snd (Route.POST clock random Date_parse request w0)).
  assert (simStates w1 = RefOwn ∅) as H1.
  { unfold w1.
    destruct (Route.string_truthy (Route.body_droneId request)) as [id|] eqn:Hid;
      [|now rewrite POST_refuses_incomplete_world by now left].
    destruct (Route.string_truthy (Route.body_status request)) as [st|] eqn:Hst;
      [|now rewrite POST_refuses_incomplete_world by now right].
    destruct (POST_valid clock random Date_parse request w0 id st Hid Hst)
      as (entry & t & _ & _ & _ & _ & _ & _ & _ & Hsim & _).
    now rewrite Hsim. }
  assert (no_override w1) as Hno.
  { intros id state. unfold sim_entry, deref. rewrite H1.
    cbn [mbind option_bind]. rewrite lookup_empty. discriminate. }
  split.
  - intros id. now rewrite (sim_check_inactive clock id w1 (Hno id)).
  - destruct (tick_no_override clock random tzOffset profiles w1 Hno)
      as (profiles' & records & _ & Hk & Ht).
    now exists records.
Qed.

(** ** The fleet and the life cycle of the simulator *)

(** X26.  The simulator is built with a fleet of four drones, A1, A2, B1 and
    B2 in that order, each under its own identifier, idle at its base, with
    no mission and a battery between 85 and 100 percent, bounds included;
    building it draws four random numbers and touches nothing else. *)
Theorem initial_fleet (random : nat -> R) (w : World) :
  (forall n : nat, 0 <= random n < 1) ->
  let r := initializeProfiles random w in
  map fst (fst r) = ["A1"; "A2"; "B1"; "B2"]%string /\
  Forall (fun kp : string * DroneProfile =>
            dp_id (snd kp) = fst kp /\
            missionPhase (snd kp) = idle /\
            currentLocation (snd kp) = baseLocation (snd kp) /\
            85 <= currentBattery (snd kp) <= 100 /\
            destination (snd kp) = None /\
            missionStartTime (snd kp) = None) (fst r) /\
  randomCalls (snd r) = (randomCalls w + 4)%nat /\
  shared_untouched w (snd r).
Proof.
  intros Hrand. cbv zeta.
  unfold initializeProfiles, initialProfiles.
  cbn [initializeProfiles_forEach]. unfold bind, Math_random, ret.
  cbn [fst snd Map_set ip_id].
  repeat (rewrite decide_False by discriminate). cbn [Map_set].
  split; [reflexivity|]. split; [|split; [|repeat split]].
  - repeat (constructor;
            [repeat split; try reflexivity; cbn [snd currentBattery];
             match goal with |- context [random ?n] => pose proof (Hrand n) end;
             lra|]).
    constructor.
  - autorewrite with world. lia.
Qed.

Lemma generateAndSaveTelemetry_keys clock random tzOffset profiles w :
  map fst (fst (generateAndSaveTelemetry clock random tzOffset profiles w)) =
  map fst profiles.
Proof.
  unfold generateAndSaveTelemetry, bind, Date_now.
  destruct (tick_loop_spec clock random tzOffset profiles
              (clock (clockReads w)) [] (clock_read w))
    as (profiles' & new & w' & -> & Hk & _).
  unfold ret, insertMany. now destruct (0 <? length _)%nat.
Qed.

Lemma start_running clock random tzOffset connectFails importFails this w :
  isRunning this = true ->
  start clock random tzOffset connectFails importFails this w = (this, w).
Proof. intros H. unfold start. now rewrite H. Qed.

(** X27.  Starting a stopped simulator on an empty store, with no override
    in the registry, fills the store with the backfill of six hours and the
    first tick, that is with 121 + 1 records per drone; it sets the running
    flag and the timer of 20 seconds and keeps the drones of the map; and
    starting it again does nothing at all. *)
Theorem start_fills_empty_store (clock : nat -> Z) (random : nat -> R)
  (tzOffset : Z -> Z) (importFails : bool) (this : AutoDroneSimulator)
  (w : World) :
  isRunning this = false ->
  concat (telemetry w) = [] ->
  simStates w = RefNull ->
  (forall id state, registry w !! id = Some state -> manualOverride state = false) ->
  let r := start clock random tzOffset false importFails this w in
  isRunning (fst r) = true /\ interval (fst r) = Some 20000%Z /\
  map fst (profiles (fst r)) = map fst (profiles this) /\
  length (concat (telemetry (snd r))) = (122 * length (profiles this))%nat /\
  (forall connectFails importFails',
      start clock random tzOffset connectFails importFails' (fst r) (snd r) =
      (fst r, snd r)).
Proof.
  intros Hrun Hempty Hnull Hreg. cbv zeta.
  assert (exists ps w2,
             start clock random tzOffset false importFails this w =
             ({| isRunning := true; interval := Some 20000%Z; profiles := ps |},
              w2) /\
             map fst ps = map fst (profiles this) /\
             length (concat (telemetry w2)) =
             (122 * length (profiles this))%nat) as (ps & w2 & -> & H3 & H4).
  { unfold start. rewrite Hrun. unfold bind at 1.
    unfold getDroneStates at 1. rewrite Hnull.
    set (w0 := set_simStates _ w).
    assert (no_override w0) as Hno0.
    { intros id state. unfold sim_entry, deref, w0. cbn [simStates set_simStates].
      destruct importFails; cbn [mbind option_bind].
      - rewrite lookup_empty. discriminate.
      - apply Hreg. }
    unfold bind at 1, initializeDatabase, bind at 1, countDocuments.
    replace (telemetry w0) with (telemetry w) by reflexivity.
    rewrite Hempty. cbn [length Nat.eqb].
    destruct (generateHistoricalData_stores clock random tzOffset (profiles this)
                6 w0 ltac:(lia)) as (data & Hlen & Htel & Hr & Hs).
    change (S (Z.to_nat (6 * 60 / 3))) with 121%nat in Hlen.
    destruct (generateHistoricalData clock random tzOffset (profiles this) 6 w0)
      as [[] w1]. cbn [snd] in Htel, Hr, Hs.
    assert (no_override w1) as Hno1.
    { intros id state. unfold sim_entry, deref. rewrite Hs, Hr. apply Hno0. }
    cbn [profiles]. unfold bind, ret.
    pose proof (generateAndSaveTelemetry_keys clock random tzOffset
                  (profiles this) w1) as Hkeys.
    destruct (tick_no_override clock random tzOffset (profiles this) w1 Hno1)
      as (profiles' & records & _ & Hk & Ht).
    destruct (generateAndSaveTelemetry clock random tzOffset (profiles this) w1)
      as [ps w2]. cbn [fst snd] in Hkeys, Ht.
    cbn [isRunning interval].
    exists ps, w2. split; [reflexivity|]. split; [exact Hkeys|].
    rewrite Ht, Htel.
    replace (telemetry w0) with (telemetry w) by reflexivity.
    rewrite !concat_app, Hempty, concat_chunks_from, drop_0. cbn [app].
    rewrite length_app, Hlen.
    apply (f_equal (@length _)) in Hk. unfold keys_at in Hk.
    rewrite !length_map in Hk.
    destruct (decide (profiles this = [])) as [->|_].
    - reflexivity.
    - cbn [concat]. rewrite app_nil_r, Hk. lia. }
  cbn [fst snd isRunning interval profiles].
  split; [reflexivity|]. split; [reflexivity|]. split; [exact H3|].
  split; [exact H4|].
  intros c i. now apply start_running.
Qed.

(** X28.  Stopping undoes what starting did to the simulator object and
    nothing more: after a start that went through, [stop] clears the running
    flag and the timer and keeps the profiles; a stopped simulator is left
    as it is, so that stopping twice is stopping once. *)
Theorem stop_after_start (clock : nat -> Z) (random : nat -> R)
  (tzOffset : Z -> Z) (importFails : bool) (this : AutoDroneSimulator)
  (w : World) :
  isRunning this = false ->
  let started := fst (start clock random tzOffset false importFails this w) in
  stop this = this /\
  isRunning (stop started) = false /\
  interval (stop started) = None /\
  profiles (stop started) = profiles started /\
  stop (stop started) = stop started.
Proof.
  intros Hrun. cbv zeta.
  assert (isRunning
            (fst (start clock random tzOffset false importFails this w)) = true)
    as Hstarted.
  { unfold start. rewrite Hrun. unfold bind, ret.
    destruct (getDroneStates importFails w) as [[] w0].
    destruct (initializeDatabase clock random tzOffset (profiles this) w0)
      as [[] w1].
    cbn [profiles].
    now destruct (generateAndSaveTelemetry clock random tzOffset (profiles this) w1). }
  split; [unfold stop; now rewrite Hrun|].
  destruct (fst (start clock random tzOffset false importFails this w))
    as [running timer ps].
  cbn [isRunning] in Hstarted. subst running.
  repeat split.
Qed.

Section StatusReport.

Variable clock : nat -> Z.

Lemma getStatus_map_spec profiles w :
  let r := getStatus_map clock profiles w in
  Forall2 (fun (kp : string * DroneProfile) (s : DroneStatus) =>
             st_id s = dp_id (snd kp) /\ st_name s = dp_name (snd kp) /\
             st_battery s = currentBattery (snd kp) /\
             st_phase s = missionPhase (snd kp) /\
             st_location s = currentLocation (snd kp))
          profiles (fst r) /\
  telemetry (snd r) = telemetry w /\
  (no_override w ->
   snd r = w /\ Forall (fun s => st_manualOverride s = false) (fst r)).
Proof.
  cbv zeta. revert w. induction profiles as [|[k p] rest IH]; intros w.
  - cbn. repeat split; constructor.
  - cbn [getStatus_map]. unfold bind, ret.
    pose proof (isDroneUnderManualOverride_telemetry clock (dp_id p) w) as T0.
    pose proof (sim_check_inactive clock (dp_id p) w) as N0.
    destruct (isDroneUnderManualOverride clock (dp_id p) w) as [b w0].
    cbn [snd] in T0.
    destruct (IH w0) as (HF & HT & HN).
    destruct (getStatus_map clock rest w0) as [statuses w1].
    cbn [fst snd] in HF, HT, HN |- *.
    split; [|split].
    + constructor; [repeat split | exact HF].
    + congruence.
    + intros Hno. specialize (N0 (Hno (dp_id p))). injection N0 as -> ->.
      destruct (HN Hno) as [-> HA]. split; [reflexivity|].
      constructor; [reflexivity | exact HA].
Qed.

End StatusReport.

(** X29.  The status report lists the drones of the map in order, each with
    the identifier, the name, the battery, the phase and the location of its
    profile, and counts them; it never touches the store of readings; and
    when no override is in force it changes nothing at all and reports no
    drone as overridden. *)
Theorem getStatus_report (clock : nat -> Z) (this : AutoDroneSimulator)
  (w : World) :
  let r := getStatus clock this w in
  status_isRunning (fst r) = isRunning this /\
  status_droneCount (fst r) = length (status_profiles (fst r)) /\
  Forall2 (fun (kp : string * DroneProfile) (s : DroneStatus) =>
             st_id s = dp_id (snd kp) /\ st_name s = dp_name (snd kp) /\
             st_battery s = currentBattery (snd kp) /\
             st_phase s = missionPhase (snd kp) /\
             st_location s = currentLocation (snd kp))
          (profiles this) (status_profiles (fst r)) /\
  telemetry (snd r) = telemetry w /\
  (no_override w ->
   snd r = w /\
   Forall (fun s => st_manualOverride s = false) (status_profiles (fst r))).
Proof.
  cbv zeta. unfold getStatus, bind, ret.
  destruct (getStatus_map_spec clock (profiles this) w) as (HF & HT & HN).
  destruct (getStatus_map clock (profiles this) w) as [statuses w1].
  cbn [fst snd status_isRunning status_droneCount status_profiles] in *.
  split; [reflexivity|]. split; [now apply Forall2_length in HF|].
  split; [exact HF|]. split; [exact HT | exact HN].
Qed.

(** ** Distances *)




(** * The further properties at concrete inputs *)

Lemma grounded_drone_stays_witness :
  missionPhase drone_A1 <> flying /\
  missionPhase drone_A1 <> returning /\
  currentLocation (fst (updateDroneState clock_2000 draws_zero utc drone_A1
                          fresh_world)) =
  currentLocation drone_A1.
Proof.
  assert (missionPhase drone_A1 <> flying) as H1 by discriminate.
  assert (missionPhase drone_A1 <> returning) as H2 by discriminate.
  split; [exact H1|]. split; [exact H2|].
  exact (grounded_drone_stays clock_2000 draws_zero utc drone_A1 fresh_world
           H1 H2).
Defined.

Lemma mission_fields_consistent_witness :
  (forall n : nat, 0 <= draws_zero n < 1) /\
  reachable clock_2000 draws_zero utc drone_A2 /\
  (missionPhase drone_A2 = idle <-> destination drone_A2 = None) /\
  (missionPhase drone_A2 = idle <-> missionStartTime drone_A2 = None) /\
  (missionPhase drone_A2 = idle \/ missionPhase drone_A2 = preparing ->
   currentLocation drone_A2 = baseLocation drone_A2).
Proof.
  split; [exact draws_zero_range|]. split; [exact drone_A2_reachable|].
  exact (mission_fields_consistent clock_2000 draws_zero utc drone_A2
           draws_zero_range drone_A2_reachable).
Defined.



Lemma live_reading_shows_phase_witness :
  (forall n : nat, 0 <= draws_zero n < 1) /\
  configured drone_A1 /\
  (let t := fst (generateCurrentTelemetry draws_zero utc drone_A1 0 fresh_world) in
   droneId t = dp_id drone_A1 /\ timestamp t = 0%Z /\
   td_status t = Some (status_of_phase (missionPhase drone_A1)) /\
   (airborne (missionPhase drone_A1) -> 0 < speed t /\ 0 < altitude t) /\
   (~ airborne (missionPhase drone_A1) -> speed t = 0 /\ altitude t = 0)).
Proof.
  split; [exact draws_zero_range|]. split; [exact drone_A1_configured|].
  exact (live_reading_shows_phase draws_zero utc drone_A1 0 fresh_world
           draws_zero_range drone_A1_configured).
Defined.

Lemma live_reading_climate_witness :
  (forall n : nat, 0 <= draws_zero n < 1) /\
  (let t := fst (generateCurrentTelemetry draws_zero utc drone_A1 0 fresh_world) in
   22 <= temperature t <= 44 /\ 44 <= humidity t <= 80).
Proof.
  split; [exact draws_zero_range|].
  exact (live_reading_climate draws_zero utc drone_A1 0 fresh_world
           draws_zero_range).
Defined.

Lemma historical_reading_ranges_witness :
  (forall n : nat, 0 <= draws_zero n < 1) /\
  configured drone_A1 /\
  (let t := fst (generateHistoricalDataPoint draws_zero utc drone_A1 0
                   fresh_world) in
   (exists s, td_status t = Some s /\ In s statusOptions) /\
   50 <= battery t <= 100 /\
   26 <= temperature t <= 44 /\
   55 <= humidity t <= 80 /\
   0 <= speed t <= maxSpeed drone_A1 /\
   lat (baseLocation drone_A1) - 0.0400005 <= td_lat t
     <= lat (baseLocation drone_A1) + 0.0400005 /\
   lng (baseLocation drone_A1) - 0.0400005 <= td_lng t
     <= lng (baseLocation drone_A1) + 0.0400005).
Proof.
  split; [exact draws_zero_range|]. split; [exact drone_A1_configured|].
  exact (historical_reading_ranges draws_zero utc drone_A1 0 fresh_world
           draws_zero_range drone_A1_configured).
Defined.

Lemma backfill_chunks_exact_witness :
  (0 <= 6)%Z /\
  (let w' := snd (generateHistoricalData clock_2000 draws_zero utc two_drones 6
                    fresh_world) in
   exists data : list TelemetryData,
     length data = (S (Z.to_nat (6 * 60 / 3)) * length two_drones)%nat /\
     telemetry w' = telemetry fresh_world ++ chunks_from data 0 /\
     length (chunks_from data 0) = ((length data + 99) / 100)%nat /\
     (forall j : nat,
         (100 * j + 100 <= length data)%nat ->
         exists chunk, chunks_from data 0 !! j = Some chunk /\
                       length chunk = 100%nat) /\
     registry w' = registry fresh_world /\
     simStates w' = simStates fresh_world).
Proof.
  assert (0 <= 6)%Z as H by lia.
  split; [exact H|].
  exact (backfill_chunks_exact clock_2000 draws_zero utc two_drones 6
           fresh_world H).
Defined.

Lemma backfill_negative_hours_witness :
  (-1 < 0)%Z /\
  generateHistoricalData clock_2000 draws_zero utc two_drones (-1) fresh_world =
  (tt, clock_read fresh_world).
Proof.
  assert (-1 < 0)%Z as H by lia.
  split; [exact H|].
  exact (backfill_negative_hours clock_2000 draws_zero utc two_drones (-1)
           fresh_world H).
Defined.

Lemma two_drones_not_empty : two_drones <> [].
Proof. discriminate. Qed.

Lemma initializeDatabase_once_witness :
  two_drones <> [] /\
  (let w1 := snd (initializeDatabase clock_2000 draws_zero utc two_drones
                    fresh_world) in
   initializeDatabase clock_2000 draws_zero utc two_drones w1 = (tt, w1) /\
   (concat (telemetry fresh_world) <> [] -> w1 = fresh_world)).
Proof.
  split; [exact two_drones_not_empty|].
  exact (initializeDatabase_once clock_2000 draws_zero utc two_drones
           fresh_world two_drones_not_empty).
Defined.

Lemma fresh_world_no_override : no_override fresh_world.
Proof. intros id state H. discriminate H. Qed.

Lemma tick_covers_every_drone_witness :
  no_override fresh_world /\
  exists records : list TelemetryData,
    map record_key records =
    keys_at two_drones (next_clock clock_2000 fresh_world) /\
    telemetry (snd (generateAndSaveTelemetry clock_2000 draws_zero utc
                      two_drones fresh_world)) =
    telemetry fresh_world ++
    (if decide (two_drones = []) then [] else [records]).
Proof.
  split; [exact fresh_world_no_override|].
  exact (tick_covers_every_drone clock_2000 draws_zero utc two_drones
           fresh_world fresh_world_no_override).
Defined.

Lemma POST_refuses_incomplete_witness :
  Route.string_truthy (Route.body_droneId request_no_drone) = None /\
  Route.POST clock_2000 draws_zero no_parse request_no_drone fresh_world =
  (Route.Status400, fresh_world).
Proof.
  split; [reflexivity|].
  exact (POST_refuses_incomplete clock_2000 draws_zero no_parse
           request_no_drone fresh_world (or_introl eq_refl)).
Defined.

(** The request for the default override of drone A1 is accepted, in every
    world, when the clock stands at two seconds past the epoch. *)
Lemma request_zero_accepted (w : World) :
  exists answer : Route.Success,
    fst (Route.POST clock_2000 draws_zero no_parse request_zero w) =
    Route.Status200 answer /\
    Route.res_droneId answer = "A1"%string /\
    Route.res_overrideExpiry answer = 302000%Z.
Proof.
  pose proof (POST_valid clock_2000 draws_zero no_parse request_zero w
                "A1" "Maintenance" eq_refl eq_refl) as H.
  cbv zeta in H.
  assert (Route.Date_of_sum no_parse (next_clock clock_2000 w)
            (js_or (Route.body_duration request_zero) (JsNumber (5 * 60 * 1000))) =
          DateAt 302000) as E.
  { unfold js_or. rewrite request_zero_falsy.
    unfold Route.Date_of_sum, next_clock, clock_2000.
    replace (IZR 2000 + 5 * 60 * 1000) with (IZR 302000) by lra.
    apply Date_of_number_IZR. lia. }
  rewrite E in H.
  destruct H as (entry & t & _ & _ & _ & _ & _ & _ & _ & _ & _ & answer & Ha & He & Hi & _).
  exists answer. repeat split; assumption.
Qed.

Lemma override_lasts_until_expiry_witness :
  exists answer : Route.Success,
    fst (Route.POST clock_2000 draws_zero no_parse request_zero fresh_world) =
    Route.Status200 answer /\
    (let w' := snd (Route.POST clock_2000 draws_zero no_parse request_zero
                      fresh_world) in
     let id := Route.res_droneId answer in
     let check := Route.isDroneUnderManualOverride clock_2000 id w' in
     next_clock clock_2000 w' = clock_2000 (clockReads fresh_world + 4)%nat /\
     ((next_clock clock_2000 w' <= Route.res_overrideExpiry answer)%Z ->
      fst check = true) /\
     ((Route.res_overrideExpiry answer < next_clock clock_2000 w')%Z ->
      fst check = false /\
      exists state, registry (snd check) !! id = Some state /\
                    manualOverride state = false /\
                    overrideExpiry state = None)).
Proof.
  destruct (request_zero_accepted fresh_world) as (answer & H & _ & _).
  exists answer. split; [exact H|].
  exact (override_lasts_until_expiry clock_2000 draws_zero no_parse
           request_zero fresh_world answer H).
Defined.

Lemma accepted_POST_effects_witness :
  exists answer : Route.Success,
    fst (Route.POST clock_2000 draws_zero no_parse request_zero fresh_world) =
    Route.Status200 answer /\
    (let w' := snd (Route.POST clock_2000 draws_zero no_parse request_zero
                      fresh_world) in
     let id := Route.res_droneId answer in
     (exists entry,
         registry w' !! id = Some entry /\
         manualOverride entry = true /\
         oe_status entry = Route.res_status answer /\
         overrideExpiry entry =
         Some (DateAt (Route.res_overrideExpiry answer))) /\
     (forall k, k <> id -> registry w' !! k = registry fresh_world !! k) /\
     (exists t,
         telemetry w' = telemetry fresh_world ++ [[t]] /\
         droneId t = id /\ td_status t = Some (Route.res_status answer) /\
         battery t = Route.res_battery answer)).
Proof.
  destruct (request_zero_accepted fresh_world) as (answer & H & _ & _).
  exists answer. split; [exact H|].
  exact (accepted_POST_effects clock_2000 draws_zero no_parse request_zero
           fresh_world answer H).
Defined.

Lemma request_forever_oversized :
  0 < 10000000000000000 /\
  8640000000000000 <
  IZR (next_clock clock_2000 fresh_world) + 10000000000000000.
Proof. unfold next_clock, clock_2000. split; lra. Qed.

Lemma oversized_duration_pins_forever_witness :
  Route.body_duration request_forever = JsNumber 10000000000000000 /\
  (let r := Route.POST clock_2000 draws_zero no_parse request_forever
              fresh_world in
   fst r = Route.Status500 /\
   (exists entry,
       registry (snd r) !! "A1"%string = Some entry /\
       manualOverride entry = true /\
       overrideExpiry entry = Some InvalidDate) /\
   fst (call_n (Route.isDroneUnderManualOverride clock_2000 "A1") 3 (snd r)) =
   replicate 3 true).
Proof.
  split; [reflexivity|].
  exact (oversized_duration_pins_forever clock_2000 draws_zero no_parse
           request_forever fresh_world "A1" "Maintenance"
           10000000000000000 3 eq_refl eq_refl eq_refl
           (proj1 request_forever_oversized)
           (proj2 request_forever_oversized)).
Defined.

Lemma context_at_base_in_range :
  0 <= Route.ctx_battery context_at_base <= 100 /\
  -89.995 <= lat (Route.ctx_lastPosition context_at_base) <= 89.995 /\
  -179.995 <= lng (Route.ctx_lastPosition context_at_base) <= 179.995.
Proof. cbn. lra. Qed.

Lemma override_reading_ranges_witness :
  (forall n : nat, 0 <= draws_zero n < 1) /\
  (let t := fst (Route.generateRealisticTelemetry clock_2000 draws_zero "A1"
                   "In Flight" context_at_base fresh_world) in
   in_domain t /\
   22 <= temperature t <= 48 /\ humidity t = 65 /\
   speed t <= 65 /\ altitude t <= 200).
Proof.
  split; [exact draws_zero_range|].
  exact (override_reading_ranges clock_2000 draws_zero "A1" "In Flight"
           context_at_base fresh_world draws_zero_range
           (proj1 context_at_base_in_range)
           (proj1 (proj2 context_at_base_in_range))
           (proj2 (proj2 context_at_base_in_range))).
Defined.

Lemma standby_is_ground_status : In "Standby"%string ground_statuses.
Proof. right. left. reflexivity. Qed.

Lemma ground_status_at_base_witness :
  In "Standby"%string ground_statuses /\
  (let t := fst (Route.generateRealisticTelemetry clock_2000 draws_zero "A1"
                   "Standby" context_at_base fresh_world) in
   td_lat t = lat nairobi_base /\ td_lng t = lng nairobi_base /\
   speed t = 0 /\ altitude t = 0).
Proof.
  split; [exact standby_is_ground_status|].
  exact (ground_status_at_base clock_2000 draws_zero "A1" "Standby"
           context_at_base fresh_world standby_is_ground_status).
Defined.

Lemma hovering_is_no_status : ~ In "Hovering"%string switch_statuses.
Proof.
  cbn. intros H.
  repeat (destruct H as [H|H]; [discriminate H|]). exact H.
Qed.

Lemma unknown_status_default_reading_witness :
  ~ In "Hovering"%string switch_statuses /\
  (let r := Route.generateRealisticTelemetry clock_2000 draws_zero "A1"
              "Hovering" context_at_base fresh_world in
   td_status (fst r) = Some "Hovering"%string /\
   battery (fst r) = Route.ctx_battery context_at_base /\
   temperature (fst r) = 28 /\ speed (fst r) = 0 /\ altitude (fst r) = 0 /\
   td_lat (fst r) = lat (Route.ctx_lastPosition context_at_base) /\
   td_lng (fst r) = lng (Route.ctx_lastPosition context_at_base) /\
   randomCalls (snd r) = randomCalls fresh_world).
Proof.
  split; [exact hovering_is_no_status|].
  exact (unknown_status_default_reading clock_2000 draws_zero "A1" "Hovering"
           context_at_base fresh_world hovering_is_no_status).
Defined.

Lemma B7_has_no_entry :
  forall id, Route.string_truthy (Some "B7"%string) = Some id ->
             registry (world_with expired_A1) !! id = None.
Proof. intros id [= <-]. reflexivity. Qed.

Lemma GET_unknown_drone_lists_all_witness :
  registry (world_with expired_A1) !! "B7"%string = None /\
  fst (Route.GET clock_2000 (Some "B7"%string) (world_with expired_A1)) =
  Route.AllStates
    (Route.sweep (next_clock clock_2000 (world_with expired_A1)) <$>
     registry (world_with expired_A1)).
Proof.
  split; [reflexivity|].
  exact (GET_unknown_drone_lists_all clock_2000 (Some "B7"%string)
           (world_with expired_A1) B7_has_no_entry).
Defined.

Lemma clock_2000_before_expiry (answer : Route.Success) (lo hi : nat) :
  Route.res_overrideExpiry answer = 302000%Z ->
  forall n : nat,
    (lo <= n < hi)%nat -> (clock_2000 n <= Route.res_overrideExpiry answer)%Z.
Proof. intros -> n _. unfold clock_2000. lia. Qed.

Lemma override_holds_simulator_off_witness :
  exists answer : Route.Success,
    simStates (world_with pinned_A1) = RefShared /\
    profile_ids two_drones = map fst two_drones /\
    fst (Route.POST clock_2000 draws_zero no_parse request_zero
           (world_with pinned_A1)) = Route.Status200 answer /\
    (let w' := snd (Route.POST clock_2000 draws_zero no_parse request_zero
                      (world_with pinned_A1)) in
     let id := Route.res_droneId answer in
     let r := generateAndSaveTelemetry clock_2000 draws_zero utc two_drones w' in
     (forall i p, two_drones !! i = Some (id, p) -> fst r !! i = Some (id, p)) /\
     exists appended : list (list TelemetryData),
       telemetry (snd r) = telemetry w' ++ appended /\
       Forall (Forall (fun t => droneId t <> id)) appended).
Proof.
  destruct (request_zero_accepted (world_with pinned_A1))
    as (answer & H & _ & He).
  exists answer. split; [reflexivity|]. split; [reflexivity|].
  split; [exact H|].
  exact (override_holds_simulator_off clock_2000 draws_zero utc no_parse
           request_zero answer two_drones (world_with pinned_A1)
           eq_refl eq_refl H
           (clock_2000_before_expiry answer _ _ He)).
Defined.

Lemma failed_import_ignores_overrides_witness :
  simStates fresh_world = RefNull /\
  (let w0 := snd (getDroneStates true fresh_world) in
   let w1 := snd (Route.POST clock_2000 draws_zero no_parse request_zero w0) in
   (forall id, fst (isDroneUnderManualOverride clock_2000 id w1) = false) /\
   exists records : list TelemetryData,
     map record_key records = keys_at two_drones (next_clock clock_2000 w1) /\
     telemetry (snd (generateAndSaveTelemetry clock_2000 draws_zero utc
                       two_drones w1)) =
     telemetry w1 ++ (if decide (two_drones = []) then [] else [records])).
Proof.
  split; [reflexivity|].
  exact (failed_import_ignores_overrides clock_2000 draws_zero utc no_parse
           request_zero two_drones fresh_world eq_refl).
Defined.

Lemma initial_fleet_witness :
  (forall n : nat, 0 <= draws_zero n < 1) /\
  (let r := initializeProfiles draws_zero fresh_world in
   map fst (fst r) = ["A1"; "A2"; "B1"; "B2"]%string /\
   Forall (fun kp : string * DroneProfile =>
             dp_id (snd kp) = fst kp /\
             missionPhase (snd kp) = idle /\
             currentLocation (snd kp) = baseLocation (snd kp) /\
             85 <= currentBattery (snd kp) <= 100 /\
             destination (snd kp) = None /\
             missionStartTime (snd kp) = None) (fst r) /\
   randomCalls (snd r) = (randomCalls fresh_world + 4)%nat /\
   shared_untouched fresh_world (snd r)).
Proof.
  split; [exact draws_zero_range|].
  exact (initial_fleet draws_zero fresh_world draws_zero_range).
Defined.

Lemma fresh_world_registry_empty :
  forall id state,
    registry fresh_world !! id = Some state -> manualOverride state = false.
Proof. intros id state H. discriminate H. Qed.

Lemma start_fills_empty_store_witness :
  isRunning stopped_simulator = false /\
  concat (telemetry fresh_world) = [] /\
  simStates fresh_world = RefNull /\
  (let r := start clock_2000 draws_zero utc false false stopped_simulator
              fresh_world in
   isRunning (fst r) = true /\ interval (fst r) = Some 20000%Z /\
   map fst (profiles (fst r)) = map fst (profiles stopped_simulator) /\
   length (concat (telemetry (snd r))) =
   (122 * length (profiles stopped_simulator))%nat /\
   (forall connectFails importFails',
       start clock_2000 draws_zero utc connectFails importFails' (fst r) (snd r) =
       (fst r, snd r))).
Proof.
  split; [reflexivity|]. split; [reflexivity|]. split; [reflexivity|].
  exact (start_fills_empty_store clock_2000 draws_zero utc false
           stopped_simulator fresh_world eq_refl eq_refl eq_refl
           fresh_world_registry_empty).
Defined.

Lemma stop_after_start_witness :
  isRunning stopped_simulator = false /\
  (let started := fst (start clock_2000 draws_zero utc false false
                         stopped_simulator fresh_world) in
   stop stopped_simulator = stopped_simulator /\
   isRunning (stop started) = false /\
   interval (stop started) = None /\
   profiles (stop started) = profiles started /\
   stop (stop started) = stop started).
Proof.
  split; [reflexivity|].
  exact (stop_after_start clock_2000 draws_zero utc false stopped_simulator
           fresh_world eq_refl).
Defined.


